(** * gdrivetoolbox: a shallow embedding of [auth/auth.go] and [deploy/deploy.go]

    The repository is a thin client over the Google OAuth2 token endpoint and
    the Drive v3 REST API.  Each exported Go function is a straight line of
    local checks, HTTP round trips and JSON decodings with early returns.

    The embedding keeps that shape:
    - a Go function body is a computation in the monad [M R], which threads
      the list of requests handed to [http.DefaultClient.Do] so far and can
      stop with [Return r] (a Go [return]) or with [Panic] (a nil dereference);
      running a body on the history [h] gives its outcome and the history
      extended by the requests it issued;
    - the Go standard library ([encoding/json], [net/url], [path/filepath],
      [mime], the wire format of [mime/multipart]) is the class [GoLib];
    - the machine and the network ([os.Stat], [os.Open], the HTTP transport,
      the random multipart boundary) are the class [World].

    Status lines printed with [fmt.Println]/[fmt.Printf] and the deferred
    [resp.Body.Close()] calls have no effect on results or requests and are
    not modelled. *)

From Stdlib Require Import ZArith String Ascii DecimalString Bool List Lia.
From stdpp Require Import base strings gmap list.

Set Default Proof Using "Type".

(** ** Strings *)

(** The double quote character, as a one-character string. *)
Definition dq : string := String "034" "".

(** Carriage return, line feed. *)
Definition crlf : string := String "013" (String "010" "").

(** [%d] of [fmt.Sprintf]/[fmt.Errorf] on an [int]. *)
Definition fmt_d (n : Z) : string := NilZero.string_of_int (Z.to_int n).

(** [bytes.Contains(b, sub)]: [sub] occurs in [b] as a contiguous run. *)
Fixpoint bytes_Contains (b sub : string) : bool :=
  String.prefix sub b ||
  match b with
  | EmptyString => false
  | String _ b' => bytes_Contains b' sub
  end.

(** [strings.ContainsAny(s, chars)]. *)
Fixpoint strings_ContainsAny (s chars : string) : bool :=
  match s with
  | EmptyString => false
  | String c s' =>
      bytes_Contains chars (String c "") || strings_ContainsAny s' chars
  end.

(** ** Errors *)

(** Go [error] values built by this repository: [errors.New(msg)] and
    [fmt.Errorf] without [%w] carry a message; [fmt.Errorf("...%w", err)]
    wraps a cause behind a prefix.  Errors of the library and of the world
    are values of the same type. *)
Inductive error : Type :=
  | errors_New (msg : string)
  | fmt_Errorf_w (prefix : string) (cause : error).

(** [err.Error()]. *)
Fixpoint Error (e : error) : string :=
  match e with
  | errors_New msg => msg
  | fmt_Errorf_w prefix cause => prefix +:+ Error cause
  end.

(** [v, _ := f(...)] on a string or byte-slice result: the zero value on error. *)
Definition ignore_err (r : error + string) : string :=
  match r with
  | inl _ => ""
  | inr v => v
  end.

(** ** HTTP requests and responses *)

Record Request : Type := {
  Method : string;
  URL : string;
  Header : gmap string string;
  Body : option string;
}.

(** [req.Header.Set(key, value)] on a non-nil request. *)
Definition Header_Set (req : Request) (key value : string) : Request :=
  {| Method := Method req; URL := URL req;
     Header := <[key := value]> (Header req); Body := Body req |}.

(** A response as the code reads it: the status code and the bytes that
    [io.ReadAll(resp.Body)] yields (its error is discarded at every call site). *)
Record Response : Type := {
  StatusCode : Z;
  RespBody : string;
}.

(** ** Decoded JSON shapes *)

(** [deploy]: an element of [result.Files]. *)
Record DriveFile : Type := {
  ID : string;
  Name : string;
  Description : string;
}.

(** [auth.GoogleTokenResponse]. *)
Record GoogleTokenResponse : Type := {
  AccessToken : string;
  ExpiresIn : Z;
  TokenType : string;
}.

(** Values stored in the [map[string]interface{}] / [map[string]string]
    literals that the code marshals: a string or a slice of strings. *)
Inductive MetaVal : Type :=
  | MString (s : string)
  | MStrings (l : list string).

(** ** The multipart writer *)

(** [multipart.Writer] over a [bytes.Buffer]: the boundary, the parts created
    so far (header and payload), and whether [Close] was called.  Writing to
    a [bytes.Buffer] cannot fail, so [CreatePart], [Write] and [Close] are
    total here. *)
Record Writer : Type := {
  boundary : string;
  parts : list (gmap string string * string);
  closed : bool;
}.

Definition multipart_NewWriter (b : string) : Writer :=
  {| boundary := b; parts := []; closed := false |}.

Definition CreatePart (header : gmap string string) (w : Writer) : Writer :=
  {| boundary := boundary w; parts := parts w ++ [(header, "")]; closed := closed w |}.

(** [part.Write(data)] / [io.Copy(part, f)] on the part created last. *)
Definition Part_Write (data : string) (w : Writer) : Writer :=
  {| boundary := boundary w;
     parts := match reverse (parts w) with
              | [] => []
              | (h, d) :: earlier => reverse earlier ++ [(h, d +:+ data)]
              end;
     closed := closed w |}.

Definition Writer_Close (w : Writer) : Writer :=
  {| boundary := boundary w; parts := parts w; closed := true |}.

(** [writer.Boundary()]. *)
Definition Boundary (w : Writer) : string := boundary w.

(** [writer.FormDataContentType()]: the boundary is quoted when it holds one
    of the RFC 2045 tspecials or a space. *)
Definition FormDataContentType (w : Writer) : string :=
  let b := boundary w in
  let b := if strings_ContainsAny b ("()<>@,;:\" +:+ dq +:+ "/[]?= ")
           then dq +:+ b +:+ dq else b in
  "multipart/form-data; boundary=" +:+ b.

(** ** The standard library and the world *)

Record FileInfo : Type := { IsDir : bool }.

(** An opened file as [io.Copy] sees it: the bytes read and the read error, if any. *)
Record File : Type := { contents : string; read_err : option error }.

Class GoLib : Type := {
  filepath_Join : string → string → string;
  filepath_Base : string → string;
  filepath_Ext : string → string;
  mime_TypeByExtension : string → string;
  url_QueryEscape : string → string;
  (** the error of [http.NewRequest(method, url, body)], if any *)
  http_NewRequest_err : string → string → option error;
  json_Marshal : gmap string MetaVal → error + string;
  (** [json.Unmarshal(body, &result)] for [struct{ Files []struct{ID, Name, Description} }] *)
  json_Unmarshal_files : string → error + list DriveFile;
  (** [json.Unmarshal(body, &result)] for [struct{ ID string }] *)
  json_Unmarshal_id : string → error + string;
  (** [json.NewDecoder(resp.Body).Decode(&tokenResp)] *)
  json_Decode_token : string → error + GoogleTokenResponse;
  (** the bytes a multipart writer has put in its buffer *)
  multipart_bytes : Writer → string;
}.

Class World : Type := {
  os_Stat : string → error + FileInfo;
  os_Open : string → error + File;
  (** [http.DefaultClient.Do(req)], given the requests issued before [req] *)
  RoundTrip : list Request → Request → error + Response;
  (** the boundary that [multipart.NewWriter] draws *)
  randomBoundary : string;
}.

(** ** The monad of function bodies *)

Inductive Res (R A : Type) : Type :=
  | Next (a : A)
  | Return (r : R)
  | Panic.
Arguments Next {R A} a.
Arguments Return {R A} r.
Arguments Panic {R A}.

(** A computation receives the requests issued so far, oldest first, and
    yields its result together with the requests issued once it is done. *)
Definition M (R A : Type) : Type := list Request → Res R A * list Request.

Definition ret {R A} (a : A) : M R A := λ h, (Next a, h).

Definition bind {R A B} (m : M R A) (f : A → M R B) : M R B :=
  λ h,
    match m h with
    | (Next a, h') => f a h'
    | (Return r, h') => (Return r, h')
    | (Panic, h') => (Panic, h')
    end.

(** A Go [return] statement. *)
Definition return_ {R A} (r : R) : M R A := λ h, (Return r, h).

Definition panic {R A} : M R A := λ h, (Panic, h).

Notation "x <- m ;; k" := (bind m (λ x, k))
  (at level 20, m at level 99, k at level 200, only parsing).

(** The body of a Go function returning [R]: every path ends in a [return]. *)
Definition Func (R : Type) : Type := M R Empty_set.

Section Program.
Context {L : GoLib} {W : World}.

(** [http.DefaultClient.Do(req)]. *)
Definition Do {R} (req : Request) : M R (error + Response) :=
  λ h, (Next (RoundTrip h req), h ++ [req]).

(** [http.NewRequest(method, url, body)]. *)
Definition http_NewRequest (method url : string) (body : option string)
  : error + Request :=
  match http_NewRequest_err method url with
  | Some err => inl err
  | None => inr {| Method := method; URL := url; Header := ∅; Body := body |}
  end.

(** [req, _ := http.NewRequest(...)]: the pointer, nil on error. *)
Definition NewRequest_ptr (method url : string) (body : option string)
  : option Request :=
  match http_NewRequest method url body with
  | inl _ => None
  | inr req => Some req
  end.

(** [req.Header.Set(key, value)] through a pointer that may be nil. *)
Definition ptr_Header_Set {R} (req : option Request) (key value : string)
  : M R Request :=
  match req with
  | None => panic
  | Some r => ret (Header_Set r key value)
  end.

(** *** auth/auth.go *)

Definition tokenURL : string := "https://oauth2.googleapis.com/token".

Definition GetGoogleAccessToken (clientID clientSecret refreshToken : string)
  : Func (string * option error) :=
  let data : gmap string MetaVal :=
    <["client_id" := MString clientID]>
    (<["client_secret" := MString clientSecret]>
    (<["refresh_token" := MString refreshToken]>
    (<["grant_type" := MString "refresh_token"]> ∅))) in
  let body := ignore_err (json_Marshal data) in
  match http_NewRequest "POST" tokenURL (Some body) with
  | inl err => return_ ("", Some err)
  | inr req =>
      let req := Header_Set req "Content-Type" "application/json" in
      r <- Do req ;;
      match r with
      | inl err => return_ ("", Some err)
      | inr resp =>
          match json_Decode_token (RespBody resp) with
          | inl err =>
              return_ ("", Some (fmt_Errorf_w "failed to decode token response: " err))
          | inr tokenResp =>
              if (AccessToken tokenResp =? "")%string
              then return_ ("", Some (errors_New "no access_token in response"))
              else return_ (AccessToken tokenResp, None)
          end
      end
  end.

(** *** deploy/deploy.go: URLs and bodies built with [fmt.Sprintf] *)

(** The search URL of [DeployPDF] and [CheckRemoteVersionExists] (the same
    format string in both). *)
Definition queryURL (folderID encodedName : string) : string :=
  "https://www.googleapis.com/drive/v3/files?q='" +:+ folderID
  +:+ "'+in+parents+and+name='" +:+ encodedName
  +:+ "'+and+trashed=false&fields=files(id,name,description)".

(** ["https://www.googleapis.com/drive/v3/files/%s"]: rename, delete and
    sharing-restriction requests. *)
Definition fileURL (fileID : string) : string :=
  "https://www.googleapis.com/drive/v3/files/" +:+ fileID.

(** [".../files/%s?addParents=%s&removeParents=%s&fields=id,parents"]: the
    move into the archive and the move into the final folder. *)
Definition moveURL (fileID addParents removeParents : string) : string :=
  "https://www.googleapis.com/drive/v3/files/" +:+ fileID
  +:+ "?addParents=" +:+ addParents
  +:+ "&removeParents=" +:+ removeParents +:+ "&fields=id,parents".

Definition uploadURL : string :=
  "https://www.googleapis.com/upload/drive/v3/files?uploadType=multipart".

(** [fmt.Sprintf(`{"name": "%s"}`, renamedFile)]. *)
Definition renameBody (renamedFile : string) : string :=
  "{" +:+ dq +:+ "name" +:+ dq +:+ ": " +:+ dq +:+ renamedFile +:+ dq +:+ "}".

(** [`{"copyRequiresWriterPermission": true, "writersCanShare": false}`]. *)
Definition permBody : string :=
  "{" +:+ dq +:+ "copyRequiresWriterPermission" +:+ dq +:+ ": true, "
  +:+ dq +:+ "writersCanShare" +:+ dq +:+ ": false}".

(** [`"id"`], the needle of the final move check. *)
Definition quoted_id : string := dq +:+ "id" +:+ dq.

(** *** deploy/deploy.go: DeployPDF *)

(** Lines 58-62: id and description of the first entry of [result.Files],
    both empty when the list is empty. *)
Definition firstFile (Files : list DriveFile) : string * string :=
  match Files with
  | f :: _ => (ID f, Description f)
  | [] => ("", "")
  end.

(** Lines 34-62, "Query for existing file". *)
Definition queryExisting (accessToken pdfFile folderID : string)
  : M (option error) (string * string) :=
  let encodedName := url_QueryEscape pdfFile in
  req <- ptr_Header_Set (NewRequest_ptr "GET" (queryURL folderID encodedName) None)
           "Authorization" ("Bearer " +:+ accessToken) ;;
  r <- Do req ;;
  match r with
  | inl err => return_ (Some err)
  | inr resp =>
      match json_Unmarshal_files (RespBody resp) with
      | inl err => return_ (Some err)
      | inr Files => ret (firstFile Files)
      end
  end.

(** Lines 71-75: the name under which the old version is archived. *)
Definition renamedFile (fileName existingFileDesc : string) : string :=
  let renamed := fileName +:+ "-" +:+ existingFileDesc in
  let renamed :=
    if (existingFileDesc =? "")%string || (existingFileDesc =? "null")%string
    then fileName +:+ "-unknown" else renamed in
  renamed +:+ ".pdf".

(** Lines 69-116, "Archive old version if needed": rename and move into
    [oldFolderID], or delete when no archive folder is given, or nothing. *)
Definition archiveOldVersion
  (accessToken fileName folderID oldFolderID existingFileID existingFileDesc : string)
  : M (option error) unit :=
  if negb (existingFileID =? "")%string && negb (oldFolderID =? "")%string then
    let renamed := renamedFile fileName existingFileDesc in
    (* Rename *)
    req <- ptr_Header_Set
             (NewRequest_ptr "PATCH" (fileURL existingFileID) (Some (renameBody renamed)))
             "Authorization" ("Bearer " +:+ accessToken) ;;
    let req := Header_Set req "Content-Type" "application/json" in
    r <- Do req ;;
    match r with
    | inl err => return_ (Some (fmt_Errorf_w "failed to rename existing file: " err))
    | inr _ =>
        (* Move *)
        req <- ptr_Header_Set
                 (NewRequest_ptr "PATCH" (moveURL existingFileID oldFolderID folderID) None)
                 "Authorization" ("Bearer " +:+ accessToken) ;;
        r <- Do req ;;
        match r with
        | inl err => return_ (Some (fmt_Errorf_w "failed to move old file to archive: " err))
        | inr _ => ret tt
        end
    end
  else if negb (existingFileID =? "")%string then
    req <- ptr_Header_Set (NewRequest_ptr "DELETE" (fileURL existingFileID) None)
             "Authorization" ("Bearer " +:+ accessToken) ;;
    r <- Do req ;;
    match r with
    | inl err => return_ (Some (fmt_Errorf_w "failed to delete existing file: " err))
    | inr resp =>
        (* Expect 204 No Content on success; some endpoints may return 200 *)
        if negb (StatusCode resp =? 204)%Z && negb (StatusCode resp =? 200)%Z
        then return_ (Some (errors_New
               ("failed to delete existing file: status " +:+ fmt_d (StatusCode resp)
                +:+ ": " +:+ RespBody resp)))
        else ret tt
    end
  else ret tt.

(** Lines 118-146: the multipart writer after both parts are written. *)
Definition deployWriter (pdfFile versionSafe tempFolderID : string) (f : File)
  : Writer :=
  let metadata : gmap string MetaVal :=
    <["name" := MString pdfFile]>
    (<["parents" := MStrings [tempFolderID]]>
    (<["description" := MString versionSafe]> ∅)) in
  let metadataJSON := ignore_err (json_Marshal metadata) in
  let writer := multipart_NewWriter randomBoundary in
  let writer := CreatePart {["Content-Type" := "application/json; charset=UTF-8"]} writer in
  let writer := Part_Write metadataJSON writer in
  let writer := CreatePart {["Content-Type" := "application/pdf"]} writer in
  let writer := Part_Write (contents f) writer in
  Writer_Close writer.

(** Lines 118-165, "Upload new file (multipart/related)": yields the new file id. *)
Definition uploadNewFile (accessToken pdfFile pdfPath versionSafe tempFolderID : string)
  : M (option error) string :=
  match os_Open pdfPath with
  | inl err => return_ (Some err)
  | inr osPDFFile =>
      let writer := deployWriter pdfFile versionSafe tempFolderID osPDFFile in
      req <- ptr_Header_Set
               (NewRequest_ptr "POST" uploadURL (Some (multipart_bytes writer)))
               "Authorization" ("Bearer " +:+ accessToken) ;;
      let req := Header_Set req "Content-Type" (FormDataContentType writer) in
      r <- Do req ;;
      match r with
      | inl err => return_ (Some (fmt_Errorf_w "upload failed: " err))
      | inr resp =>
          let uploadRespBody := RespBody resp in
          match json_Unmarshal_id uploadRespBody with
          | inl _ => return_ (Some (errors_New ("upload failed: " +:+ uploadRespBody)))
          | inr newFileID =>
              if (newFileID =? "")%string
              then return_ (Some (errors_New ("upload failed: " +:+ uploadRespBody)))
              else ret newFileID
          end
      end
  end.

(** Lines 167-173, "Set sharing restrictions": the outcome of [Do] is ignored. *)
Definition setSharingRestrictions (accessToken newFileID : string)
  : M (option error) unit :=
  req <- ptr_Header_Set (NewRequest_ptr "PATCH" (fileURL newFileID) (Some permBody))
           "Authorization" ("Bearer " +:+ accessToken) ;;
  let req := Header_Set req "Content-Type" "application/json" in
  ignored <- Do req ;;
  ret tt.

(** Lines 175-189, "Move to final folder". *)
Definition moveToFinalFolder (accessToken newFileID folderID tempFolderID : string)
  : Func (option error) :=
  req <- ptr_Header_Set
           (NewRequest_ptr "PATCH" (moveURL newFileID folderID tempFolderID) None)
           "Authorization" ("Bearer " +:+ accessToken) ;;
  r <- Do req ;;
  match r with
  | inl err => return_ (Some (fmt_Errorf_w "move to final folder failed: " err))
  | inr resp =>
      let moveRespBody := RespBody resp in
      if negb (bytes_Contains moveRespBody quoted_id)
      then return_ (Some (errors_New
             ("upload succeeded, but move failed: " +:+ moveRespBody)))
      else return_ None
  end.

(** Lines 18-173: everything before the final move; yields the new file id. *)
Definition deployBeforeMove
  (accessToken fileName versionSafe tempFolderID folderID oldFolderID sopDir : string)
  : M (option error) string :=
  (* Sanity checks *)
  if (fileName =? "")%string || (accessToken =? "")%string
     || (tempFolderID =? "")%string || (folderID =? "")%string
  then return_ (Some (errors_New
         "missing required variable(s): fileName, accessToken, tempFolderID, folderID"))
  else
  let pdfFile := fileName +:+ ".pdf" in
  let pdfPath := filepath_Join sopDir pdfFile in
  match os_Stat pdfPath with
  | inl _ => return_ (Some (errors_New ("PDF '" +:+ pdfPath +:+ "' not found")))
  | inr _ =>
  if (versionSafe =? "")%string
  then return_ (Some (errors_New
         "version-safe.txt missing or empty, or VERSION_SUFFIX not set"))
  else
  existing <- queryExisting accessToken pdfFile folderID ;;
  let '(existingFileID, existingFileDesc) := existing in
  if negb (existingFileID =? "")%string && (existingFileDesc =? versionSafe)%string
  then return_ None
  else
  archived <- archiveOldVersion accessToken fileName folderID oldFolderID
                existingFileID existingFileDesc ;;
  newFileID <- uploadNewFile accessToken pdfFile pdfPath versionSafe tempFolderID ;;
  shared <- setSharingRestrictions accessToken newFileID ;;
  ret newFileID
  end.

Definition DeployPDF
  (accessToken fileName versionSafe tempFolderID folderID oldFolderID sopDir : string)
  : Func (option error) :=
  newFileID <- deployBeforeMove accessToken fileName versionSafe tempFolderID
                 folderID oldFolderID sopDir ;;
  moveToFinalFolder accessToken newFileID folderID tempFolderID.

(** Lines 118-189: the workflow from the upload step on. *)
Definition deployFromUpload
  (accessToken fileName versionSafe tempFolderID folderID sopDir : string)
  : Func (option error) :=
  let pdfFile := fileName +:+ ".pdf" in
  let pdfPath := filepath_Join sopDir pdfFile in
  newFileID <- uploadNewFile accessToken pdfFile pdfPath versionSafe tempFolderID ;;
  shared <- setSharingRestrictions accessToken newFileID ;;
  moveToFinalFolder accessToken newFileID folderID tempFolderID.

(** The search request of [DeployPDF] and [CheckRemoteVersionExists]. *)
Definition searchRequest (accessToken pdfFile folderID : string) : Request :=
  Header_Set
    {| Method := "GET"; URL := queryURL folderID (url_QueryEscape pdfFile);
       Header := ∅; Body := None |}
    "Authorization" ("Bearer " +:+ accessToken).

(** The rename request of the archive branch (lines 77-82). *)
Definition renameRequest (accessToken fileName existingFileID existingFileDesc : string)
  : Request :=
  Header_Set
    (Header_Set
       {| Method := "PATCH"; URL := fileURL existingFileID; Header := ∅;
          Body := Some (renameBody (renamedFile fileName existingFileDesc)) |}
       "Authorization" ("Bearer " +:+ accessToken))
    "Content-Type" "application/json".

(** A move request (lines 89-92 and 175-178). *)
Definition moveRequest (accessToken fileID addParents removeParents : string)
  : Request :=
  Header_Set
    {| Method := "PATCH"; URL := moveURL fileID addParents removeParents;
       Header := ∅; Body := None |}
    "Authorization" ("Bearer " +:+ accessToken).

(** A request that, if it is a POST, is sent as [multipart/form-data] with
    the boundary of the writer. *)
Definition postIsFormData (req : Request) : Prop :=
  Method req = "POST" →
  Header req !! "Content-Type"
  = Some (FormDataContentType (multipart_NewWriter randomBoundary)).

(** *** deploy/deploy.go: CheckRemoteVersionExists *)

Definition CheckRemoteVersionExists (accessToken fileName folderID versionSafe : string)
  : Func (bool * option error) :=
  if (accessToken =? "")%string
  then return_ (false, Some (errors_New "ACCESS_TOKEN is not set")) else
  if (fileName =? "")%string || (folderID =? "")%string || (versionSafe =? "")%string
  then return_ (false, Some (errors_New
         "missing required variable(s): FileName, FolderID, VersionSafe"))
  else
  let pdfFile := fileName +:+ ".pdf" in
  let encodedName := url_QueryEscape pdfFile in
  match http_NewRequest "GET" (queryURL folderID encodedName) None with
  | inl err => return_ (false, Some err)
  | inr req =>
      let req := Header_Set req "Authorization" ("Bearer " +:+ accessToken) in
      r <- Do req ;;
      match r with
      | inl err => return_ (false, Some err)
      | inr resp =>
          match json_Unmarshal_files (RespBody resp) with
          | inl err => return_ (false, Some err)
          | inr Files =>
              match Files with
              | f :: _ =>
                  if (Description f =? versionSafe)%string
                  then return_ (true, None)
                  else return_ (false, None)
              | [] => return_ (false, None)
              end
          end
      end
  end.

(** *** deploy/deploy.go: UploadFileToDrive *)

(** Lines 264-317: the multipart writer after both parts are written.  The
    errors of [CreatePart], [Write] and [Close] are those of the underlying
    [bytes.Buffer], which has none. *)
Definition uploadWriter (fileName metaJSON ctype : string) (f : File) : Writer :=
  let writer := multipart_NewWriter randomBoundary in
  let metaHeader : gmap string string :=
    <["Content-Type" := "application/json; charset=UTF-8"]> ∅ in
  let writer := CreatePart metaHeader writer in
  let writer := Part_Write metaJSON writer in
  let fileHeader : gmap string string :=
    <["Content-Disposition" :=
        "form-data; name=" +:+ dq +:+ "file" +:+ dq +:+ "; filename="
        +:+ dq +:+ fileName +:+ dq]>
    (<["Content-Type" := ctype]> ∅) in
  let writer := CreatePart fileHeader writer in
  let writer := Part_Write (contents f) writer in
  Writer_Close writer.

Definition UploadFileToDrive (accessToken folderID filePath : string)
  : Func (string * option error) :=
  if (accessToken =? "")%string
  then return_ ("", Some (errors_New "accessToken is required")) else
  if (folderID =? "")%string
  then return_ ("", Some (errors_New "folderID is required")) else
  if (filePath =? "")%string
  then return_ ("", Some (errors_New "filePath is required")) else
  match os_Stat filePath with
  | inl err => return_ ("", Some (fmt_Errorf_w "stat file: " err))
  | inr finfo =>
  if IsDir finfo
  then return_ ("", Some (errors_New "filePath is a directory")) else
  let fileName := filepath_Base filePath in
  let meta : gmap string MetaVal :=
    <["name" := MString fileName]> (<["parents" := MStrings [folderID]]> ∅) in
  match json_Marshal meta with
  | inl err => return_ ("", Some (fmt_Errorf_w "marshal metadata: " err))
  | inr metaJSON =>
  match os_Open filePath with
  | inl err => return_ ("", Some (fmt_Errorf_w "open file: " err))
  | inr f =>
  let ctype := mime_TypeByExtension (filepath_Ext fileName) in
  let ctype := if (ctype =? "")%string then "application/octet-stream" else ctype in
  match read_err f with
  | Some err => return_ ("", Some (fmt_Errorf_w "copy file part: " err))
  | None =>
  let writer := uploadWriter fileName metaJSON ctype f in
  match http_NewRequest "POST" uploadURL (Some (multipart_bytes writer)) with
  | inl err => return_ ("", Some (fmt_Errorf_w "new request: " err))
  | inr req =>
  let req := Header_Set req "Authorization" ("Bearer " +:+ accessToken) in
  (* Use multipart/related with the writer boundary *)
  let req := Header_Set req "Content-Type"
               ("multipart/related; boundary=" +:+ Boundary writer) in
  r <- Do req ;;
  match r with
  | inl err => return_ ("", Some (fmt_Errorf_w "upload request failed: " err))
  | inr resp =>
      let body := RespBody resp in
      if (StatusCode resp <? 200)%Z || (StatusCode resp >=? 300)%Z
      then return_ ("", Some (errors_New
             ("upload failed: status " +:+ fmt_d (StatusCode resp) +:+ ": " +:+ body)))
      else
      match json_Unmarshal_id body with
      | inl err => return_ ("", Some (fmt_Errorf_w "decode upload response: " err))
      | inr id =>
          if (id =? "")%string
          then return_ ("", Some (errors_New
                 ("upload succeeded but returned empty id: " +:+ body)))
          else return_ (id, None)
      end
  end
  end end end end end.

(** *** The other requests of the workflows, as the code builds them *)

(** The delete request of the branch without archive folder (lines 101-103). *)
Definition deleteRequest (accessToken existingFileID : string) : Request :=
  Header_Set
    {| Method := "DELETE"; URL := fileURL existingFileID; Header := ∅; Body := None |}
    "Authorization" ("Bearer " +:+ accessToken).

(** The upload request of [DeployPDF] (lines 148-151). *)
Definition deployUploadRequest (accessToken pdfFile versionSafe tempFolderID : string)
  (f : File) : Request :=
  let writer := deployWriter pdfFile versionSafe tempFolderID f in
  Header_Set
    (Header_Set
       {| Method := "POST"; URL := uploadURL; Header := ∅;
          Body := Some (multipart_bytes writer) |}
       "Authorization" ("Bearer " +:+ accessToken))
    "Content-Type" (FormDataContentType writer).

(** The sharing-restriction request (lines 168-172). *)
Definition sharingRequest (accessToken newFileID : string) : Request :=
  Header_Set
    (Header_Set
       {| Method := "PATCH"; URL := fileURL newFileID; Header := ∅;
          Body := Some permBody |}
       "Authorization" ("Bearer " +:+ accessToken))
    "Content-Type" "application/json".

(** The map that [GetGoogleAccessToken] marshals (auth.go lines 18-23). *)
Definition tokenData (clientID clientSecret refreshToken : string)
  : gmap string MetaVal :=
  <["client_id" := MString clientID]>
  (<["client_secret" := MString clientSecret]>
  (<["refresh_token" := MString refreshToken]>
  (<["grant_type" := MString "refresh_token"]> ∅))).

(** The request of [GetGoogleAccessToken] (auth.go lines 24-29). *)
Definition tokenRequest (clientID clientSecret refreshToken : string) : Request :=
  Header_Set
    {| Method := "POST"; URL := tokenURL; Header := ∅;
       Body := Some (ignore_err
                 (json_Marshal (tokenData clientID clientSecret refreshToken))) |}
    "Content-Type" "application/json".

(** The metadata that [UploadFileToDrive] marshals (lines 267-270). *)
Definition uploadMeta (folderID filePath : string) : gmap string MetaVal :=
  <["name" := MString (filepath_Base filePath)]>
  (<["parents" := MStrings [folderID]]> ∅).

(** The content type of the file part of [UploadFileToDrive] (lines 298-301). *)
Definition uploadCtype (filePath : string) : string :=
  let ctype := mime_TypeByExtension (filepath_Ext (filepath_Base filePath)) in
  if (ctype =? "")%string then "application/octet-stream" else ctype.

(** The request of [UploadFileToDrive] (lines 320-327). *)
Definition uploadFileRequest (accessToken filePath metaJSON : string) (f : File)
  : Request :=
  let writer :=
    uploadWriter (filepath_Base filePath) metaJSON (uploadCtype filePath) f in
  Header_Set
    (Header_Set
       {| Method := "POST"; URL := uploadURL; Header := ∅;
          Body := Some (multipart_bytes writer) |}
       "Authorization" ("Bearer " +:+ accessToken))
    "Content-Type" ("multipart/related; boundary=" +:+ Boundary writer).

(** The metadata that [DeployPDF] marshals (lines 119-123). *)
Definition deployMeta (pdfFile versionSafe tempFolderID : string)
  : gmap string MetaVal :=
  <["name" := MString pdfFile]>
  (<["parents" := MStrings [tempFolderID]]>
  (<["description" := MString versionSafe]> ∅)).

End Program.

(** ** Comparing what two worlds answer *)

(** Two outcomes of [http.DefaultClient.Do] with the same error, or with
    responses of the same body: they differ at most in the status code. *)
Definition same_body (o1 o2 : error + Response) : Prop :=
  match o1, o2 with
  | inl e1, inl e2 => e1 = e2
  | inr r1, inr r2 => RespBody r1 = RespBody r2
  | _, _ => False
  end.

(** Two outcomes of [os.Open] with the same error, or with files of the same
    bytes: they differ at most in whether reading the file ended in an error. *)
Definition same_contents (o1 o2 : error + File) : Prop :=
  match o1, o2 with
  | inl e1, inl e2 => e1 = e2
  | inr f1, inr f2 => contents f1 = contents f2
  | _, _ => False
  end.

(** Two outcomes of [os.Stat] that both fail or both succeed. *)
Definition same_success (o1 o2 : error + FileInfo) : Prop :=
  match o1, o2 with
  | inl _, inl _ => True
  | inr _, inr _ => True
  | _, _ => False
  end.

(** The shape of the sharing-restriction request (lines 169-170): a PATCH
    whose body is [permBody]. *)
Definition isSharingRequest (req : Request) : Prop :=
  Method req = "PATCH" ∧ Body req = Some permBody.

(** ** A reference library

    [Ref.lib] implements [GoLib] on the fragment of inputs that the
    repository's tests and the examples below exercise: JSON documents
    without [\u] escapes, slash-separated clean paths, and URLs that fail
    to parse only on ASCII control bytes.  The theorems further down hold
    for every [GoLib]; [Ref.lib] only serves to run the code on concrete
    inputs. *)
Module Ref.

(** *** JSON values and their parser *)

#[warnings="-register-all"]
Inductive value : Type :=
  | Null
  | Boolean (b : bool)
  | Number (raw : string)
  | Str (s : string)
  | Arr (elems : list value)
  | Obj (members : list (string * value)).

Definition is_ws (c : ascii) : bool :=
  (c =? " ")%char || (c =? "009")%char || (c =? "010")%char || (c =? "013")%char.

Fixpoint skip_ws (s : string) : string :=
  match s with
  | String c s' => if is_ws c then skip_ws s' else s
  | EmptyString => s
  end.

Definition unescape (c : ascii) : option ascii :=
  if (c =? "034")%char then Some "034"%char
  else if (c =? "\")%char then Some "\"%char
  else if (c =? "/")%char then Some "/"%char
  else if (c =? "b")%char then Some "008"%char
  else if (c =? "f")%char then Some "012"%char
  else if (c =? "n")%char then Some "010"%char
  else if (c =? "r")%char then Some "013"%char
  else if (c =? "t")%char then Some "009"%char
  else None.

(** The text after an opening quote: the decoded string and what follows
    the closing quote. *)
Fixpoint scan_string (s acc : string) : option (string * string) :=
  match s with
  | EmptyString => None
  | String c s' =>
      if (c =? "034")%char then Some (acc, s')
      else if (c =? "\")%char then
        match s' with
        | String e s'' =>
            match unescape e with
            | Some d => scan_string s'' (acc +:+ String d "")
            | None => None
            end
        | EmptyString => None
        end
      else if (nat_of_ascii c <? 32)%nat then None
      else scan_string s' (acc +:+ String c "")
  end.

Definition is_digit (c : ascii) : bool := ("0" <=? c)%char && (c <=? "9")%char.

Definition is_number_char (c : ascii) : bool :=
  is_digit c || (c =? "-")%char || (c =? "+")%char || (c =? ".")%char
  || (c =? "e")%char || (c =? "E")%char.

Fixpoint scan_number (s acc : string) : string * string :=
  match s with
  | String c s' =>
      if is_number_char c then scan_number s' (acc +:+ String c "") else (acc, s)
  | EmptyString => (acc, s)
  end.

Fixpoint strip_prefix (p s : string) : option string :=
  match p, s with
  | EmptyString, _ => Some s
  | String a p', String b s' => if (a =? b)%char then strip_prefix p' s' else None
  | String _ _, EmptyString => None
  end.

Inductive mode : Type :=
  | MValue
  | MElems (acc : list value)
  | MMembers (acc : list (string * value)).

Fixpoint parse (fuel : nat) (m : mode) (s : string) : option (value * string) :=
  match fuel with
  | O => None
  | S fuel =>
      match m with
      | MValue =>
          match skip_ws s with
          | EmptyString => None
          | String c r =>
              if (c =? "{")%char then
                match skip_ws r with
                | String "}" r' => Some (Obj [], r')
                | _ => parse fuel (MMembers []) r
                end
              else if (c =? "[")%char then
                match skip_ws r with
                | String "]" r' => Some (Arr [], r')
                | _ => parse fuel (MElems []) r
                end
              else if (c =? "034")%char then
                match scan_string r "" with
                | Some (x, r') => Some (Str x, r')
                | None => None
                end
              else if is_digit c || (c =? "-")%char then
                let '(raw, r') := scan_number (String c r) "" in
                Some (Number raw, r')
              else
                match strip_prefix "true" (String c r) with
                | Some r' => Some (Boolean true, r')
                | None =>
                    match strip_prefix "false" (String c r) with
                    | Some r' => Some (Boolean false, r')
                    | None =>
                        match strip_prefix "null" (String c r) with
                        | Some r' => Some (Null, r')
                        | None => None
                        end
                    end
                end
          end
      | MElems acc =>
          match parse fuel MValue s with
          | None => None
          | Some (v, r) =>
              match skip_ws r with
              | String "," r' => parse fuel (MElems (acc ++ [v])) r'
              | String "]" r' => Some (Arr (acc ++ [v]), r')
              | _ => None
              end
          end
      | MMembers acc =>
          match skip_ws s with
          | String "034" r =>
              match scan_string r "" with
              | None => None
              | Some (k, r1) =>
                  match skip_ws r1 with
                  | String ":" r2 =>
                      match parse fuel MValue r2 with
                      | None => None
                      | Some (v, r3) =>
                          match skip_ws r3 with
                          | String "," r4 => parse fuel (MMembers (acc ++ [(k, v)])) r4
                          | String "}" r4 => Some (Obj (acc ++ [(k, v)]), r4)
                          | _ => None
                          end
                      end
                  | _ => None
                  end
              end
          | _ => None
          end
      end
  end.

(** The first JSON value of a text and the rest of the text. *)
Definition parse_value (s : string) : option (value * string) :=
  parse (2 * String.length s + 2) MValue s.

(** [json.Unmarshal]: one value, then white space only. *)
Definition parse_document (s : string) : option value :=
  match parse_value s with
  | Some (v, r) => if (skip_ws r =? "")%string then Some v else None
  | None => None
  end.

(** *** Decoding into the structs of the repository *)

Definition lower (c : ascii) : ascii :=
  if ("A" <=? c)%char && (c <=? "Z")%char
  then ascii_of_nat (nat_of_ascii c + 32) else c.

Fixpoint equalFold (a b : string) : bool :=
  match a, b with
  | EmptyString, EmptyString => true
  | String x a', String y b' => (lower x =? lower y)%char && equalFold a' b'
  | _, _ => false
  end.

(** A string field: every member whose key folds to the tag assigns it in
    turn; [null] leaves it; any other JSON type is a type error. *)
Fixpoint string_field (tag : string) (members : list (string * value)) (cur : string)
  : option string :=
  match members with
  | [] => Some cur
  | (k, v) :: rest =>
      if equalFold k tag then
        match v with
        | Str x => string_field tag rest x
        | Null => string_field tag rest cur
        | _ => None
        end
      else string_field tag rest cur
  end.

Fixpoint digits_to_Z (s : string) (acc : Z) : option Z :=
  match s with
  | EmptyString => Some acc
  | String c s' =>
      if is_digit c
      then digits_to_Z s' (10 * acc + Z.of_nat (nat_of_ascii c - 48))%Z
      else None
  end.

Definition int_of_raw (raw : string) : option Z :=
  match raw with
  | EmptyString => None
  | String "-" EmptyString => None
  | String "-" rest => option_map Z.opp (digits_to_Z rest 0)
  | _ => digits_to_Z raw 0
  end.

Fixpoint int_field (tag : string) (members : list (string * value)) (cur : Z)
  : option Z :=
  match members with
  | [] => Some cur
  | (k, v) :: rest =>
      if equalFold k tag then
        match v with
        | Number raw =>
            match int_of_raw raw with
            | Some n => int_field tag rest n
            | None => None
            end
        | Null => int_field tag rest cur
        | _ => None
        end
      else int_field tag rest cur
  end.

Definition decode_file (v : value) : option DriveFile :=
  match v with
  | Null => Some {| ID := ""; Name := ""; Description := "" |}
  | Obj members =>
      match string_field "id" members "",
            string_field "name" members "",
            string_field "description" members "" with
      | Some i, Some n, Some d => Some {| ID := i; Name := n; Description := d |}
      | _, _, _ => None
      end
  | _ => None
  end.

Fixpoint decode_all (vs : list value) : option (list DriveFile) :=
  match vs with
  | [] => Some []
  | v :: rest =>
      match decode_file v, decode_all rest with
      | Some f, Some fs => Some (f :: fs)
      | _, _ => None
      end
  end.

(** The [files] field: the last member that folds to the tag decides. *)
Fixpoint files_field (members : list (string * value)) (cur : list DriveFile)
  : option (list DriveFile) :=
  match members with
  | [] => Some cur
  | (k, v) :: rest =>
      if equalFold k "files" then
        match v with
        | Arr elems =>
            match decode_all elems with
            | Some fs => files_field rest fs
            | None => None
            end
        | Null => files_field rest cur
        | _ => None
        end
      else files_field rest cur
  end.

Definition syntax_error : error := errors_New "json: invalid JSON input".
Definition type_error : error := errors_New "json: cannot unmarshal value into Go struct".

Definition of_option {A} (e : error) (o : option A) : error + A :=
  match o with
  | Some a => inr a
  | None => inl e
  end.

Definition Unmarshal_files (body : string) : error + list DriveFile :=
  match parse_document body with
  | None => inl syntax_error
  | Some Null => inr []
  | Some (Obj members) => of_option type_error (files_field members [])
  | Some _ => inl type_error
  end.

Definition Unmarshal_id (body : string) : error + string :=
  match parse_document body with
  | None => inl syntax_error
  | Some Null => inr ""
  | Some (Obj members) => of_option type_error (string_field "id" members "")
  | Some _ => inl type_error
  end.

Definition Decode_token (body : string) : error + GoogleTokenResponse :=
  match parse_value body with
  | None => inl syntax_error
  | Some (Null, _) => inr {| AccessToken := ""; ExpiresIn := 0; TokenType := "" |}
  | Some (Obj members, _) =>
      match string_field "access_token" members "",
            int_field "expires_in" members 0%Z,
            string_field "token_type" members "" with
      | Some a, Some e, Some t =>
          inr {| AccessToken := a; ExpiresIn := e; TokenType := t |}
      | _, _, _ => inl type_error
      end
  | Some _ => inl type_error
  end.

(** *** Paths, URLs and MIME types *)

(** [filepath.Join] of a clean directory and a file name. *)
Definition Join (dir file : string) : string :=
  if (dir =? "")%string then file else dir +:+ "/" +:+ file.

(** The text after the last [sep] of [s], and whether a [sep] was seen. *)
Fixpoint after_last (sep : ascii) (s cur : string) (seen : bool) : string * bool :=
  match s with
  | EmptyString => (cur, seen)
  | String c s' =>
      if (c =? sep)%char then after_last sep s' "" true
      else after_last sep s' (cur +:+ String c "") seen
  end.

(** [filepath.Base] of a path without trailing slash. *)
Definition Base (path : string) : string :=
  if (path =? "")%string then "." else (after_last "/" path "" false).1.

(** [filepath.Ext]: from the last dot of the last element on. *)
Definition Ext (name : string) : string :=
  let '(e, seen) := after_last "." (Base name) "" false in
  if seen then "." +:+ e else "".

Definition TypeByExtension (ext : string) : string :=
  if (ext =? ".pdf")%string then "application/pdf"
  else if (ext =? ".txt")%string then "text/plain; charset=utf-8"
  else if (ext =? ".json")%string then "application/json"
  else "".

Definition hex_digit (n : nat) : ascii :=
  if (n <? 10)%nat then ascii_of_nat (48 + n) else ascii_of_nat (55 + n).

Definition is_unreserved (c : ascii) : bool :=
  is_digit c || (("a" <=? c)%char && (c <=? "z")%char)
  || (("A" <=? c)%char && (c <=? "Z")%char)
  || (c =? "-")%char || (c =? "_")%char || (c =? ".")%char || (c =? "~")%char.

(** [url.QueryEscape]. *)
Fixpoint QueryEscape (s : string) : string :=
  match s with
  | EmptyString => ""
  | String c s' =>
      (if is_unreserved c then String c ""
       else if (c =? " ")%char then "+"
       else String "%" (String (hex_digit (nat_of_ascii c / 16))
                          (String (hex_digit (nat_of_ascii c mod 16)) "")))
      +:+ QueryEscape s'
  end.

Fixpoint has_control_byte (s : string) : bool :=
  match s with
  | EmptyString => false
  | String c s' =>
      (nat_of_ascii c <? 32)%nat || (nat_of_ascii c =? 127)%nat || has_control_byte s'
  end.

(** [http.NewRequest] fails when the URL does not parse. *)
Definition NewRequest_err (method url : string) : option error :=
  if has_control_byte url
  then Some (errors_New "net/url: invalid control character in URL")
  else None.

(** *** Encoders *)

Fixpoint insert_by_key {A} (kv : string * A) (l : list (string * A))
  : list (string * A) :=
  match l with
  | [] => [kv]
  | kv' :: l' =>
      if (kv.1 <=? kv'.1)%string then kv :: l else kv' :: insert_by_key kv l'
  end.

Definition sorted_entries {A} (m : gmap string A) : list (string * A) :=
  foldr insert_by_key [] (map_to_list m).

Fixpoint escape_json (s : string) : string :=
  match s with
  | EmptyString => ""
  | String c s' =>
      (if (c =? "034")%char then String "\" dq
       else if (c =? "\")%char then "\\"
       else if (c =? "010")%char then "\n"
       else if (c =? "013")%char then "\r"
       else if (c =? "009")%char then "\t"
       else if (nat_of_ascii c <? 32)%nat || (c =? "<")%char || (c =? ">")%char
               || (c =? "&")%char
       then "\u00" +:+ String (lower (hex_digit (nat_of_ascii c / 16)))
                        (String (lower (hex_digit (nat_of_ascii c mod 16))) "")
       else String c "")
      +:+ escape_json s'
  end.

Definition quote_json (s : string) : string := dq +:+ escape_json s +:+ dq.

Fixpoint join_with (sep : string) (l : list string) : string :=
  match l with
  | [] => ""
  | [x] => x
  | x :: rest => x +:+ sep +:+ join_with sep rest
  end.

Definition marshal_val (v : MetaVal) : string :=
  match v with
  | MString x => quote_json x
  | MStrings l => "[" +:+ join_with "," (quote_json <$> l) +:+ "]"
  end.

(** [json.Marshal] of a map: keys in sorted order. *)
Definition Marshal (m : gmap string MetaVal) : error + string :=
  inr ("{" +:+ join_with ","
               ((λ kv : string * MetaVal, quote_json kv.1 +:+ ":" +:+ marshal_val kv.2)
                  <$> sorted_entries m)
       +:+ "}").

Definition header_lines (h : gmap string string) : string :=
  foldr (λ (kv : string * string) acc, kv.1 +:+ ": " +:+ kv.2 +:+ crlf +:+ acc)
        "" (sorted_entries h).

Fixpoint part_bytes (b : string) (first : bool) (ps : list (gmap string string * string))
  : string :=
  match ps with
  | [] => ""
  | (h, d) :: rest =>
      (if first then "" else crlf) +:+ "--" +:+ b +:+ crlf
      +:+ header_lines h +:+ crlf +:+ d +:+ part_bytes b false rest
  end.

(** What [CreatePart], [Write] and [Close] have written to the buffer. *)
Definition writer_bytes (w : Writer) : string :=
  part_bytes (boundary w) true (parts w)
  +:+ (if closed w then crlf +:+ "--" +:+ boundary w +:+ "--" +:+ crlf else "").

Definition lib : GoLib := {|
  filepath_Join := Join;
  filepath_Base := Base;
  filepath_Ext := Ext;
  mime_TypeByExtension := TypeByExtension;
  url_QueryEscape := QueryEscape;
  http_NewRequest_err := NewRequest_err;
  json_Marshal := Marshal;
  json_Unmarshal_files := Unmarshal_files;
  json_Unmarshal_id := Unmarshal_id;
  json_Decode_token := Decode_token;
  multipart_bytes := writer_bytes;
|}.

End Ref.


(** ** The test servers of the repository

    The handlers of [deploy_test.go] and [auth_test.go] as functions from
    requests to responses, and worlds built from a handler and a small file
    system.  The transport of these worlds never fails. *)
Module Tests.

(** A JSON text written with apostrophes in place of double quotes. *)
Fixpoint js (s : string) : string :=
  match s with
  | EmptyString => ""
  | String c s' => String (if (c =? "'")%char then "034"%char else c) (js s')
  end.

(** [strings.HasPrefix]. *)
Definition HasPrefix (s p : string) : bool := String.prefix p s.

(** The text before the first [sep] and the text after it, if [sep] occurs. *)
Fixpoint cut (sep : ascii) (s before : string) : string * option string :=
  match s with
  | EmptyString => (before, None)
  | String c s' =>
      if (c =? sep)%char then (before, Some s')
      else cut sep s' (before +:+ String c "")
  end.

(** [r.URL.Path] and [r.URL.RawQuery] of an [https] URL. *)
Definition path_and_query (url : string) : string * string :=
  match Ref.strip_prefix "https://" url with
  | None => ("", "")
  | Some r =>
      match (cut "/" r "").2 with
      | None => ("", "")
      | Some pq => let '(p, q) := cut "?" pq "" in ("/" +:+ p, default "" q)
      end
  end.

Definition ok (body : string) : Response :=
  {| StatusCode := 200; RespBody := body |}.

(** [http.Error(w, msg, code)]. *)
Definition http_Error (msg : string) (code : Z) : Response :=
  {| StatusCode := code; RespBody := msg +:+ String "010" "" |}.

(** [TestDeployPDF_NoExisting_UploadAndMove]. *)
Definition noExistingHandler (r : Request) : Response :=
  let '(path, query) := path_and_query (URL r) in
  if (Method r =? "GET")%string && HasPrefix path "/drive/v3/files"
     && negb (query =? "uploadType=multipart")%string
  then ok (js "{'files': []}")
  else if (Method r =? "POST")%string && HasPrefix path "/upload/drive/v3/files"
  then ok (js "{'id':'new-file-id'}")
  else if (Method r =? "PATCH")%string && HasPrefix path "/drive/v3/files/"
  then ok (js "{'id':'new-file-id','parents':['final']}")
  else http_Error "not implemented in test" 501.

(** [TestDeployPDF_ExistingDeletedWhenNoOldFolder]. *)
Definition existingHandler (r : Request) : Response :=
  let '(path, query) := path_and_query (URL r) in
  if (Method r =? "GET")%string && HasPrefix path "/drive/v3/files"
     && negb (query =? "uploadType=multipart")%string
  then ok (js "{'files':[{'id':'oldid','name':'existingdoc.pdf','description':'oldver'}]}")
  else if (Method r =? "DELETE")%string && HasPrefix path "/drive/v3/files/oldid"
  then {| StatusCode := 204; RespBody := "" |}
  else if (Method r =? "POST")%string && HasPrefix path "/upload/drive/v3/files"
  then ok (js "{'id':'newid'}")
  else if (Method r =? "PATCH")%string && HasPrefix path "/drive/v3/files/"
  then ok (js "{'id':'newid','parents':['final']}")
  else http_Error "not implemented" 501.

(** [TestCheckRemoteVersionExists_MatchesAndNotMatches]: a file is listed
    only when the query names [exists.pdf]. *)
Definition checkHandler (r : Request) : Response :=
  if bytes_Contains (path_and_query (URL r)).2 "exists.pdf"
  then ok (js "{'files':[{'id':'exid','name':'exists.pdf','description':'v1'}]}")
  else ok (js "{'files':null}").

(** A server whose search lists one file with the given id and description
    and which answers every other request with [status] and [body]. *)
Definition listingHandler (id description : string) (status : Z) (body : string)
  (r : Request) : Response :=
  if (Method r =? "GET")%string
  then ok (js "{'files':[{'id':'" +:+ id +:+ js "','name':'mydoc.pdf','description':'"
           +:+ description +:+ js "'}]}")
  else {| StatusCode := status; RespBody := body |}.

(** A server that answers every request with [status] and [body]. *)
Definition constHandler (status : Z) (body : string) (r : Request) : Response :=
  {| StatusCode := status; RespBody := body |}.

(** A file system: paths with their directory flag and contents. *)
Definition lookup_path (fs : list (string * (bool * string))) (path : string)
  : option (bool * string) :=
  snd <$> List.find (λ e, (e.1 =? path)%string) fs.

Definition world (handler : Request → Response)
  (fs : list (string * (bool * string))) : World := {|
  os_Stat path :=
    match lookup_path fs path with
    | Some (d, _) => inr {| IsDir := d |}
    | None => inl (errors_New ("stat " +:+ path +:+ ": no such file or directory"))
    end;
  os_Open path :=
    match lookup_path fs path with
    | Some (false, c) => inr {| contents := c; read_err := None |}
    | Some (true, _) =>
        inr {| contents := "";
               read_err := Some (errors_New ("read " +:+ path +:+ ": is a directory")) |}
    | None => inl (errors_New ("open " +:+ path +:+ ": no such file or directory"))
    end;
  RoundTrip _ r := inr (handler r);
  randomBoundary := "3f0c9a";
|}.

(** [TestGetGoogleAccessToken_Success]: the body that
    [json.NewEncoder(w).Encode(resp)] writes. *)
Definition tokenHandler (r : Request) : Response :=
  ok (js "{'access_token':'tok-123','expires_in':3600,'token_type':'Bearer'}"
      +:+ String "010" "").

(** [TestGetGoogleAccessToken_NoAccessTokenInResponse]. *)
Definition noTokenHandler (r : Request) : Response :=
  ok (js "{'expires_in':3600}").

(** A server without existing file whose upload succeeds and whose PATCH
    requests are answered with status 200 and an empty JSON object. *)
Definition moveWithoutIdHandler (r : Request) : Response :=
  if (Method r =? "GET")%string then ok (js "{'files': []}")
  else if (Method r =? "POST")%string then ok (js "{'id':'new-file-id'}")
  else ok "{}".

(** The temporary directory of the tests. *)
Definition td : list (string * (bool * string)) :=
  [("/tmp/td", (true, ""));
   ("/tmp/td/mydoc.pdf", (false, "pdfdata"));
   ("/tmp/td/existingdoc.pdf", (false, "pdfdata"));
   ("/tmp/td/upload-1.txt", (false, "hello drive"))].

(** [DeployPDF("token", "mydoc", "v1", "temp", "final", "old", td)] against
    a handler, from an empty history. *)
Definition deploy (handler : Request → Response)
  : Res (option error) Empty_set * list Request :=
  DeployPDF (L := Ref.lib) (W := world handler td)
    "token" "mydoc" "v1" "temp" "final" "old" "/tmp/td" [].

(** [CheckRemoteVersionExists("token", "mydoc", "final", "v1")] against a
    handler, from an empty history. *)
Definition check (handler : Request → Response)
  : Res (bool * option error) Empty_set * list Request :=
  CheckRemoteVersionExists (L := Ref.lib) (W := world handler td)
    "token" "mydoc" "final" "v1" [].

(** [UploadFileToDrive("tok", "folder123", path)] against a handler. *)
Definition upload (handler : Request → Response) (path : string)
  : Res (string * option error) Empty_set * list Request :=
  UploadFileToDrive (L := Ref.lib) (W := world handler td) "tok" "folder123" path [].

(** The search request of [deploy] and [check]. *)
Definition search : Request :=
  searchRequest (L := Ref.lib) "token" "mydoc.pdf" "final".

(** The steps of [deploy] before the final move. *)
Definition beforeMove (handler : Request → Response)
  : Res (option error) string * list Request :=
  deployBeforeMove (L := Ref.lib) (W := world handler td)
    "token" "mydoc" "v1" "temp" "final" "old" "/tmp/td" [].

(** The [i]-th request of a history; the search request when there is none. *)
Definition nth_request (i : nat) (h : list Request) : Request :=
  nth i h search.

Definition newline : string := String "010" "".

(** [GetGoogleAccessToken("id", "secret", "refresh")] against a handler. *)
Definition token (handler : Request → Response)
  : Res (string * option error) Empty_set * list Request :=
  GetGoogleAccessToken (L := Ref.lib) (W := world handler [])
    "id" "secret" "refresh" [].

(** A search that lists an old version, every later request answered with
    status 500 and a body holding an id. *)
Definition archive500 : Request → Response :=
  listingHandler "oldid" "oldver" 500 (js "{'id':'n'}").

(** Whether a request is a PATCH with the body of the sharing request. *)
Definition sharing (r : Request) : bool :=
  (Method r =? "PATCH")%string
  && match Body r with
     | Some b => (b =? permBody)%string
     | None => false
     end.

(** The world of [world handler fs] with a transport that fails on the
    requests that [fails] selects. *)
Definition flaky (fails : Request → bool) (handler : Request → Response)
  (fs : list (string * (bool * string))) : World := {|
  os_Stat := os_Stat (World := world handler fs);
  os_Open := os_Open (World := world handler fs);
  RoundTrip _ r :=
    if fails r then inl (errors_New "dial tcp: connection refused")
    else inr (handler r);
  randomBoundary := randomBoundary (World := world handler fs);
|}.

(** The world of [world handler fs] in which no file can be opened. *)
Definition unreadable (handler : Request → Response)
  (fs : list (string * (bool * string))) : World := {|
  os_Stat := os_Stat (World := world handler fs);
  os_Open path := inl (errors_New ("open " +:+ path +:+ ": permission denied"));
  RoundTrip := RoundTrip (World := world handler fs);
  randomBoundary := randomBoundary (World := world handler fs);
|}.

(** The server of [handler] with every status code but that of a DELETE
    replaced by [status]. *)
Definition withStatus (status : Z) (handler : Request → Response) (r : Request)
  : Response :=
  if (Method r =? "DELETE")%string then handler r
  else {| StatusCode := status; RespBody := RespBody (handler r) |}.

(** File systems in which [/tmp/td/mydoc.pdf] is a directory, and an empty file. *)
Definition tdDir : list (string * (bool * string)) :=
  [("/tmp/td/mydoc.pdf", (true, ""))].

Definition tdEmpty : list (string * (bool * string)) :=
  [("/tmp/td/mydoc.pdf", (false, ""))].

(** [DeployPDF("token", "existingdoc", "v2", "temp", "final", "", td)]
    against a world, from an empty history: the call of
    [TestDeployPDF_ExistingDeletedWhenNoOldFolder]. *)
Definition redeploy (W : World) : Res (option error) Empty_set * list Request :=
  DeployPDF (L := Ref.lib) (W := W)
    "token" "existingdoc" "v2" "temp" "final" "" "/tmp/td" [].

End Tests.


(** * Properties *)

(** ** Strings *)

Lemma prefix_iff (p s : string) :
  String.prefix p s = true ↔ ∃ post, s = p +:+ post.
Proof.
  revert s. induction p as [|a p IH]; intros [|b s]; simpl.
  - split; [intros _; by exists "" | done].
  - split; [intros _; by exists (String b s) | done].
  - split; [done | intros [post Hpost]; discriminate].
  - destruct (ascii_dec a b) as [->|Hab].
    + rewrite IH. split; intros [post Hpost]; exists post.
      * by rewrite Hpost.
      * by injection Hpost.
    + split; [done | intros [post Hpost]; by injection Hpost].
Qed.

Lemma bytes_Contains_unfold (b sub : string) :
  bytes_Contains b sub =
  String.prefix sub b
  || match b with
     | EmptyString => false
     | String _ b' => bytes_Contains b' sub
     end.
Proof. by destruct b. Qed.

(** [bytes_Contains] decides the occurrence of [sub] as a substring. *)
Lemma bytes_Contains_iff (b sub : string) :
  bytes_Contains b sub = true ↔ ∃ pre post, b = pre +:+ sub +:+ post.
Proof.
  induction b as [|c b IH]; rewrite bytes_Contains_unfold.
  - rewrite orb_false_r, prefix_iff. split.
    + intros [post Hpost]. by exists "", post.
    + intros (pre & post & Heq). destruct pre; simpl in Heq; [by exists post | done].
  - rewrite orb_true_iff, prefix_iff, IH. split.
    + intros [[post Hpost] | (pre & post & Heq)].
      * by exists "", post.
      * exists (String c pre), post. simpl. by rewrite Heq.
    + intros (pre & post & Heq). destruct pre as [|c' pre]; simpl in Heq.
      * left. by exists post.
      * right. exists pre, post. by injection Heq.
Qed.

Lemma append_assoc (a b c : string) : (a +:+ b) +:+ c = a +:+ (b +:+ c).
Proof.
  induction a as [|x a IH]; [done|].
  change (String x ((a +:+ b) +:+ c) = String x (a +:+ (b +:+ c))). by f_equal.
Qed.

(** ** Histories *)

Lemma history_same {A} (h l : list A) : h = h ++ l → l = [].
Proof.
  intros Heq. apply (app_inv_head h). by rewrite app_nil_r.
Qed.

Lemma history_one {A} (h : list A) (x y : A) : h ++ [x] = h ++ [y] → x = y.
Proof. intros Heq. apply app_inv_head in Heq. congruence. Qed.

(** ** auth/auth.go *)

Section Auth.
Context {L : GoLib} {W : World}.

(** C6, amended. For every token-endpoint response whose body decodes into
    [GoogleTokenResponse] (well-formed JSON whose fields have the types of
    the struct), [GetGoogleAccessToken] returns the received [access_token]
    unchanged and no error exactly when the field is not empty (a missing
    field decodes to the empty string); when it is empty the result is the
    empty string with an error; and no run at all returns an error together
    with a non-empty token. *)
Theorem GetGoogleAccessToken_token_iff_nonempty
  (clientID clientSecret refreshToken : string) (h : list Request) :
  (∀ res req resp tokenResp,
     GetGoogleAccessToken clientID clientSecret refreshToken h = (res, h ++ [req]) →
     RoundTrip h req = inr resp →
     json_Decode_token (RespBody resp) = inr tokenResp →
     (res = Return (AccessToken tokenResp, None) ↔ AccessToken tokenResp ≠ "")
     ∧ (AccessToken tokenResp = "" →
        res = Return ("", Some (errors_New "no access_token in response"))))
  ∧ (∀ tok e h',
       GetGoogleAccessToken clientID clientSecret refreshToken h
         = (Return (tok, Some e), h') →
       tok = "").
Proof.
  unfold GetGoogleAccessToken. split.
  - intros res req resp tokenResp Hrun Hresp Hdec.
    destruct (http_NewRequest _ _ _) as [err|req0].
    + injection Hrun as _ Hh. apply history_same in Hh. discriminate.
    + unfold bind, Do in Hrun.
      destruct (RoundTrip h _) as [err|resp0] eqn:Hrt.
      * injection Hrun as <- Hh. apply history_one in Hh. congruence.
      * destruct (json_Decode_token (RespBody resp0)) as [err|tr] eqn:Hd.
        -- injection Hrun as <- Hh. apply history_one in Hh. congruence.
        -- assert (req = Header_Set req0 "Content-Type" "application/json") as ->.
           { destruct (AccessToken tr =? "")%string;
               injection Hrun as _ Hh; by apply history_one in Hh. }
           assert (tr = tokenResp) as -> by congruence.
           destruct (AccessToken tokenResp =? "")%string eqn:Hempty;
             injection Hrun as <-.
           ++ apply String.eqb_eq in Hempty. rewrite Hempty. split; [|done].
              split; [discriminate | done].
           ++ apply String.eqb_neq in Hempty. split; [done | congruence].
  - intros tok e h' Hrun.
    destruct (http_NewRequest _ _ _) as [err|req0]; [by injection Hrun|].
    unfold bind, Do in Hrun.
    destruct (RoundTrip h _) as [err|resp0]; [by injection Hrun|].
    destruct (json_Decode_token _) as [err|tr]; [by injection Hrun|].
    destruct (AccessToken tr =? "")%string; by injection Hrun.
Qed.

End Auth.

(** ** deploy/deploy.go *)

(** Running a body: unfold the monad and split on every test the code makes. *)
Ltac run_cases H :=
  unfold DeployPDF, deployBeforeMove, queryExisting, archiveOldVersion, uploadNewFile,
    setSharingRestrictions, moveToFinalFolder, CheckRemoteVersionExists,
    UploadFileToDrive in H;
  unfold ptr_Header_Set, NewRequest_ptr, http_NewRequest in H;
  unfold bind, Do, ret, return_, panic in H;
  repeat (case_match; simplify_eq).

(** Histories that share their start: compare what was appended. *)
Ltac hist :=
  rewrite <- ?app_assoc in *; cbn [app] in *;
  repeat match goal with
         | H : ?h ++ _ = ?h ++ _ |- _ => apply app_inv_head in H
         | H : ?h = ?h ++ _ |- _ => apply history_same in H
         | H : ?h ++ _ = ?h |- _ => symmetry in H; apply history_same in H
         end;
  simplify_eq;
  repeat match goal with
         | H1 : ?x = inr _, H2 : ?x = _ |- _ => rewrite H1 in H2; simplify_eq
         | H1 : ?x = inl _, H2 : ?x = _ |- _ => rewrite H1 in H2; simplify_eq
         | H1 : ?x = (_, _), H2 : ?x = _ |- _ => rewrite H1 in H2; simplify_eq
         end.

(** The requests appended to a history, read off the goal. *)
Ltac exists_suffix :=
  eexists; rewrite <- ?app_assoc;
  split; [first [reflexivity | symmetry; apply app_nil_r]|].

(** Tests on emptiness that contradict what is known of a string. *)
Ltac absurd_tests :=
  repeat match goal with
         | Hx : (?x =? "")%string = false, Hb : context [(?x =? "")%string] |- _ =>
             rewrite Hx in Hb
         end;
  cbn [andb negb] in *; try discriminate.

Section Deploy.
Context {L : GoLib} {W : World}.

(** *** CheckRemoteVersionExists *)

(** What [CheckRemoteVersionExists] returns once its request was answered
    by a file list. *)
Lemma CheckRemoteVersionExists_answered
  (accessToken fileName folderID versionSafe : string) (h : list Request)
  (res : Res (bool * option error) Empty_set) (req : Request) (resp : Response)
  (Files : list DriveFile) :
  CheckRemoteVersionExists accessToken fileName folderID versionSafe h
    = (res, h ++ [req]) →
  RoundTrip h req = inr resp →
  json_Unmarshal_files (RespBody resp) = inr Files →
  res = Return (match Files with
                | f :: _ => (Description f =? versionSafe)%string
                | [] => false
                end, None).
Proof.
  intros Hrun Hresp Hdec. run_cases Hrun; hist; try done.
  all: match goal with Hb : (_ =? _)%string = _ |- _ => by rewrite Hb end.
Qed.

(** C1. For every response to the search request that decodes into a file
    list, [CheckRemoteVersionExists] returns [(true, nil)] exactly when the
    list is not empty and the description of its first entry is the version
    label, character for character; otherwise it returns [(false, nil)]. *)
Theorem CheckRemoteVersionExists_true_iff
  (accessToken fileName folderID versionSafe : string) (h : list Request)
  (res : Res (bool * option error) Empty_set) (req : Request) (resp : Response)
  (Files : list DriveFile) :
  CheckRemoteVersionExists accessToken fileName folderID versionSafe h
    = (res, h ++ [req]) →
  RoundTrip h req = inr resp →
  json_Unmarshal_files (RespBody resp) = inr Files →
  (res = Return (true, None)
   ↔ ∃ f rest, Files = f :: rest ∧ Description f = versionSafe)
  ∧ (¬ (∃ f rest, Files = f :: rest ∧ Description f = versionSafe) →
     res = Return (false, None)).
Proof.
  intros Hrun Hresp Hdec.
  rewrite (CheckRemoteVersionExists_answered _ _ _ _ _ _ _ _ _ Hrun Hresp Hdec).
  destruct Files as [|f fs].
  - split; [|done]. split; [done | by intros (f' & rest & ? & _)].
  - destruct (Description f =? versionSafe)%string eqn:Hd.
    + apply String.eqb_eq in Hd. split; [split; eauto|]. intros []. eauto.
    + apply String.eqb_neq in Hd. split; [|done].
      split; [done|]. intros (f' & rest & [= <- <-] & ?). done.
Qed.

(** *** UploadFileToDrive *)

(** C9. With an empty access token, an empty folder id, an empty file path
    or a path that [os.Stat] reports as a directory, [UploadFileToDrive]
    returns an error and an empty id, and the history of requests is
    unchanged: nothing was sent. *)
Theorem UploadFileToDrive_rejects_before_network
  (accessToken folderID filePath : string) (h : list Request) :
  accessToken = "" ∨ folderID = "" ∨ filePath = ""
  ∨ (∃ finfo, os_Stat filePath = inr finfo ∧ IsDir finfo = true) →
  ∃ err, UploadFileToDrive accessToken folderID filePath h
         = (Return ("", Some err), h).
Proof.
  intros Hbad. unfold UploadFileToDrive, return_.
  destruct (accessToken =? "")%string eqn:Ha; [eauto|].
  destruct (folderID =? "")%string eqn:Hf; [eauto|].
  destruct (filePath =? "")%string eqn:Hp; [eauto|].
  rewrite String.eqb_neq in Ha, Hf, Hp.
  destruct Hbad as [?|[?|[?|(finfo & -> & ->)]]]; [done..|eauto].
Qed.

(** *** DeployPDF: the steps and what each adds to the history *)

(** [DeployPDF] as its steps in sequence: checks, search, early exit,
    archive or delete, then the rest of the workflow. *)
Lemma DeployPDF_steps
  (accessToken fileName versionSafe tempFolderID folderID oldFolderID sopDir : string)
  (h : list Request) :
  DeployPDF accessToken fileName versionSafe tempFolderID folderID oldFolderID sopDir h =
  if (fileName =? "")%string || (accessToken =? "")%string
     || (tempFolderID =? "")%string || (folderID =? "")%string
  then (Return (Some (errors_New
          "missing required variable(s): fileName, accessToken, tempFolderID, folderID")), h)
  else
  match os_Stat (filepath_Join sopDir (fileName +:+ ".pdf")) with
  | inl _ =>
      (Return (Some (errors_New
         ("PDF '" +:+ filepath_Join sopDir (fileName +:+ ".pdf") +:+ "' not found"))), h)
  | inr _ =>
  if (versionSafe =? "")%string
  then (Return (Some (errors_New
          "version-safe.txt missing or empty, or VERSION_SUFFIX not set")), h)
  else
  match queryExisting accessToken (fileName +:+ ".pdf") folderID h with
  | (Next (existingFileID, existingFileDesc), h1) =>
      if negb (existingFileID =? "")%string && (existingFileDesc =? versionSafe)%string
      then (Return None, h1)
      else
        match archiveOldVersion accessToken fileName folderID oldFolderID
                existingFileID existingFileDesc h1 with
        | (Next _, h2) =>
            deployFromUpload accessToken fileName versionSafe tempFolderID folderID
              sopDir h2
        | (Return r, h2) => (Return r, h2)
        | (Panic, h2) => (Panic, h2)
        end
  | (Return r, h1) => (Return r, h1)
  | (Panic, h1) => (Panic, h1)
  end
  end.
Proof.
  unfold DeployPDF, deployBeforeMove, deployFromUpload, bind, return_, ret.
  repeat case_match; simplify_eq; done.
Qed.

Lemma queryExisting_run (accessToken pdfFile folderID : string) (h : list Request) :
  queryExisting accessToken pdfFile folderID h =
  match http_NewRequest_err "GET" (queryURL folderID (url_QueryEscape pdfFile)) with
  | Some _ => (Panic, h)
  | None =>
      (match RoundTrip h (searchRequest accessToken pdfFile folderID) with
       | inl err => Return (Some err)
       | inr resp =>
           match json_Unmarshal_files (RespBody resp) with
           | inl err => Return (Some err)
           | inr Files => Next (firstFile Files)
           end
       end, h ++ [searchRequest accessToken pdfFile folderID])
  end.
Proof.
  unfold queryExisting, searchRequest, ptr_Header_Set, NewRequest_ptr, http_NewRequest,
    bind, Do, ret, return_, panic.
  destruct (http_NewRequest_err _ _); [done|].
  destruct (RoundTrip h _); [done|].
  by destruct (json_Unmarshal_files _).
Qed.

Lemma archiveOldVersion_archive_run
  (accessToken fileName folderID oldFolderID existingFileID existingFileDesc : string)
  (h : list Request) :
  existingFileID ≠ "" →
  oldFolderID ≠ "" →
  http_NewRequest_err "PATCH" (fileURL existingFileID) = None →
  http_NewRequest_err "PATCH" (moveURL existingFileID oldFolderID folderID) = None →
  let req1 := renameRequest accessToken fileName existingFileID existingFileDesc in
  let req2 := moveRequest accessToken existingFileID oldFolderID folderID in
  archiveOldVersion accessToken fileName folderID oldFolderID existingFileID
    existingFileDesc h =
  match RoundTrip h req1 with
  | inl err =>
      (Return (Some (fmt_Errorf_w "failed to rename existing file: " err)), h ++ [req1])
  | inr _ =>
      match RoundTrip (h ++ [req1]) req2 with
      | inl err =>
          (Return (Some (fmt_Errorf_w "failed to move old file to archive: " err)),
           (h ++ [req1]) ++ [req2])
      | inr _ => (Next (), (h ++ [req1]) ++ [req2])
      end
  end.
Proof.
  intros Hid Hold Hn1 Hn2 req1 req2. apply String.eqb_neq in Hid, Hold.
  unfold archiveOldVersion, ptr_Header_Set, NewRequest_ptr, http_NewRequest.
  rewrite Hid, Hold, Hn1, Hn2. cbn [negb andb].
  unfold bind, Do, ret, return_. subst req1 req2. unfold renameRequest, moveRequest.
  destruct (RoundTrip h _); [done|].
  by destruct (RoundTrip (h ++ _) _).
Qed.

(** Without an existing file the archive step does nothing. *)
Lemma archiveOldVersion_none
  (accessToken fileName folderID oldFolderID existingFileDesc : string)
  (h : list Request) :
  archiveOldVersion accessToken fileName folderID oldFolderID "" existingFileDesc h
  = (Next (), h).
Proof. done. Qed.

(** The archive step only appends to the history, never returns nil, and
    with an existing file and an archive folder its first request, if any,
    is the rename. *)
Lemma archiveOldVersion_inv
  (accessToken fileName folderID oldFolderID existingFileID existingFileDesc : string)
  (h h' : list Request) (res : Res (option error) ()) :
  archiveOldVersion accessToken fileName folderID oldFolderID existingFileID
    existingFileDesc h = (res, h') →
  ∃ t, h' = h ++ t
       ∧ res ≠ Return None
       ∧ (existingFileID ≠ "" → oldFolderID ≠ "" →
          (t = [] ∧ res = Panic)
          ∨ ∃ t', t = renameRequest accessToken fileName existingFileID
                        existingFileDesc :: t').
Proof.
  intros Hrun. run_cases Hrun.
  all: exists_suffix; (split; [done|]); intros Hid Hold.
  all: first [ by left
             | right; by eexists
             | apply String.eqb_neq in Hid, Hold; by absurd_tests ].
Qed.

(** The workflow from the upload step on only appends to the history, and
    when it returns nil it has issued the upload POST, the sharing PATCH
    and the final move PATCH, in this order. *)
Lemma deployFromUpload_inv
  (accessToken fileName versionSafe tempFolderID folderID sopDir : string)
  (h h' : list Request) (res : Res (option error) Empty_set) :
  deployFromUpload accessToken fileName versionSafe tempFolderID folderID sopDir h
    = (res, h') →
  ∃ t, h' = h ++ t
       ∧ (res = Return None →
          ∃ newFileID,
            Method <$> t = ["POST"; "PATCH"; "PATCH"]
            ∧ URL <$> t = [uploadURL; fileURL newFileID;
                           moveURL newFileID folderID tempFolderID]).
Proof.
  intros Hrun. unfold deployFromUpload in Hrun. run_cases Hrun.
  all: exists_suffix.
  all: try (intros [=]; fail).
  intros _. eexists. split; reflexivity.
Qed.

(** A run of [DeployPDF] whose first request was answered by a file list:
    the request is the search, and the outcome is that of the early exit
    or of the steps after the search. *)
Lemma DeployPDF_after_search
  (accessToken fileName versionSafe tempFolderID folderID oldFolderID sopDir : string)
  (h : list Request) (res : Res (option error) Empty_set)
  (req0 : Request) (rest : list Request) (resp : Response)
  (Files : list DriveFile) (existingFileID existingFileDesc : string) :
  DeployPDF accessToken fileName versionSafe tempFolderID folderID oldFolderID sopDir h
    = (res, h ++ req0 :: rest) →
  RoundTrip h req0 = inr resp →
  json_Unmarshal_files (RespBody resp) = inr Files →
  firstFile Files = (existingFileID, existingFileDesc) →
  req0 = searchRequest accessToken (fileName +:+ ".pdf") folderID
  ∧ (res, h ++ req0 :: rest) =
    if negb (existingFileID =? "")%string && (existingFileDesc =? versionSafe)%string
    then (Return None, h ++ [req0])
    else
      match archiveOldVersion accessToken fileName folderID oldFolderID
              existingFileID existingFileDesc (h ++ [req0]) with
      | (Next _, h2) =>
          deployFromUpload accessToken fileName versionSafe tempFolderID folderID
            sopDir h2
      | (Return r, h2) => (Return r, h2)
      | (Panic, h2) => (Panic, h2)
      end.
Proof.
  intros Hrun Hresp Hdec Hfirst.
  rewrite DeployPDF_steps, queryExisting_run in Hrun.
  set (sr := searchRequest accessToken (fileName +:+ ".pdf") folderID) in *.
  assert (req0 = sr) as ->; [|split; [done|]].
  { repeat (case_match; simplify_eq); hist; try done.
    all: repeat match goal with
                | Ha : archiveOldVersion _ _ _ _ _ _ _ = _ |- _ =>
                    apply archiveOldVersion_inv in Ha as (? & ? & _)
                | Hu : deployFromUpload _ _ _ _ _ _ _ = _ |- _ =>
                    apply deployFromUpload_inv in Hu as (? & ? & _)
                end; subst; by hist. }
  rewrite Hresp, Hdec, Hfirst in Hrun.
  repeat (case_match; simplify_eq); hist; done.
Qed.

(** *** DeployPDF: the claims *)

(** C2, amended. A run of [DeployPDF] that returns nil after a search that
    found no existing file (no entry, or a first entry without id) issued
    exactly four requests, in this order: the search GET, the upload POST,
    the sharing-restriction PATCH on the new file, and the PATCH that moves
    the new file into the final folder. *)
Theorem DeployPDF_no_existing_requests
  (accessToken fileName versionSafe tempFolderID folderID oldFolderID sopDir : string)
  (h : list Request) (req : Request) (rest : list Request) (resp : Response)
  (Files : list DriveFile) :
  DeployPDF accessToken fileName versionSafe tempFolderID folderID oldFolderID sopDir h
    = (Return None, h ++ req :: rest) →
  RoundTrip h req = inr resp →
  json_Unmarshal_files (RespBody resp) = inr Files →
  (firstFile Files).1 = "" →
  ∃ newFileID,
    Method <$> (req :: rest) = ["GET"; "POST"; "PATCH"; "PATCH"]
    ∧ URL <$> (req :: rest) =
        [queryURL folderID (url_QueryEscape (fileName +:+ ".pdf")); uploadURL;
         fileURL newFileID; moveURL newFileID folderID tempFolderID].
Proof.
  intros Hrun Hresp Hdec Hnone.
  destruct (firstFile Files) as [id desc] eqn:Hfirst. simpl in Hnone. subst id.
  destruct (DeployPDF_after_search _ _ _ _ _ _ _ _ _ _ _ _ _ _ _ Hrun Hresp Hdec Hfirst)
    as [-> Hnext].
  rewrite archiveOldVersion_none in Hnext. cbn [negb andb String.eqb] in Hnext.
  symmetry in Hnext. apply deployFromUpload_inv in Hnext as (t & Ht & Hok).
  destruct (Hok eq_refl) as (newFileID & Hm & Hu). hist.
  exists newFileID. cbn [fmap list_fmap]. by rewrite Hm, Hu.
Qed.

(** C5, amended. On one and the same search response, [DeployPDF] stops
    with success after the search alone exactly when
    [CheckRemoteVersionExists] returns [(true, nil)] and the first entry
    has a non-empty id. *)
Theorem DeployPDF_skip_iff_check_and_id
  (accessToken fileName versionSafe tempFolderID folderID oldFolderID sopDir : string)
  (h hD : list Request) (resD : Res (option error) Empty_set)
  (resC : Res (bool * option error) Empty_set)
  (req : Request) (rest : list Request) (resp : Response) (Files : list DriveFile) :
  DeployPDF accessToken fileName versionSafe tempFolderID folderID oldFolderID sopDir h
    = (resD, hD) →
  hD = h ++ req :: rest →
  CheckRemoteVersionExists accessToken fileName folderID versionSafe h
    = (resC, h ++ [req]) →
  RoundTrip h req = inr resp →
  json_Unmarshal_files (RespBody resp) = inr Files →
  (resD = Return None ∧ hD = h ++ [req])
  ↔ (resC = Return (true, None) ∧ (firstFile Files).1 ≠ "").
Proof.
  intros HD -> HC Hresp Hdec.
  rewrite (CheckRemoteVersionExists_answered _ _ _ _ _ _ _ _ _ HC Hresp Hdec).
  clear HC.
  destruct (firstFile Files) as [id desc] eqn:Hfirst.
  destruct (DeployPDF_after_search _ _ _ _ _ _ _ _ _ _ _ _ _ _ _ HD Hresp Hdec Hfirst)
    as [-> Hnext].
  assert (negb (id =? "")%string && (desc =? versionSafe)%string = true
          ↔ Return (match Files with
                    | f :: _ => (Description f =? versionSafe)%string
                    | [] => false
                    end, None) = Return (R := bool * option error) (A := Empty_set)
                                   (true, None)
            ∧ id ≠ "")
    as Hskip.
  { rewrite andb_true_iff, negb_true_iff, String.eqb_neq.
    destruct Files as [|f fs]; simpl in Hfirst; injection Hfirst as <- <-.
    - split; [by intros [? _] | by intros [_ ?]].
    - split; [intros [? ->]; done|]. by intros [[= ->] ?]. }
  destruct (negb (id =? "")%string && (desc =? versionSafe)%string).
  - injection Hnext as -> Hh. hist. simpl. split; [intros _; by apply Hskip | done].
  - split; [|intros Hyes; apply Hskip in Hyes; discriminate].
    intros [-> Hh]. exfalso. hist.
    destruct (archiveOldVersion _ _ _ _ _ _ _) as [[[]|r|] h2] eqn:Ha;
      apply archiveOldVersion_inv in Ha as (t & -> & Hr & _); simplify_eq.
    symmetry in Hnext. apply deployFromUpload_inv in Hnext as (t' & Ht' & Hok).
    destruct (Hok eq_refl) as (newFileID & Hm & _).
    hist. destruct t, t'; discriminate.
Qed.


(** C7. Once [DeployPDF] has reached the final move and the move request
    has been answered, the workflow returns an error exactly when the raw
    response body does not contain ["id"] (quotes included), and returns
    nil when it does; the status code of the response plays no part. *)
Theorem DeployPDF_final_move_error_iff_no_id
  (accessToken fileName versionSafe tempFolderID folderID oldFolderID sopDir : string)
  (h h1 : list Request) (newFileID : string) (res : Res (option error) Empty_set)
  (req : Request) (resp : Response) :
  deployBeforeMove accessToken fileName versionSafe tempFolderID folderID oldFolderID
    sopDir h = (Next newFileID, h1) →
  DeployPDF accessToken fileName versionSafe tempFolderID folderID oldFolderID sopDir h
    = (res, h1 ++ [req]) →
  RoundTrip h1 req = inr resp →
  req = moveRequest accessToken newFileID folderID tempFolderID
  ∧ ((∃ err, res = Return (Some err))
     ↔ ¬ ∃ pre post, RespBody resp = pre +:+ quoted_id +:+ post)
  ∧ ((∃ pre post, RespBody resp = pre +:+ quoted_id +:+ post) → res = Return None).
Proof.
  intros Hbefore Hrun Hresp.
  unfold DeployPDF, bind in Hrun. rewrite Hbefore in Hrun.
  rewrite <- bytes_Contains_iff.
  run_cases Hrun; hist; (split; [done|]).
  - rewrite negb_true_iff in *. split; [split; [congruence | eauto] | congruence].
  - rewrite negb_false_iff in *. split; [|done].
    split; [intros [? ?]; done | congruence].
Qed.

(** C10, amended. In the archive branch of [DeployPDF] (the search lists a
    file with a non-empty id whose description is not the version label and
    an archive folder is given), provided that both PATCH requests can be
    built, a transport error of the rename or of the move into the archive
    ends the workflow with that error wrapped; any response to both,
    whatever its status code and body, lets the workflow go on with the
    upload step. *)
Theorem DeployPDF_archive_ignores_status
  (accessToken fileName versionSafe tempFolderID folderID oldFolderID sopDir : string)
  (h h' : list Request) (res : Res (option error) Empty_set)
  (req0 : Request) (rest : list Request) (resp0 : Response)
  (Files : list DriveFile) (existingFileID existingFileDesc : string) :
  DeployPDF accessToken fileName versionSafe tempFolderID folderID oldFolderID sopDir h
    = (res, h') →
  h' = h ++ req0 :: rest →
  RoundTrip h req0 = inr resp0 →
  json_Unmarshal_files (RespBody resp0) = inr Files →
  firstFile Files = (existingFileID, existingFileDesc) →
  existingFileID ≠ "" →
  existingFileDesc ≠ versionSafe →
  oldFolderID ≠ "" →
  http_NewRequest_err "PATCH" (fileURL existingFileID) = None →
  http_NewRequest_err "PATCH" (moveURL existingFileID oldFolderID folderID) = None →
  let req1 := renameRequest accessToken fileName existingFileID existingFileDesc in
  let req2 := moveRequest accessToken existingFileID oldFolderID folderID in
  (∀ err, RoundTrip (h ++ [req0]) req1 = inl err →
     res = Return (Some (fmt_Errorf_w "failed to rename existing file: " err))
     ∧ h' = h ++ [req0; req1])
  ∧ (∀ r1 err,
       RoundTrip (h ++ [req0]) req1 = inr r1 →
       RoundTrip (h ++ [req0; req1]) req2 = inl err →
       res = Return (Some (fmt_Errorf_w "failed to move old file to archive: " err))
       ∧ h' = h ++ [req0; req1; req2])
  ∧ (∀ r1 r2,
       RoundTrip (h ++ [req0]) req1 = inr r1 →
       RoundTrip (h ++ [req0; req1]) req2 = inr r2 →
       (res, h') = deployFromUpload accessToken fileName versionSafe tempFolderID
                     folderID sopDir (h ++ [req0; req1; req2])).
Proof.
  intros Hrun -> Hresp Hdec Hfirst Hid Hdesc Hold Hn1 Hn2 req1 req2.
  destruct (DeployPDF_after_search _ _ _ _ _ _ _ _ _ _ _ _ _ _ _ Hrun Hresp Hdec Hfirst)
    as [-> Hnext].
  apply String.eqb_neq in Hdesc. rewrite Hdesc, andb_false_r in Hnext.
  rewrite (archiveOldVersion_archive_run _ _ _ _ _ _ _ Hid Hold Hn1 Hn2) in Hnext.
  fold req1 req2 in Hnext. rewrite <- !app_assoc in Hnext. cbn [app] in Hnext.
  split_and!.
  - intros err Hrt. rewrite Hrt in Hnext. by injection Hnext as -> ->.
  - intros r1 err Hrt1 Hrt2. rewrite Hrt1, Hrt2 in Hnext. by injection Hnext as -> ->.
  - intros r1 r2 Hrt1 Hrt2. by rewrite Hrt1, Hrt2 in Hnext.
Qed.

(** *** The upload requests and their responses *)

Lemma form_data_is_not_related (b b' : string) :
  "multipart/form-data; boundary=" +:+ b ≠ "multipart/related; boundary=" +:+ b'.
Proof.
  intros Heq. apply (f_equal (String.substring 10 1)) in Heq. cbv in Heq. discriminate.
Qed.

Lemma Header_Set_lookup (req : Request) (key value : string) :
  Header (Header_Set req key value) !! key = Some value.
Proof. apply lookup_insert_eq. Qed.

(** C3, amended. When the upload response has a status below 200 or of at
    least 300, [UploadFileToDrive] returns the empty id and an error whose
    message holds the status code in decimal and the raw body.  The upload
    step of [DeployPDF] does not read the status code: it returns an error
    exactly when the body does not decode to a non-empty id, and that error
    holds the raw body only. *)
Theorem upload_response_errors :
  (∀ (accessToken folderID filePath : string) (h : list Request)
     (res : Res (string * option error) Empty_set) (req : Request) (resp : Response),
     UploadFileToDrive accessToken folderID filePath h = (res, h ++ [req]) →
     RoundTrip h req = inr resp →
     (StatusCode resp < 200 ∨ 300 ≤ StatusCode resp)%Z →
     res = Return ("", Some (errors_New
             ("upload failed: status " +:+ fmt_d (StatusCode resp) +:+ ": "
              +:+ RespBody resp))))
  ∧ (∀ (accessToken pdfFile pdfPath versionSafe tempFolderID : string)
       (h : list Request) (res : Res (option error) string) (req : Request)
       (resp : Response),
       uploadNewFile accessToken pdfFile pdfPath versionSafe tempFolderID h
         = (res, h ++ [req]) →
       RoundTrip h req = inr resp →
       ((∃ err, res = Return (Some err))
        ↔ ¬ ∃ newFileID, json_Unmarshal_id (RespBody resp) = inr newFileID
                         ∧ newFileID ≠ "")
       ∧ (∀ err, res = Return (Some err) →
                 err = errors_New ("upload failed: " +:+ RespBody resp))
       ∧ (∀ newFileID, json_Unmarshal_id (RespBody resp) = inr newFileID →
                       newFileID ≠ "" → res = Next newFileID)).
Proof.
  split.
  - intros accessToken folderID filePath h res req resp Hrun Hresp Hstatus.
    run_cases Hrun; hist; try done.
    all: match goal with
         | Hb : (_ <? 200)%Z || (_ >=? 300)%Z = false |- _ =>
             apply orb_false_iff in Hb as [? ?]
         end; lia.
  - intros accessToken pdfFile pdfPath versionSafe tempFolderID h res req resp
      Hrun Hresp.
    run_cases Hrun; hist;
      repeat match goal with
             | Hb : (_ =? "")%string = true |- _ => apply String.eqb_eq in Hb
             | Hb : (_ =? "")%string = false |- _ => apply String.eqb_neq in Hb
             end.
    all: split_and!; [split|..].
    all: try (intros; simplify_eq; eauto; done).
    all: try (intros [? [=]]; fail).
    all: try (intros _ (id & ? & ?); congruence).
    all: try (intros; congruence).
    all: intros Hno; exfalso; apply Hno; eauto.
Qed.

Lemma archiveOldVersion_posts
  (accessToken fileName folderID oldFolderID existingFileID existingFileDesc : string)
  (h h' : list Request) (res : Res (option error) ()) :
  archiveOldVersion accessToken fileName folderID oldFolderID existingFileID
    existingFileDesc h = (res, h') →
  ∃ t, h' = h ++ t ∧ Forall postIsFormData t.
Proof.
  intros Hrun. run_cases Hrun; exists_suffix; cbn [app].
  all: repeat constructor; intros [=].
Qed.

Lemma deployFromUpload_posts
  (accessToken fileName versionSafe tempFolderID folderID sopDir : string)
  (h h' : list Request) (res : Res (option error) Empty_set) :
  deployFromUpload accessToken fileName versionSafe tempFolderID folderID sopDir h
    = (res, h') →
  ∃ t, h' = h ++ t ∧ Forall postIsFormData t.
Proof.
  intros Hrun. unfold deployFromUpload in Hrun.
  run_cases Hrun; exists_suffix; cbn [app].
  all: repeat constructor; first [intros [=]; fail | intros _; apply Header_Set_lookup].
Qed.

(** C4. The upload POST of [UploadFileToDrive] carries the content type
    [multipart/related; boundary=<boundary of the writer>].  Every POST
    that a run of [DeployPDF] issues carries what [FormDataContentType]
    yields, [multipart/form-data; boundary=...], which is never the
    [multipart/related] header. *)
Theorem upload_content_types :
  (∀ (accessToken folderID filePath : string) (h : list Request)
     (res : Res (string * option error) Empty_set) (req : Request),
     UploadFileToDrive accessToken folderID filePath h = (res, h ++ [req]) →
     Method req = "POST"
     ∧ Header req !! "Content-Type"
       = Some ("multipart/related; boundary=" +:+ randomBoundary))
  ∧ (∀ (accessToken fileName versionSafe tempFolderID folderID oldFolderID
        sopDir : string) (h h' : list Request) (res : Res (option error) Empty_set),
       DeployPDF accessToken fileName versionSafe tempFolderID folderID oldFolderID
         sopDir h = (res, h') →
       ∃ t, h' = h ++ t
            ∧ ∀ req, req ∈ t → Method req = "POST" →
                Header req !! "Content-Type"
                = Some (FormDataContentType (multipart_NewWriter randomBoundary))
                ∧ Header req !! "Content-Type"
                  ≠ Some ("multipart/related; boundary=" +:+ randomBoundary)).
Proof.
  split.
  - intros accessToken folderID filePath h res req Hrun.
    run_cases Hrun; hist; (split; [done | apply Header_Set_lookup]).
  - intros accessToken fileName versionSafe tempFolderID folderID oldFolderID sopDir
      h h' res Hrun.
    cut (∃ t, h' = h ++ t ∧ Forall postIsFormData t).
    { intros (t & -> & Hall). exists t. split; [done|]. intros req Hin Hpost.
      rewrite Forall_forall in Hall. rewrite (Hall req Hin Hpost). split; [done|].
      intros Heq.
      assert (FormDataContentType (multipart_NewWriter randomBoundary)
              = "multipart/related; boundary=" +:+ randomBoundary) as Heq'
        by congruence.
      by apply form_data_is_not_related in Heq'. }
    rewrite DeployPDF_steps, queryExisting_run in Hrun.
    repeat (case_match; simplify_eq);
      repeat match goal with
             | Ha : archiveOldVersion _ _ _ _ _ _ _ = _ |- _ =>
                 apply archiveOldVersion_posts in Ha as (? & -> & ?)
             | Hu : deployFromUpload _ _ _ _ _ _ _ = _ |- _ =>
                 apply deployFromUpload_posts in Hu as (? & -> & ?)
             end;
      exists_suffix; cbn [app].
    all: repeat first [ apply Forall_nil_2 | apply Forall_cons_2 | apply Forall_app_2 ];
      first [done | intros [=]].
Qed.

End Deploy.

(** * Further properties of the code *)

(** ** Strings *)

Lemma append_length (a b : string) :
  String.length (a +:+ b) = String.length a + String.length b.
Proof.
  induction a as [|x a IH]; [done|].
  change (S (String.length (a +:+ b)) = S (String.length a + String.length b)).
  by rewrite IH.
Qed.

Lemma append_inj_r (a b c : string) : a +:+ c = b +:+ c → a = b.
Proof.
  revert b. induction a as [|x a IH]; intros [|y b] Heq.
  - done.
  - apply (f_equal String.length) in Heq. rewrite !append_length in Heq.
    simpl in Heq. lia.
  - apply (f_equal String.length) in Heq. rewrite !append_length in Heq.
    simpl in Heq. lia.
  - change (String x (a +:+ c) = String y (b +:+ c)) in Heq.
    injection Heq as -> Heq. f_equal. by apply IH.
Qed.

Lemma append_inj_l (a b c : string) : a +:+ b = a +:+ c → b = c.
Proof.
  induction a as [|x a IH]; [done|].
  change (String x (a +:+ b) = String x (a +:+ c) → b = c).
  intros Heq. injection Heq as Heq. by apply IH.
Qed.

Section Steps.
Context {L : GoLib} {W : World}.

(** ** The steps of [DeployPDF] as functions of what the world answers *)

Lemma archiveOldVersion_delete_run
  (accessToken fileName folderID existingFileID existingFileDesc : string)
  (h : list Request) :
  existingFileID ≠ "" →
  let del := deleteRequest accessToken existingFileID in
  archiveOldVersion accessToken fileName folderID "" existingFileID existingFileDesc h =
  match http_NewRequest_err "DELETE" (fileURL existingFileID) with
  | Some _ => (Panic, h)
  | None =>
      match RoundTrip h del with
      | inl err =>
          (Return (Some (fmt_Errorf_w "failed to delete existing file: " err)),
           h ++ [del])
      | inr resp =>
          if negb (StatusCode resp =? 204)%Z && negb (StatusCode resp =? 200)%Z
          then (Return (Some (errors_New
                  ("failed to delete existing file: status " +:+ fmt_d (StatusCode resp)
                   +:+ ": " +:+ RespBody resp))), h ++ [del])
          else (Next (), h ++ [del])
      end
  end.
Proof.
  intros Hid del. apply String.eqb_neq in Hid.
  unfold archiveOldVersion, ptr_Header_Set, NewRequest_ptr, http_NewRequest.
  rewrite Hid. cbn [negb andb String.eqb].
  destruct (http_NewRequest_err _ _); [done|].
  unfold bind, Do, ret, return_. subst del. unfold deleteRequest.
  destruct (RoundTrip h _) as [err|resp]; [done|].
  by destruct (negb _ && negb _).
Qed.

(** What the archive-or-delete step has sent when it lets the workflow go on. *)
Lemma archiveOldVersion_next
  (accessToken fileName folderID oldFolderID existingFileID existingFileDesc : string)
  (h h' : list Request) :
  existingFileID ≠ "" →
  archiveOldVersion accessToken fileName folderID oldFolderID existingFileID
    existingFileDesc h = (Next (), h') →
  h' = h ++ (if (oldFolderID =? "")%string
             then [deleteRequest accessToken existingFileID]
             else [renameRequest accessToken fileName existingFileID existingFileDesc;
                   moveRequest accessToken existingFileID oldFolderID folderID]).
Proof.
  intros Hid Hrun. apply String.eqb_neq in Hid.
  unfold archiveOldVersion in Hrun. rewrite Hid in Hrun. cbn [negb andb] in Hrun.
  destruct (oldFolderID =? "")%string; cbn [negb] in Hrun;
    run_cases Hrun; by rewrite <- ?app_assoc.
Qed.

(** [CheckRemoteVersionExists] as a function of what the world answers. *)
Lemma CheckRemoteVersionExists_run
  (accessToken fileName folderID versionSafe : string) (h : list Request) :
  CheckRemoteVersionExists accessToken fileName folderID versionSafe h =
  if (accessToken =? "")%string
  then (Return (false, Some (errors_New "ACCESS_TOKEN is not set")), h) else
  if (fileName =? "")%string || (folderID =? "")%string || (versionSafe =? "")%string
  then (Return (false, Some (errors_New
          "missing required variable(s): FileName, FolderID, VersionSafe")), h)
  else
  let sr := searchRequest accessToken (fileName +:+ ".pdf") folderID in
  match http_NewRequest_err "GET"
          (queryURL folderID (url_QueryEscape (fileName +:+ ".pdf"))) with
  | Some err => (Return (false, Some err), h)
  | None =>
      (match RoundTrip h sr with
       | inl err => Return (false, Some err)
       | inr resp =>
           match json_Unmarshal_files (RespBody resp) with
           | inl err => Return (false, Some err)
           | inr Files =>
               Return (match Files with
                       | f :: _ => (Description f =? versionSafe)%string
                       | [] => false
                       end, None)
           end
       end, h ++ [sr])
  end.
Proof.
  unfold CheckRemoteVersionExists, searchRequest, http_NewRequest, bind, Do, return_.
  destruct (accessToken =? "")%string; [done|].
  destruct (_ || _); [done|].
  destruct (http_NewRequest_err _ _); [done|].
  destruct (RoundTrip h _) as [err|resp]; [done|].
  destruct (json_Unmarshal_files _) as [err|[|f Files]]; [done..|].
  by destruct (Description f =? versionSafe)%string.
Qed.

(** [UploadFileToDrive] as a function of what the world answers. *)
Lemma UploadFileToDrive_run (accessToken folderID filePath : string) (h : list Request) :
  UploadFileToDrive accessToken folderID filePath h =
  if (accessToken =? "")%string
  then (Return ("", Some (errors_New "accessToken is required")), h) else
  if (folderID =? "")%string
  then (Return ("", Some (errors_New "folderID is required")), h) else
  if (filePath =? "")%string
  then (Return ("", Some (errors_New "filePath is required")), h) else
  match os_Stat filePath with
  | inl err => (Return ("", Some (fmt_Errorf_w "stat file: " err)), h)
  | inr finfo =>
  if IsDir finfo
  then (Return ("", Some (errors_New "filePath is a directory")), h) else
  match json_Marshal (uploadMeta folderID filePath) with
  | inl err => (Return ("", Some (fmt_Errorf_w "marshal metadata: " err)), h)
  | inr metaJSON =>
  match os_Open filePath with
  | inl err => (Return ("", Some (fmt_Errorf_w "open file: " err)), h)
  | inr f =>
  match read_err f with
  | Some err => (Return ("", Some (fmt_Errorf_w "copy file part: " err)), h)
  | None =>
  match http_NewRequest_err "POST" uploadURL with
  | Some err => (Return ("", Some (fmt_Errorf_w "new request: " err)), h)
  | None =>
  let req := uploadFileRequest accessToken filePath metaJSON f in
  (match RoundTrip h req with
   | inl err => Return ("", Some (fmt_Errorf_w "upload request failed: " err))
   | inr resp =>
       if (StatusCode resp <? 200)%Z || (StatusCode resp >=? 300)%Z
       then Return ("", Some (errors_New
              ("upload failed: status " +:+ fmt_d (StatusCode resp) +:+ ": "
               +:+ RespBody resp)))
       else
         match json_Unmarshal_id (RespBody resp) with
         | inl err => Return ("", Some (fmt_Errorf_w "decode upload response: " err))
         | inr id =>
             if (id =? "")%string
             then Return ("", Some (errors_New
                    ("upload succeeded but returned empty id: " +:+ RespBody resp)))
             else Return (id, None)
         end
   end, h ++ [req])
  end end end end end.
Proof.
  unfold UploadFileToDrive, uploadFileRequest, uploadMeta, uploadCtype, http_NewRequest,
    bind, Do, return_.
  destruct (accessToken =? "")%string; [done|].
  destruct (folderID =? "")%string; [done|].
  destruct (filePath =? "")%string; [done|].
  destruct (os_Stat _) as [err|finfo]; [done|].
  destruct (IsDir finfo); [done|].
  destruct (json_Marshal _) as [err|metaJSON]; [done|].
  destruct (os_Open _) as [err|f]; [done|].
  destruct (read_err f); [done|].
  destruct (http_NewRequest_err _ _); [done|].
  destruct (RoundTrip h _) as [err|resp]; [done|].
  destruct (_ || _); [done|].
  destruct (json_Unmarshal_id _) as [err|id]; [done|].
  by destruct (id =? "")%string.
Qed.

(** [GetGoogleAccessToken] as a function of what the world answers. *)
Lemma GetGoogleAccessToken_run (clientID clientSecret refreshToken : string)
  (h : list Request) :
  GetGoogleAccessToken clientID clientSecret refreshToken h =
  match http_NewRequest_err "POST" tokenURL with
  | Some err => (Return ("", Some err), h)
  | None =>
      let req := tokenRequest clientID clientSecret refreshToken in
      (match RoundTrip h req with
       | inl err => Return ("", Some err)
       | inr resp =>
           match json_Decode_token (RespBody resp) with
           | inl err =>
               Return ("", Some (fmt_Errorf_w "failed to decode token response: " err))
           | inr tokenResp =>
               if (AccessToken tokenResp =? "")%string
               then Return ("", Some (errors_New "no access_token in response"))
               else Return (AccessToken tokenResp, None)
           end
       end, h ++ [req])
  end.
Proof.
  unfold GetGoogleAccessToken, tokenRequest, tokenData, http_NewRequest, bind, Do,
    return_.
  destruct (http_NewRequest_err _ _); [done|].
  destruct (RoundTrip h _) as [err|resp]; [done|].
  destruct (json_Decode_token _) as [err|tokenResp]; [done|].
  by destruct (AccessToken tokenResp =? "")%string.
Qed.

Lemma uploadNewFile_run
  (accessToken pdfFile pdfPath versionSafe tempFolderID : string) (h : list Request) :
  uploadNewFile accessToken pdfFile pdfPath versionSafe tempFolderID h =
  match os_Open pdfPath with
  | inl err => (Return (Some err), h)
  | inr f =>
      let req := deployUploadRequest accessToken pdfFile versionSafe tempFolderID f in
      match http_NewRequest_err "POST" uploadURL with
      | Some _ => (Panic, h)
      | None =>
          (match RoundTrip h req with
           | inl err => Return (Some (fmt_Errorf_w "upload failed: " err))
           | inr resp =>
               match json_Unmarshal_id (RespBody resp) with
               | inl _ =>
                   Return (Some (errors_New ("upload failed: " +:+ RespBody resp)))
               | inr newFileID =>
                   if (newFileID =? "")%string
                   then Return (Some (errors_New
                                  ("upload failed: " +:+ RespBody resp)))
                   else Next newFileID
               end
           end, h ++ [req])
      end
  end.
Proof.
  unfold uploadNewFile, deployUploadRequest, ptr_Header_Set, NewRequest_ptr,
    http_NewRequest, bind, Do, ret, return_, panic.
  destruct (os_Open pdfPath) as [err|f]; [done|].
  destruct (http_NewRequest_err _ _); [done|].
  destruct (RoundTrip h _) as [err|resp]; [done|].
  destruct (json_Unmarshal_id _) as [err|id]; [done|].
  by destruct (id =? "")%string.
Qed.

(** The steps after the upload: the sharing request, whose outcome is not
    looked at, then the final move. *)
Lemma afterUpload_run (accessToken newFileID folderID tempFolderID : string)
  (h : list Request) :
  bind (setSharingRestrictions accessToken newFileID)
    (λ _, moveToFinalFolder accessToken newFileID folderID tempFolderID) h =
  match http_NewRequest_err "PATCH" (fileURL newFileID) with
  | Some _ => (Panic, h)
  | None =>
      let shared := h ++ [sharingRequest accessToken newFileID] in
      let move := moveRequest accessToken newFileID folderID tempFolderID in
      match http_NewRequest_err "PATCH" (moveURL newFileID folderID tempFolderID) with
      | Some _ => (Panic, shared)
      | None =>
          (match RoundTrip shared move with
           | inl err => Return (Some (fmt_Errorf_w "move to final folder failed: " err))
           | inr resp =>
               if negb (bytes_Contains (RespBody resp) quoted_id)
               then Return (Some (errors_New
                              ("upload succeeded, but move failed: " +:+ RespBody resp)))
               else Return None
           end, shared ++ [move])
      end
  end.
Proof.
  unfold setSharingRestrictions, moveToFinalFolder, sharingRequest, moveRequest,
    ptr_Header_Set, NewRequest_ptr, http_NewRequest, bind, Do, ret, return_, panic.
  destruct (http_NewRequest_err "PATCH" (fileURL newFileID)); [done|].
  destruct (http_NewRequest_err "PATCH" (moveURL _ _ _)); [done|].
  destruct (RoundTrip (h ++ _) _) as [err|resp]; [done|].
  by destruct (negb _).
Qed.

Lemma deployFromUpload_run
  (accessToken fileName versionSafe tempFolderID folderID sopDir : string)
  (h : list Request) :
  deployFromUpload accessToken fileName versionSafe tempFolderID folderID sopDir h =
  match uploadNewFile accessToken (fileName +:+ ".pdf")
          (filepath_Join sopDir (fileName +:+ ".pdf")) versionSafe tempFolderID h with
  | (Next newFileID, h1) =>
      bind (setSharingRestrictions accessToken newFileID)
        (λ _, moveToFinalFolder accessToken newFileID folderID tempFolderID) h1
  | (Return r, h1) => (Return r, h1)
  | (Panic, h1) => (Panic, h1)
  end.
Proof. done. Qed.

(** ** What a run of [DeployPDF] sends *)

(** The requests of the archive-or-delete step satisfy any property that
    the requests of its branch satisfy, and they are at most two (one
    without archive folder). *)
Lemma archiveOldVersion_trace (P : Request → Prop)
  (accessToken fileName folderID oldFolderID existingFileID existingFileDesc : string)
  (h h' : list Request) (res : Res (option error) ()) :
  (oldFolderID ≠ "" →
   P (renameRequest accessToken fileName existingFileID existingFileDesc)
   ∧ P (moveRequest accessToken existingFileID oldFolderID folderID)) →
  (oldFolderID = "" → P (deleteRequest accessToken existingFileID)) →
  archiveOldVersion accessToken fileName folderID oldFolderID existingFileID
    existingFileDesc h = (res, h') →
  ∃ t, h' = h ++ t ∧ Forall P t
       ∧ length t ≤ (if (oldFolderID =? "")%string then 1 else 2).
Proof.
  intros Harch Hdel Hrun.
  destruct (oldFolderID =? "")%string eqn:Hold.
  - apply String.eqb_eq in Hold. subst oldFolderID. specialize (Hdel eq_refl).
    unfold archiveOldVersion in Hrun.
    cbn [String.eqb negb] in Hrun. rewrite andb_false_r in Hrun.
    run_cases Hrun; exists_suffix; cbn [app length];
      (split; [repeat constructor; done | lia]).
  - destruct (Harch ltac:(by apply String.eqb_neq)) as [Hren Hmove].
    unfold archiveOldVersion in Hrun.
    rewrite Hold in Hrun. cbn [negb] in Hrun. rewrite andb_true_r in Hrun.
    run_cases Hrun; exists_suffix; cbn [app length];
      (split; [repeat constructor; done | lia]).
Qed.

Lemma deployFromUpload_trace (P : Request → Prop)
  (accessToken fileName versionSafe tempFolderID folderID sopDir : string)
  (h h' : list Request) (res : Res (option error) Empty_set) :
  (∀ f, os_Open (filepath_Join sopDir (fileName +:+ ".pdf")) = inr f →
        P (deployUploadRequest accessToken (fileName +:+ ".pdf") versionSafe
             tempFolderID f)) →
  (∀ newFileID, P (sharingRequest accessToken newFileID)
                ∧ P (moveRequest accessToken newFileID folderID tempFolderID)) →
  deployFromUpload accessToken fileName versionSafe tempFolderID folderID sopDir h
    = (res, h') →
  ∃ t, h' = h ++ t ∧ Forall P t ∧ length t ≤ 3.
Proof.
  intros Hup Hafter Hrun.
  rewrite deployFromUpload_run, uploadNewFile_run in Hrun.
  destruct (os_Open _) as [err|f] eqn:Hopen.
  { injection Hrun as _ <-. exists []. by rewrite app_nil_r; split_and!; [|constructor|simpl; lia]. }
  specialize (Hup f eq_refl). cbn zeta in Hrun.
  destruct (http_NewRequest_err "POST" uploadURL).
  { injection Hrun as _ <-. exists []. by rewrite app_nil_r; split_and!; [|constructor|simpl; lia]. }
  assert (∀ r, (Return r : Res (option error) Empty_set,
                h ++ [deployUploadRequest accessToken (fileName +:+ ".pdf")
                        versionSafe tempFolderID f]) = (res, h') →
          ∃ t, h' = h ++ t ∧ Forall P t ∧ length t ≤ 3) as Hstop.
  { intros r [= _ <-]. eexists. split; [done|].
    split; [by repeat constructor | simpl; lia]. }
  destruct (RoundTrip h _) as [err|resp]; [by eapply Hstop|].
  destruct (json_Unmarshal_id _) as [err|newFileID]; [by eapply Hstop|].
  destruct (newFileID =? "")%string; [by eapply Hstop|]. clear Hstop.
  destruct (Hafter newFileID) as [Hshare Hmove].
  rewrite afterUpload_run in Hrun. cbn zeta in Hrun.
  repeat (case_match; simplify_eq); exists_suffix; cbn [app length];
    (split; [repeat constructor; done | lia]).
Qed.

(** A run of [DeployPDF] that sent something: the checks passed, the first
    request is the search, and the outcome is read off the answers. *)
Lemma DeployPDF_searched
  (accessToken fileName versionSafe tempFolderID folderID oldFolderID sopDir : string)
  (h : list Request) (res : Res (option error) Empty_set)
  (req0 : Request) (rest : list Request) :
  DeployPDF accessToken fileName versionSafe tempFolderID folderID oldFolderID sopDir h
    = (res, h ++ req0 :: rest) →
  let sr := searchRequest accessToken (fileName +:+ ".pdf") folderID in
  req0 = sr
  ∧ (res, h ++ req0 :: rest) =
    match RoundTrip h sr with
    | inl err => (Return (Some err), h ++ [sr])
    | inr resp =>
        match json_Unmarshal_files (RespBody resp) with
        | inl err => (Return (Some err), h ++ [sr])
        | inr Files =>
            if negb ((firstFile Files).1 =? "")%string
               && ((firstFile Files).2 =? versionSafe)%string
            then (Return None, h ++ [sr])
            else
              match archiveOldVersion accessToken fileName folderID oldFolderID
                      (firstFile Files).1 (firstFile Files).2 (h ++ [sr]) with
              | (Next _, h2) =>
                  deployFromUpload accessToken fileName versionSafe tempFolderID
                    folderID sopDir h2
              | (Return r, h2) => (Return r, h2)
              | (Panic, h2) => (Panic, h2)
              end
        end
    end.
Proof.
  intros Hrun sr.
  rewrite DeployPDF_steps, queryExisting_run in Hrun. fold sr in Hrun.
  assert (req0 = sr) as ->; [|split; [done|]].
  { repeat (case_match; simplify_eq); hist; try done.
    all: repeat match goal with
                | Ha : archiveOldVersion _ _ _ _ _ _ _ = _ |- _ =>
                    apply archiveOldVersion_inv in Ha as (? & ? & _)
                | Hu : deployFromUpload _ _ _ _ _ _ _ = _ |- _ =>
                    apply deployFromUpload_inv in Hu as (? & ? & _)
                end; subst; by hist. }
  destruct (_ || _); [injection Hrun as _ Hh; by hist|].
  destruct (os_Stat _); [injection Hrun as _ Hh; by hist|].
  destruct (versionSafe =? "")%string; [injection Hrun as _ Hh; by hist|].
  destruct (http_NewRequest_err _ _); [injection Hrun as _ Hh; by hist|].
  destruct (RoundTrip h sr) as [err|resp]; [done|].
  destruct (json_Unmarshal_files _) as [err|Files]; [done|].
  by destruct (firstFile Files) as [id desc].
Qed.

(** The requests of a whole run of [DeployPDF] satisfy any property that
    the requests of each step satisfy, and they are at most six (five
    without archive folder). *)
Lemma DeployPDF_trace (P : Request → Prop)
  (accessToken fileName versionSafe tempFolderID folderID oldFolderID sopDir : string)
  (h h' : list Request) (res : Res (option error) Empty_set) :
  P (searchRequest accessToken (fileName +:+ ".pdf") folderID) →
  (oldFolderID ≠ "" → ∀ id desc,
     P (renameRequest accessToken fileName id desc)
     ∧ P (moveRequest accessToken id oldFolderID folderID)) →
  (oldFolderID = "" → ∀ id, P (deleteRequest accessToken id)) →
  (∀ f, os_Open (filepath_Join sopDir (fileName +:+ ".pdf")) = inr f →
        P (deployUploadRequest accessToken (fileName +:+ ".pdf") versionSafe
             tempFolderID f)) →
  (∀ newFileID, P (sharingRequest accessToken newFileID)
                ∧ P (moveRequest accessToken newFileID folderID tempFolderID)) →
  DeployPDF accessToken fileName versionSafe tempFolderID folderID oldFolderID sopDir h
    = (res, h') →
  ∃ t, h' = h ++ t ∧ Forall P t
       ∧ length t ≤ (if (oldFolderID =? "")%string then 5 else 6).
Proof.
  intros Hsearch Harch Hdel Hup Hafter Hrun.
  assert (0 ≤ (if (oldFolderID =? "")%string then 5 else 6)
          ∧ 1 ≤ (if (oldFolderID =? "")%string then 5 else 6)) as [Hlen0 Hlen1]
    by (destruct (oldFolderID =? "")%string; lia).
  assert (∀ r : Res (option error) Empty_set, (r, h) = (res, h') →
          ∃ t, h' = h ++ t ∧ Forall P t
               ∧ length t ≤ (if (oldFolderID =? "")%string then 5 else 6)) as Hnone.
  { intros r [= _ <-]. exists []. rewrite app_nil_r. by split_and!; [|constructor|]. }
  assert (∀ r : Res (option error) Empty_set,
            (r, h ++ [searchRequest accessToken (fileName +:+ ".pdf") folderID])
            = (res, h') →
          ∃ t, h' = h ++ t ∧ Forall P t
               ∧ length t ≤ (if (oldFolderID =? "")%string then 5 else 6)) as Hone.
  { intros r [= _ <-]. eexists. split; [done|]. split; [by repeat constructor|done]. }
  rewrite DeployPDF_steps, queryExisting_run in Hrun.
  destruct (_ || _); [by eapply Hnone|].
  destruct (os_Stat _); [by eapply Hnone|].
  destruct (versionSafe =? "")%string; [by eapply Hnone|].
  destruct (http_NewRequest_err _ _); [by eapply Hnone|].
  destruct (RoundTrip h _) as [err|resp]; [by eapply Hone|].
  destruct (json_Unmarshal_files _) as [err|Files]; [by eapply Hone|].
  destruct (firstFile Files) as [id desc].
  destruct (negb _ && (_ =? versionSafe)%string); [by eapply Hone|].
  destruct (archiveOldVersion _ _ _ _ _ _ _) as [ra h2] eqn:Ha.
  apply (archiveOldVersion_trace P) in Ha as (ta & -> & HPa & Hla);
    [|intros Hold; by apply Harch|intros Hold; by apply Hdel].
  assert (∀ r : Res (option error) Empty_set,
            (r, (h ++ [searchRequest accessToken (fileName +:+ ".pdf") folderID]) ++ ta)
            = (res, h') →
          ∃ t, h' = h ++ t ∧ Forall P t
               ∧ length t ≤ (if (oldFolderID =? "")%string then 5 else 6)) as Harchived.
  { intros r [= _ <-]. rewrite <- app_assoc. eexists. split; [done|].
    split; [apply Forall_app_2; [by repeat constructor|done]|].
    rewrite length_app. simpl. destruct (oldFolderID =? "")%string; lia. }
  destruct ra as [[]|r|]; [|by eapply Harchived..].
  apply (deployFromUpload_trace P) in Hrun as (tu & -> & HPu & Hlu); [|done..].
  rewrite <- !app_assoc. eexists. split; [done|]. split.
  - apply Forall_app_2; [by repeat constructor|by apply Forall_app_2].
  - rewrite !length_app. simpl. destruct (oldFolderID =? "")%string; lia.
Qed.

(** A run of [DeployPDF] without archive folder that sent a second request
    after a search that listed a file: the second request deletes that
    file, and the outcome is read off its answer. *)
Lemma DeployPDF_delete_step
  (accessToken fileName versionSafe tempFolderID folderID sopDir : string)
  (h : list Request) (res : Res (option error) Empty_set)
  (req0 req1 : Request) (rest : list Request) (resp : Response)
  (Files : list DriveFile) :
  DeployPDF accessToken fileName versionSafe tempFolderID folderID "" sopDir h
    = (res, h ++ req0 :: req1 :: rest) →
  RoundTrip h req0 = inr resp →
  json_Unmarshal_files (RespBody resp) = inr Files →
  (firstFile Files).1 ≠ "" →
  req1 = deleteRequest accessToken (firstFile Files).1
  ∧ (res, h ++ req0 :: req1 :: rest) =
    match RoundTrip (h ++ [req0]) req1 with
    | inl err =>
        (Return (Some (fmt_Errorf_w "failed to delete existing file: " err)),
         h ++ [req0; req1])
    | inr dresp =>
        if negb (StatusCode dresp =? 204)%Z && negb (StatusCode dresp =? 200)%Z
        then (Return (Some (errors_New
                ("failed to delete existing file: status " +:+ fmt_d (StatusCode dresp)
                 +:+ ": " +:+ RespBody dresp))), h ++ [req0; req1])
        else deployFromUpload accessToken fileName versionSafe tempFolderID folderID
               sopDir (h ++ [req0; req1])
    end.
Proof.
  intros Hrun Hresp Hdec Hid.
  destruct (DeployPDF_searched _ _ _ _ _ _ _ _ _ _ _ Hrun) as [-> Hnext].
  cbn zeta in Hnext. rewrite Hresp, Hdec in Hnext. clear Hrun.
  destruct (negb _ && (_ =? versionSafe)%string); [by hist|].
  rewrite (archiveOldVersion_delete_run _ _ _ _ _ _ Hid) in Hnext. cbn zeta in Hnext.
  destruct (http_NewRequest_err _ _); [by hist|].
  set (del := deleteRequest accessToken (firstFile Files).1) in *.
  assert (req1 = del) as ->; [|split; [done|]].
  { destruct (RoundTrip _ del) as [err|dresp]; [by hist|].
    destruct (negb _ && negb _); [by hist|].
    symmetry in Hnext. apply deployFromUpload_inv in Hnext as (t & Ht & _). by hist. }
  rewrite <- !app_assoc in Hnext. cbn [app] in Hnext.
  destruct (RoundTrip _ del) as [err|dresp]; [done|].
  by destruct (negb _ && negb _).
Qed.

(** A run of the workflow from the upload step on that sent something:
    the PDF was opened, the first request is its upload, and the outcome is
    read off the answers. *)
Lemma deployFromUpload_sent
  (accessToken fileName versionSafe tempFolderID folderID sopDir : string)
  (h : list Request) (res : Res (option error) Empty_set)
  (req : Request) (rest : list Request) :
  deployFromUpload accessToken fileName versionSafe tempFolderID folderID sopDir h
    = (res, h ++ req :: rest) →
  ∃ f,
    os_Open (filepath_Join sopDir (fileName +:+ ".pdf")) = inr f
    ∧ req = deployUploadRequest accessToken (fileName +:+ ".pdf") versionSafe
              tempFolderID f
    ∧ (res, h ++ req :: rest) =
      match RoundTrip h req with
      | inl err => (Return (Some (fmt_Errorf_w "upload failed: " err)), h ++ [req])
      | inr resp =>
          match json_Unmarshal_id (RespBody resp) with
          | inl _ =>
              (Return (Some (errors_New ("upload failed: " +:+ RespBody resp))),
               h ++ [req])
          | inr newFileID =>
              if (newFileID =? "")%string
              then (Return (Some (errors_New ("upload failed: " +:+ RespBody resp))),
                    h ++ [req])
              else
                let share := sharingRequest accessToken newFileID in
                let move := moveRequest accessToken newFileID folderID tempFolderID in
                match http_NewRequest_err "PATCH" (fileURL newFileID) with
                | Some _ => (Panic, h ++ [req])
                | None =>
                    match http_NewRequest_err "PATCH"
                            (moveURL newFileID folderID tempFolderID) with
                    | Some _ => (Panic, h ++ [req; share])
                    | None =>
                        (match RoundTrip (h ++ [req; share]) move with
                         | inl err =>
                             Return (Some (fmt_Errorf_w
                                             "move to final folder failed: " err))
                         | inr mresp =>
                             if negb (bytes_Contains (RespBody mresp) quoted_id)
                             then Return (Some (errors_New
                                    ("upload succeeded, but move failed: "
                                     +:+ RespBody mresp)))
                             else Return None
                         end, h ++ [req; share; move])
                    end
                end
          end
      end.
Proof.
  intros Hrun. rewrite deployFromUpload_run, uploadNewFile_run in Hrun.
  destruct (os_Open _) as [e|f]; [injection Hrun as _ Hh; by hist|].
  cbn zeta in Hrun. exists f. split; [done|].
  destruct (http_NewRequest_err "POST" uploadURL); [injection Hrun as _ Hh; by hist|].
  assert (∀ (r : Res (option error) Empty_set) (t : list Request),
            (r, h ++ deployUploadRequest accessToken (fileName +:+ ".pdf")
                       versionSafe tempFolderID f :: t) = (res, h ++ req :: rest) →
            req = deployUploadRequest accessToken (fileName +:+ ".pdf") versionSafe
                    tempFolderID f) as Hfirst.
  { intros r t [= _ Hh]. apply app_inv_head in Hh. by injection Hh as <- _. }
  assert (req = deployUploadRequest accessToken (fileName +:+ ".pdf") versionSafe
                  tempFolderID f) as ->; [|split; [done|]].
  { destruct (RoundTrip h _) as [e|resp]; [by eapply Hfirst|].
    destruct (json_Unmarshal_id _) as [e|newFileID]; [by eapply Hfirst|].
    destruct (newFileID =? "")%string; [by eapply Hfirst|].
    rewrite afterUpload_run in Hrun. cbn zeta in Hrun.
    rewrite <- ?app_assoc in Hrun. cbn [app] in Hrun.
    destruct (http_NewRequest_err "PATCH" (fileURL newFileID)); [by eapply Hfirst|].
    destruct (http_NewRequest_err "PATCH" (moveURL _ _ _)); by eapply Hfirst. }
  clear Hfirst. rewrite <- Hrun.
  destruct (RoundTrip h _) as [e|resp]; [done|].
  destruct (json_Unmarshal_id _) as [e|newFileID]; [done|].
  destruct (newFileID =? "")%string; [done|].
  rewrite afterUpload_run. cbn zeta.
  destruct (http_NewRequest_err "PATCH" (fileURL newFileID)); [done|].
  rewrite <- !app_assoc. cbn [app].
  by destruct (http_NewRequest_err "PATCH" (moveURL _ _ _)).
Qed.

(** A run of the workflow from the upload step on that returns nil has
    opened the PDF and sent the upload, the sharing request and the final
    move for the id that the upload answered; the answer to the final move
    holds ["id"]. *)
Lemma deployFromUpload_ok
  (accessToken fileName versionSafe tempFolderID folderID sopDir : string)
  (h h' : list Request) :
  deployFromUpload accessToken fileName versionSafe tempFolderID folderID sopDir h
    = (Return None, h') →
  ∃ f newFileID uresp mresp,
    let up := deployUploadRequest accessToken (fileName +:+ ".pdf") versionSafe
                tempFolderID f in
    let share := sharingRequest accessToken newFileID in
    let move := moveRequest accessToken newFileID folderID tempFolderID in
    os_Open (filepath_Join sopDir (fileName +:+ ".pdf")) = inr f
    ∧ h' = h ++ [up; share; move]
    ∧ RoundTrip h up = inr uresp
    ∧ json_Unmarshal_id (RespBody uresp) = inr newFileID
    ∧ newFileID ≠ ""
    ∧ RoundTrip (h ++ [up; share]) move = inr mresp
    ∧ bytes_Contains (RespBody mresp) quoted_id = true.
Proof.
  intros Hrun. rewrite deployFromUpload_run, uploadNewFile_run in Hrun.
  destruct (os_Open _) as [err|f]; [done|]. cbn zeta in Hrun.
  destruct (http_NewRequest_err "POST" uploadURL); [done|].
  destruct (RoundTrip h _) as [err|uresp] eqn:Hup; [done|].
  destruct (json_Unmarshal_id _) as [err|newFileID] eqn:Hdec; [done|].
  destruct (newFileID =? "")%string eqn:Hid; [done|]. apply String.eqb_neq in Hid.
  rewrite afterUpload_run in Hrun. cbn zeta in Hrun.
  destruct (http_NewRequest_err "PATCH" (fileURL newFileID)); [done|].
  destruct (http_NewRequest_err "PATCH" (moveURL _ _ _)); [done|].
  rewrite <- !app_assoc in Hrun. cbn [app] in Hrun.
  destruct (RoundTrip (h ++ _) _) as [err|mresp] eqn:Hmove; [done|].
  destruct (bytes_Contains _ _) eqn:Hid'; [|done].
  injection Hrun as <-. by exists f, newFileID, uresp, mresp.
Qed.

End Steps.

Section Further.
Context {L : GoLib} {W : World}.

(** ** Local checks *)

(** X1. [DeployPDF] rejects its input before any request is sent: an empty
    file name, access token, temporary folder or final folder gives the
    missing-variables error, whatever the file system holds; with these
    four given, a PDF that [os.Stat] does not find gives the not-found
    error, which names the joined path and drops the error of [os.Stat],
    even when the version label is empty too; and an empty version label is
    reported only once the PDF was found. *)
Theorem DeployPDF_rejects_before_network
  (accessToken fileName versionSafe tempFolderID folderID oldFolderID sopDir : string)
  (h : list Request) :
  (fileName = "" ∨ accessToken = "" ∨ tempFolderID = "" ∨ folderID = "" →
   DeployPDF accessToken fileName versionSafe tempFolderID folderID oldFolderID sopDir h
   = (Return (Some (errors_New
        "missing required variable(s): fileName, accessToken, tempFolderID, folderID")),
      h))
  ∧ (fileName ≠ "" → accessToken ≠ "" → tempFolderID ≠ "" → folderID ≠ "" →
     (∀ err, os_Stat (filepath_Join sopDir (fileName +:+ ".pdf")) = inl err →
        DeployPDF accessToken fileName versionSafe tempFolderID folderID oldFolderID
          sopDir h
        = (Return (Some (errors_New
             ("PDF '" +:+ filepath_Join sopDir (fileName +:+ ".pdf") +:+ "' not found"))),
           h))
     ∧ (∀ finfo, os_Stat (filepath_Join sopDir (fileName +:+ ".pdf")) = inr finfo →
          versionSafe = "" →
          DeployPDF accessToken fileName versionSafe tempFolderID folderID oldFolderID
            sopDir h
          = (Return (Some (errors_New
               "version-safe.txt missing or empty, or VERSION_SUFFIX not set")), h))).
Proof.
  rewrite DeployPDF_steps. split.
  - intros Hmissing.
    assert ((fileName =? "")%string || (accessToken =? "")%string
            || (tempFolderID =? "")%string || (folderID =? "")%string = true) as ->;
      [|done].
    rewrite !orb_true_iff, !String.eqb_eq. tauto.
  - intros Hf Ha Ht Hd. apply String.eqb_neq in Hf, Ha, Ht, Hd.
    rewrite Hf, Ha, Ht, Hd. cbn [orb]. split.
    + by intros err ->.
    + by intros finfo -> ->.
Qed.

(** X2. [CheckRemoteVersionExists] rejects its input before any request is
    sent: an empty access token gives [ACCESS_TOKEN is not set], whatever
    the other arguments are; with a token, an empty file name, folder or
    version label gives the missing-variables error.  The answer is false
    in both cases. *)
Theorem CheckRemoteVersionExists_rejects_before_network
  (accessToken fileName folderID versionSafe : string) (h : list Request) :
  (accessToken = "" →
   CheckRemoteVersionExists accessToken fileName folderID versionSafe h
   = (Return (false, Some (errors_New "ACCESS_TOKEN is not set")), h))
  ∧ (accessToken ≠ "" → fileName = "" ∨ folderID = "" ∨ versionSafe = "" →
     CheckRemoteVersionExists accessToken fileName folderID versionSafe h
     = (Return (false, Some (errors_New
          "missing required variable(s): FileName, FolderID, VersionSafe")), h)).
Proof.
  rewrite CheckRemoteVersionExists_run. split.
  - by intros ->.
  - intros Ha Hmissing. apply String.eqb_neq in Ha. rewrite Ha.
    assert ((fileName =? "")%string || (folderID =? "")%string
            || (versionSafe =? "")%string = true) as ->; [|done].
    rewrite !orb_true_iff, !String.eqb_eq. tauto.
Qed.

(** ** CheckRemoteVersionExists *)

(** X3. Every run of [CheckRemoteVersionExists] returns (it never
    dereferences a nil request), never answers true together with an
    error, and sends nothing or exactly the search request; when it sends
    nothing it returns an error. *)
Theorem CheckRemoteVersionExists_outcomes
  (accessToken fileName folderID versionSafe : string) (h : list Request) :
  ∃ (exists_ : bool) (err : option error) (t : list Request),
    CheckRemoteVersionExists accessToken fileName folderID versionSafe h
    = (Return (exists_, err), h ++ t)
    ∧ (exists_ = true → err = None)
    ∧ (t = [] ∨ t = [searchRequest accessToken (fileName +:+ ".pdf") folderID])
    ∧ (t = [] → err ≠ None).
Proof.
  rewrite CheckRemoteVersionExists_run.
  destruct (accessToken =? "")%string.
  { exists false, (Some (errors_New "ACCESS_TOKEN is not set")), [].
    rewrite app_nil_r. split_and!; [done|done|by left|done]. }
  destruct (_ || _).
  { eexists false, (Some _), []. rewrite app_nil_r.
    split_and!; [done|done|by left|done]. }
  cbn zeta. destruct (http_NewRequest_err _ _) as [err|].
  { exists false, (Some err), []. rewrite app_nil_r.
    split_and!; [done|done|by left|done]. }
  destruct (RoundTrip h _) as [err|resp].
  { eexists false, (Some err), _. split_and!; [done|done|by right|done]. }
  destruct (json_Unmarshal_files _) as [err|Files].
  { eexists false, (Some err), _. split_and!; [done|done|by right|done]. }
  eexists _, None, _. split_and!; [done|done|by right|done].
Qed.

(** X4. [DeployPDF] and [CheckRemoteVersionExists] look for the existing
    file with one and the same request: a GET without body on the search
    URL of the final folder and the escaped name [fileName.pdf], whose only
    header is the bearer token.  The version label plays no part in it. *)
Theorem DeployPDF_search_is_check_request
  (accessToken fileName versionSafe versionSafe' tempFolderID folderID oldFolderID
     sopDir : string)
  (h : list Request) (resD : Res (option error) Empty_set)
  (resC : Res (bool * option error) Empty_set) (req0 req : Request)
  (rest : list Request) :
  DeployPDF accessToken fileName versionSafe tempFolderID folderID oldFolderID sopDir h
    = (resD, h ++ req0 :: rest) →
  CheckRemoteVersionExists accessToken fileName folderID versionSafe' h
    = (resC, h ++ [req]) →
  req0 = req
  ∧ Method req = "GET"
  ∧ URL req = queryURL folderID (url_QueryEscape (fileName +:+ ".pdf"))
  ∧ Body req = None
  ∧ Header req = {["Authorization" := "Bearer " +:+ accessToken]}.
Proof.
  intros HD HC. apply DeployPDF_searched in HD as [-> _].
  rewrite CheckRemoteVersionExists_run in HC.
  assert (req = searchRequest accessToken (fileName +:+ ".pdf") folderID) as ->.
  { cbn zeta in HC. repeat (case_match; simplify_eq); by hist. }
  by split_and!.
Qed.

(** X5. An error of the search of [DeployPDF], be it of the transport or of
    the decoding of the response body, ends the workflow at once: the error
    is returned as it is, without a prefix, and no further request is
    sent. *)
Theorem DeployPDF_search_failure
  (accessToken fileName versionSafe tempFolderID folderID oldFolderID sopDir : string)
  (h : list Request) (res : Res (option error) Empty_set)
  (req0 : Request) (rest : list Request) (err : error) :
  DeployPDF accessToken fileName versionSafe tempFolderID folderID oldFolderID sopDir h
    = (res, h ++ req0 :: rest) →
  RoundTrip h req0 = inl err
  ∨ (∃ resp, RoundTrip h req0 = inr resp
             ∧ json_Unmarshal_files (RespBody resp) = inl err) →
  res = Return (Some err) ∧ rest = [].
Proof.
  intros Hrun Hfail. apply DeployPDF_searched in Hrun as [-> Hrun].
  cbn zeta in Hrun.
  destruct Hfail as [Hrt|(resp & Hrt & Hdec)]; rewrite Hrt, ?Hdec in Hrun;
    injection Hrun as -> Hh; by hist.
Qed.

(** X6. When the search request cannot be built (the URL does not parse,
    as with a control character in the folder id), the two functions part
    ways: [CheckRemoteVersionExists] returns false with the error of
    [http.NewRequest], while [DeployPDF], which discards that error, sets a
    header on a nil request and panics.  Neither sends anything. *)
Theorem search_request_unbuildable
  (accessToken fileName versionSafe tempFolderID folderID oldFolderID sopDir : string)
  (h : list Request) (finfo : FileInfo) (err : error) :
  accessToken ≠ "" → fileName ≠ "" → folderID ≠ "" → versionSafe ≠ "" →
  tempFolderID ≠ "" →
  os_Stat (filepath_Join sopDir (fileName +:+ ".pdf")) = inr finfo →
  http_NewRequest_err "GET" (queryURL folderID (url_QueryEscape (fileName +:+ ".pdf")))
    = Some err →
  CheckRemoteVersionExists accessToken fileName folderID versionSafe h
    = (Return (false, Some err), h)
  ∧ DeployPDF accessToken fileName versionSafe tempFolderID folderID oldFolderID sopDir h
    = (Panic, h).
Proof.
  intros Ha Hf Hd Hv Ht Hstat Hnew.
  apply String.eqb_neq in Ha, Hf, Hd, Hv, Ht.
  rewrite CheckRemoteVersionExists_run, DeployPDF_steps, queryExisting_run.
  by rewrite Ha, Hf, Hd, Hv, Ht, Hstat, Hnew.
Qed.

(** ** DeployPDF without archive folder *)

(** X7. Without archive folder, a run of [DeployPDF] whose search listed a
    file (and that went on) deletes that file with its second request.  A
    transport error of the delete ends the workflow with the wrapped error;
    so does an answer whose status is neither 204 nor 200, with an error
    that holds the status in decimal and the raw body; an answer with
    status 204 or 200 lets the workflow go on with the upload step.  The
    delete is the one request of [DeployPDF] whose status code is read. *)
Theorem DeployPDF_delete_old_version
  (accessToken fileName versionSafe tempFolderID folderID sopDir : string)
  (h : list Request) (res : Res (option error) Empty_set)
  (req0 req1 : Request) (rest : list Request) (resp : Response)
  (Files : list DriveFile) :
  DeployPDF accessToken fileName versionSafe tempFolderID folderID "" sopDir h
    = (res, h ++ req0 :: req1 :: rest) →
  RoundTrip h req0 = inr resp →
  json_Unmarshal_files (RespBody resp) = inr Files →
  (firstFile Files).1 ≠ "" →
  req1 = deleteRequest accessToken (firstFile Files).1
  ∧ (∀ err, RoundTrip (h ++ [req0]) req1 = inl err →
       res = Return (Some (fmt_Errorf_w "failed to delete existing file: " err))
       ∧ rest = [])
  ∧ (∀ dresp, RoundTrip (h ++ [req0]) req1 = inr dresp →
       StatusCode dresp ≠ 204%Z → StatusCode dresp ≠ 200%Z →
       res = Return (Some (errors_New
               ("failed to delete existing file: status " +:+ fmt_d (StatusCode dresp)
                +:+ ": " +:+ RespBody dresp)))
       ∧ rest = [])
  ∧ (∀ dresp, RoundTrip (h ++ [req0]) req1 = inr dresp →
       StatusCode dresp = 204%Z ∨ StatusCode dresp = 200%Z →
       (res, h ++ req0 :: req1 :: rest)
       = deployFromUpload accessToken fileName versionSafe tempFolderID folderID sopDir
           (h ++ [req0; req1])).
Proof.
  intros Hrun Hresp Hdec Hid.
  destruct (DeployPDF_delete_step _ _ _ _ _ _ _ _ _ _ _ _ _ Hrun Hresp Hdec Hid)
    as [-> Hnext].
  split; [done|]. split_and!.
  - intros err Hrt. rewrite Hrt in Hnext. injection Hnext as -> Hh. by hist.
  - intros dresp Hrt H204 H200. rewrite Hrt in Hnext.
    apply Z.eqb_neq in H204, H200. rewrite H204, H200 in Hnext.
    injection Hnext as -> Hh. by hist.
  - intros dresp Hrt Hstatus. rewrite Hrt in Hnext.
    assert (negb (StatusCode dresp =? 204)%Z && negb (StatusCode dresp =? 200)%Z
            = false) as Hok by (destruct Hstatus as [-> | ->]; done).
    by rewrite Hok in Hnext.
Qed.

(** X8. [DeployPDF] opens the PDF only after the old version is gone: when
    the delete was answered with status 204 or 200 and [os.Open] then fails
    (the earlier [os.Stat] notwithstanding), the workflow returns the error
    of [os.Open] as it is, after the search and the delete and nothing
    else.  The old file is deleted and no new one is uploaded. *)
Theorem DeployPDF_deletes_before_opening
  (accessToken fileName versionSafe tempFolderID folderID sopDir : string)
  (h : list Request) (res : Res (option error) Empty_set)
  (req0 req1 : Request) (rest : list Request) (resp dresp : Response)
  (Files : list DriveFile) (err : error) :
  DeployPDF accessToken fileName versionSafe tempFolderID folderID "" sopDir h
    = (res, h ++ req0 :: req1 :: rest) →
  RoundTrip h req0 = inr resp →
  json_Unmarshal_files (RespBody resp) = inr Files →
  (firstFile Files).1 ≠ "" →
  RoundTrip (h ++ [req0]) req1 = inr dresp →
  StatusCode dresp = 204%Z ∨ StatusCode dresp = 200%Z →
  os_Open (filepath_Join sopDir (fileName +:+ ".pdf")) = inl err →
  Method req1 = "DELETE"
  ∧ URL req1 = fileURL (firstFile Files).1
  ∧ res = Return (Some err)
  ∧ rest = [].
Proof.
  intros Hrun Hresp Hdec Hid Hrt Hstatus Hopen.
  destruct (DeployPDF_delete_step _ _ _ _ _ _ _ _ _ _ _ _ _ Hrun Hresp Hdec Hid)
    as [-> Hnext].
  split; [done|]. split; [done|]. rewrite Hrt in Hnext.
  assert (negb (StatusCode dresp =? 204)%Z && negb (StatusCode dresp =? 200)%Z
          = false) as Hok by (destruct Hstatus as [-> | ->]; done).
  rewrite Hok, deployFromUpload_run, uploadNewFile_run, Hopen in Hnext.
  injection Hnext as -> Hh. by hist.
Qed.

(** ** Whole runs of DeployPDF *)

(** X9. Whatever a run of [DeployPDF] does, every request it sends carries
    the bearer token in its [Authorization] header and goes to a URL under
    [https://www.googleapis.com/]. *)
Theorem DeployPDF_requests_authorized
  (accessToken fileName versionSafe tempFolderID folderID oldFolderID sopDir : string)
  (h : list Request) :
  ∃ t,
    (DeployPDF accessToken fileName versionSafe tempFolderID folderID oldFolderID
       sopDir h).2 = h ++ t
    ∧ Forall (λ req, Header req !! "Authorization" = Some ("Bearer " +:+ accessToken)
                     ∧ String.prefix "https://www.googleapis.com/" (URL req) = true) t.
Proof.
  destruct (DeployPDF _ _ _ _ _ _ _ h) as [res h'] eqn:Hrun.
  eapply DeployPDF_trace in Hrun as (t & -> & Hall & _); [by exists t|..].
  all: intros; repeat split.
  all: first [ apply Header_Set_lookup
             | unfold renameRequest, sharingRequest, deployUploadRequest;
               cbn zeta; unfold Header_Set at 1; cbn [Header];
               rewrite lookup_insert_ne by done; apply Header_Set_lookup
             | apply prefix_iff; eexists; reflexivity ].
Qed.

(** X10. A run of [DeployPDF] sends at most six requests, at most five
    when no archive folder is given; and with an archive folder it never
    sends a DELETE: the old version is renamed and moved, not removed. *)
Theorem DeployPDF_request_bound
  (accessToken fileName versionSafe tempFolderID folderID oldFolderID sopDir : string)
  (h : list Request) :
  ∃ t,
    (DeployPDF accessToken fileName versionSafe tempFolderID folderID oldFolderID
       sopDir h).2 = h ++ t
    ∧ length t ≤ 6
    ∧ (oldFolderID = "" → length t ≤ 5)
    ∧ (oldFolderID ≠ "" → Forall (λ req, Method req ≠ "DELETE") t).
Proof.
  destruct (DeployPDF _ _ _ _ _ _ _ h) as [res h'] eqn:Hrun.
  apply (DeployPDF_trace (λ req, oldFolderID ≠ "" → Method req ≠ "DELETE"))
    in Hrun as (t & -> & Hall & Hlen); [|done..].
  exists t. split; [done|]. split_and!.
  - destruct (oldFolderID =? "")%string; lia.
  - intros ->. done.
  - intros Hold. eapply Forall_impl; [exact Hall|]. intros req Hreq. by apply Hreq.
Qed.

(** X11. A run of [DeployPDF] that returns nil after a search that listed a
    file with an id and another description than the version label has
    sent, in this order: the search; the delete of the listed file, or,
    with an archive folder, its rename and its move into the archive; the
    upload of the PDF that [os.Open] gave; the sharing request and the
    move into the final folder, both for one and the same new file id. *)
Theorem DeployPDF_replace_requests
  (accessToken fileName versionSafe tempFolderID folderID oldFolderID sopDir : string)
  (h : list Request) (req0 : Request) (rest : list Request) (resp : Response)
  (Files : list DriveFile) (existingFileID existingFileDesc : string) :
  DeployPDF accessToken fileName versionSafe tempFolderID folderID oldFolderID sopDir h
    = (Return None, h ++ req0 :: rest) →
  RoundTrip h req0 = inr resp →
  json_Unmarshal_files (RespBody resp) = inr Files →
  firstFile Files = (existingFileID, existingFileDesc) →
  existingFileID ≠ "" →
  existingFileDesc ≠ versionSafe →
  ∃ f newFileID,
    os_Open (filepath_Join sopDir (fileName +:+ ".pdf")) = inr f
    ∧ newFileID ≠ ""
    ∧ req0 :: rest =
      searchRequest accessToken (fileName +:+ ".pdf") folderID
      :: (if (oldFolderID =? "")%string
          then [deleteRequest accessToken existingFileID]
          else [renameRequest accessToken fileName existingFileID existingFileDesc;
                moveRequest accessToken existingFileID oldFolderID folderID])
      ++ [deployUploadRequest accessToken (fileName +:+ ".pdf") versionSafe
            tempFolderID f;
          sharingRequest accessToken newFileID;
          moveRequest accessToken newFileID folderID tempFolderID].
Proof.
  intros Hrun Hresp Hdec Hfirst Hid Hdesc.
  destruct (DeployPDF_searched _ _ _ _ _ _ _ _ _ _ _ Hrun) as [-> Hnext].
  cbn zeta in Hnext. rewrite Hresp, Hdec, Hfirst in Hnext. cbn [fst snd] in Hnext.
  apply String.eqb_neq in Hdesc. rewrite Hdesc, andb_false_r in Hnext.
  destruct (archiveOldVersion _ _ _ _ _ _ _) as [[[]|r|] h2] eqn:Ha.
  - apply archiveOldVersion_next in Ha as ->; [|done].
    symmetry in Hnext.
    apply deployFromUpload_ok in Hnext as (f & id & _ & _ & Hopen & Hh & _ & _ & Hne & _).
    exists f, id. split; [done|]. split; [done|].
    rewrite <- !app_assoc in Hh. by apply app_inv_head in Hh.
  - apply archiveOldVersion_inv in Ha as (t & -> & Hr & _). by simplify_eq.
  - done.
Qed.

(** X12. When the id that the upload of [DeployPDF] returned, or the
    temporary or final folder id, makes a later URL unparsable, the
    workflow panics on a nil request after the file was uploaded: before
    the sharing request when its URL cannot be parsed, and after it when
    only the URL of the final move cannot.  Nothing is returned, and the
    uploaded file stays in the temporary folder. *)
Theorem DeployPDF_panics_after_upload
  (accessToken fileName versionSafe tempFolderID folderID sopDir : string)
  (h : list Request) (res : Res (option error) Empty_set)
  (req : Request) (rest : list Request) (resp : Response) (newFileID : string) :
  deployFromUpload accessToken fileName versionSafe tempFolderID folderID sopDir h
    = (res, h ++ req :: rest) →
  RoundTrip h req = inr resp →
  json_Unmarshal_id (RespBody resp) = inr newFileID →
  newFileID ≠ "" →
  (http_NewRequest_err "PATCH" (fileURL newFileID) ≠ None →
   res = Panic ∧ rest = [])
  ∧ (http_NewRequest_err "PATCH" (fileURL newFileID) = None →
     http_NewRequest_err "PATCH" (moveURL newFileID folderID tempFolderID) ≠ None →
     res = Panic ∧ rest = [sharingRequest accessToken newFileID]).
Proof.
  intros Hrun Hresp Hdec Hid. apply String.eqb_neq in Hid.
  apply deployFromUpload_sent in Hrun as (f & _ & -> & Hrun).
  rewrite Hresp, Hdec, Hid in Hrun. cbn zeta in Hrun. split.
  - intros Hnew. destruct (http_NewRequest_err "PATCH" (fileURL newFileID)); [|done].
    injection Hrun as -> Hh. by hist.
  - intros Hnew1 Hnew2. rewrite Hnew1 in Hrun.
    destruct (http_NewRequest_err "PATCH" (moveURL _ _ _)); [|done].
    injection Hrun as -> Hh. by hist.
Qed.

(** X13. The name under which the old version is archived tells two old
    descriptions apart exactly when they differ once the empty description
    and the description [null] are both read as [unknown]: these three
    give the same name, and no other two descriptions do. *)
Theorem renamedFile_eq_iff (fileName desc1 desc2 : string) :
  renamedFile fileName desc1 = renamedFile fileName desc2
  ↔ (if (desc1 =? "")%string || (desc1 =? "null")%string then "unknown" else desc1)
    = (if (desc2 =? "")%string || (desc2 =? "null")%string then "unknown" else desc2).
Proof.
  assert (∀ d, renamedFile fileName d
               = (fileName +:+ "-")
                 +:+ (if (d =? "")%string || (d =? "null")%string then "unknown" else d)
                 +:+ ".pdf") as Hname.
  { intros d. unfold renamedFile. destruct (_ || _); by rewrite !append_assoc. }
  rewrite !Hname. split; [|by intros ->].
  intros Heq. apply append_inj_l in Heq. by apply append_inj_r in Heq.
Qed.

(** ** UploadFileToDrive *)

(** X14. Every run of [UploadFileToDrive] returns; the error is nil exactly
    when the returned id is not empty; at most one request is sent, a POST
    to the upload URL that carries the bearer token; and when nothing is
    sent an error is returned. *)
Theorem UploadFileToDrive_outcomes (accessToken folderID filePath : string)
  (h : list Request) :
  ∃ (id : string) (err : option error) (t : list Request),
    UploadFileToDrive accessToken folderID filePath h = (Return (id, err), h ++ t)
    ∧ (err = None ↔ id ≠ "")
    ∧ length t ≤ 1
    ∧ Forall (λ req, Method req = "POST" ∧ URL req = uploadURL
                     ∧ Header req !! "Authorization"
                       = Some ("Bearer " +:+ accessToken)) t
    ∧ (t = [] → err ≠ None).
Proof.
  rewrite UploadFileToDrive_run.
  assert (∀ e : error,
            ∃ (id : string) (err : option error) (t : list Request),
              (Return ("", Some e) : Res (string * option error) Empty_set, h)
              = (Return (id, err), h ++ t)
              ∧ (err = None ↔ id ≠ "") ∧ length t ≤ 1
              ∧ Forall (λ req, Method req = "POST" ∧ URL req = uploadURL
                               ∧ Header req !! "Authorization"
                                 = Some ("Bearer " +:+ accessToken)) t
              ∧ (t = [] → err ≠ None)) as Hlocal.
  { intros e. exists "", (Some e), []. rewrite app_nil_r.
    split_and!; [done|done|simpl; lia|constructor|done]. }
  destruct (accessToken =? "")%string; [apply Hlocal|].
  destruct (folderID =? "")%string; [apply Hlocal|].
  destruct (filePath =? "")%string; [apply Hlocal|].
  destruct (os_Stat _) as [e|finfo]; [apply Hlocal|].
  destruct (IsDir finfo); [apply Hlocal|].
  destruct (json_Marshal _) as [e|metaJSON]; [apply Hlocal|].
  destruct (os_Open _) as [e|f]; [apply Hlocal|].
  destruct (read_err f); [apply Hlocal|].
  destruct (http_NewRequest_err _ _); [apply Hlocal|]. clear Hlocal. cbn zeta.
  assert (Forall (λ req, Method req = "POST" ∧ URL req = uploadURL
                         ∧ Header req !! "Authorization"
                           = Some ("Bearer " +:+ accessToken))
            [uploadFileRequest accessToken filePath metaJSON f]) as Hreq.
  { by repeat constructor. }
  assert (∀ e : error,
            ∃ (id : string) (err : option error) (t : list Request),
              (Return ("", Some e) : Res (string * option error) Empty_set,
               h ++ [uploadFileRequest accessToken filePath metaJSON f])
              = (Return (id, err), h ++ t)
              ∧ (err = None ↔ id ≠ "") ∧ length t ≤ 1
              ∧ Forall (λ req, Method req = "POST" ∧ URL req = uploadURL
                               ∧ Header req !! "Authorization"
                                 = Some ("Bearer " +:+ accessToken)) t
              ∧ (t = [] → err ≠ None)) as Hsent.
  { intros e. eexists "", (Some e), _.
    split_and!; [done|done|simpl; lia|exact Hreq|done]. }
  destruct (RoundTrip h _) as [e|resp]; [apply Hsent|].
  destruct (_ || _); [apply Hsent|].
  destruct (json_Unmarshal_id _) as [e|id]; [apply Hsent|].
  destruct (id =? "")%string eqn:Hid; [apply Hsent|]. apply String.eqb_neq in Hid.
  eexists id, None, _. split_and!; [done|done|simpl; lia|exact Hreq|done].
Qed.

(** X15. When [UploadFileToDrive] sends its request, every local step has
    succeeded: the three arguments are given, the path is a file that
    [os.Stat] finds and [os.Open] opens, the file was read to its end, and
    the metadata, which is the base name of the path and the folder as
    only parent, was marshalled.  The request is then determined by the
    access token, the path, the metadata and the bytes of the file. *)
Theorem UploadFileToDrive_request
  (accessToken folderID filePath : string) (h : list Request)
  (res : Res (string * option error) Empty_set) (req : Request) :
  UploadFileToDrive accessToken folderID filePath h = (res, h ++ [req]) →
  accessToken ≠ "" ∧ folderID ≠ "" ∧ filePath ≠ ""
  ∧ ∃ finfo metaJSON f,
      os_Stat filePath = inr finfo ∧ IsDir finfo = false
      ∧ json_Marshal (<["name" := MString (filepath_Base filePath)]>
                        (<["parents" := MStrings [folderID]]> ∅)) = inr metaJSON
      ∧ os_Open filePath = inr f ∧ read_err f = None
      ∧ req = uploadFileRequest accessToken filePath metaJSON f.
Proof.
  intros Hrun. rewrite UploadFileToDrive_run in Hrun. unfold uploadMeta in Hrun.
  destruct (accessToken =? "")%string eqn:Ha; [injection Hrun as _ Hh; by hist|].
  destruct (folderID =? "")%string eqn:Hf; [injection Hrun as _ Hh; by hist|].
  destruct (filePath =? "")%string eqn:Hp; [injection Hrun as _ Hh; by hist|].
  apply String.eqb_neq in Ha, Hf, Hp. split_and!; [done..|].
  destruct (os_Stat _) as [e|finfo]; [injection Hrun as _ Hh; by hist|].
  destruct (IsDir finfo) eqn:Hdir; [injection Hrun as _ Hh; by hist|].
  destruct (json_Marshal _) as [e|metaJSON]; [injection Hrun as _ Hh; by hist|].
  destruct (os_Open _) as [e|f]; [injection Hrun as _ Hh; by hist|].
  destruct (read_err f) eqn:Hread; [injection Hrun as _ Hh; by hist|].
  destruct (http_NewRequest_err _ _); [injection Hrun as _ Hh; by hist|].
  exists finfo, metaJSON, f. split_and!; [done..|].
  cbn zeta in Hrun. injection Hrun as _ Hh. by hist.
Qed.

(** X16. Once the request of [UploadFileToDrive] was sent: a transport
    error is returned wrapped as [upload request failed]; a response with
    a status from 200 to 299 whose body does not decode gives the decoding
    error wrapped as [decode upload response]; one that decodes to an empty
    id gives an error that holds the raw body; and one that decodes to a
    non-empty id gives exactly that id and no error. *)
Theorem UploadFileToDrive_answers
  (accessToken folderID filePath : string) (h : list Request)
  (res : Res (string * option error) Empty_set) (req : Request) :
  UploadFileToDrive accessToken folderID filePath h = (res, h ++ [req]) →
  (∀ err, RoundTrip h req = inl err →
     res = Return ("", Some (fmt_Errorf_w "upload request failed: " err)))
  ∧ (∀ resp, RoundTrip h req = inr resp →
       (200 ≤ StatusCode resp < 300)%Z →
       (∀ err, json_Unmarshal_id (RespBody resp) = inl err →
          res = Return ("", Some (fmt_Errorf_w "decode upload response: " err)))
       ∧ (json_Unmarshal_id (RespBody resp) = inr "" →
          res = Return ("", Some (errors_New
                  ("upload succeeded but returned empty id: " +:+ RespBody resp))))
       ∧ (∀ id, json_Unmarshal_id (RespBody resp) = inr id → id ≠ "" →
          res = Return (id, None))).
Proof.
  intros Hrun. rewrite UploadFileToDrive_run in Hrun.
  destruct (accessToken =? "")%string; [injection Hrun as _ Hh; by hist|].
  destruct (folderID =? "")%string; [injection Hrun as _ Hh; by hist|].
  destruct (filePath =? "")%string; [injection Hrun as _ Hh; by hist|].
  destruct (os_Stat _) as [e|finfo]; [injection Hrun as _ Hh; by hist|].
  destruct (IsDir finfo); [injection Hrun as _ Hh; by hist|].
  destruct (json_Marshal _) as [e|metaJSON]; [injection Hrun as _ Hh; by hist|].
  destruct (os_Open _) as [e|f]; [injection Hrun as _ Hh; by hist|].
  destruct (read_err f); [injection Hrun as _ Hh; by hist|].
  destruct (http_NewRequest_err _ _); [injection Hrun as _ Hh; by hist|].
  cbn zeta in Hrun. injection Hrun as <- Hh. apply history_one in Hh. subst req.
  split.
  - by intros err ->.
  - intros resp -> Hstatus.
    assert ((StatusCode resp <? 200)%Z || (StatusCode resp >=? 300)%Z = false) as ->.
    { rewrite Z.geb_leb. apply orb_false_iff.
      split; [apply Z.ltb_ge | apply Z.leb_gt]; lia. }
    split_and!.
    + by intros err ->.
    + by intros ->.
    + intros id -> Hid. apply String.eqb_neq in Hid. by rewrite Hid.
Qed.

(** X17. With its three arguments given, [UploadFileToDrive] reports a
    failure of a local step with the cause wrapped behind the name of the
    step, and sends nothing: [stat file] for [os.Stat], [open file] for
    [os.Open], [copy file part] for a failed read of the opened file, and
    [new request] when the request cannot be built. *)
Theorem UploadFileToDrive_local_failures
  (accessToken folderID filePath : string) (h : list Request) (err : error) :
  accessToken ≠ "" → folderID ≠ "" → filePath ≠ "" →
  (os_Stat filePath = inl err →
   UploadFileToDrive accessToken folderID filePath h
   = (Return ("", Some (fmt_Errorf_w "stat file: " err)), h))
  ∧ (∀ finfo metaJSON,
       os_Stat filePath = inr finfo → IsDir finfo = false →
       json_Marshal (uploadMeta folderID filePath) = inr metaJSON →
       (os_Open filePath = inl err →
        UploadFileToDrive accessToken folderID filePath h
        = (Return ("", Some (fmt_Errorf_w "open file: " err)), h))
       ∧ (∀ f, os_Open filePath = inr f →
            (read_err f = Some err →
             UploadFileToDrive accessToken folderID filePath h
             = (Return ("", Some (fmt_Errorf_w "copy file part: " err)), h))
            ∧ (read_err f = None →
               http_NewRequest_err "POST" uploadURL = Some err →
               UploadFileToDrive accessToken folderID filePath h
               = (Return ("", Some (fmt_Errorf_w "new request: " err)), h)))).
Proof.
  intros Ha Hf Hp. apply String.eqb_neq in Ha, Hf, Hp.
  rewrite UploadFileToDrive_run, Ha, Hf, Hp. split.
  - by intros ->.
  - intros finfo metaJSON -> -> ->. split.
    + by intros ->.
    + intros f ->. split.
      * by intros ->.
      * by intros -> ->.
Qed.

(** ** GetGoogleAccessToken *)

(** X18. Every run of [GetGoogleAccessToken] returns; the error is nil
    exactly when the returned token is not empty; and the credentials are
    not checked locally: whatever they are, empty ones included, the token
    request is sent, and it is the only request, unless it cannot be
    built.  The request is a POST to the token URL whose only header is the
    JSON content type. *)
Theorem GetGoogleAccessToken_outcomes (clientID clientSecret refreshToken : string)
  (h : list Request) :
  ∃ (token : string) (err : option error) (t : list Request),
    GetGoogleAccessToken clientID clientSecret refreshToken h
    = (Return (token, err), h ++ t)
    ∧ (err = None ↔ token ≠ "")
    ∧ (http_NewRequest_err "POST" tokenURL = None →
       ∃ req, t = [req] ∧ Method req = "POST" ∧ URL req = tokenURL
              ∧ Header req = {["Content-Type" := "application/json"]}
              ∧ Body req = Some (ignore_err (json_Marshal
                  (<["client_id" := MString clientID]>
                   (<["client_secret" := MString clientSecret]>
                   (<["refresh_token" := MString refreshToken]>
                   (<["grant_type" := MString "refresh_token"]> ∅)))))))
    ∧ (http_NewRequest_err "POST" tokenURL ≠ None → t = []).
Proof.
  rewrite GetGoogleAccessToken_run.
  destruct (http_NewRequest_err _ _) as [e|].
  { exists "", (Some e), []. rewrite app_nil_r. by split_and!. }
  cbn zeta.
  assert (∀ tok err,
            (err = None ↔ tok ≠ "") →
            ∃ (token : string) (err' : option error) (t : list Request),
              (Return (tok, err) : Res (string * option error) Empty_set,
               h ++ [tokenRequest clientID clientSecret refreshToken])
              = (Return (token, err'), h ++ t)
              ∧ (err' = None ↔ token ≠ "")
              ∧ (@None error = None →
                 ∃ req, t = [req] ∧ Method req = "POST" ∧ URL req = tokenURL
                        ∧ Header req = {["Content-Type" := "application/json"]}
                        ∧ Body req = Some (ignore_err (json_Marshal
                            (<["client_id" := MString clientID]>
                             (<["client_secret" := MString clientSecret]>
                             (<["refresh_token" := MString refreshToken]>
                             (<["grant_type" := MString "refresh_token"]> ∅)))))))
              ∧ (@None error ≠ None → t = [])) as Hsent.
  { intros tok err Hiff. eexists tok, err, _. split_and!; [done|done| |done].
    intros _. eexists. by split_and!. }
  destruct (RoundTrip h _) as [e|resp]; [by apply Hsent|].
  destruct (json_Decode_token _) as [e|tokenResp]; [by apply Hsent|].
  destruct (AccessToken tokenResp =? "")%string eqn:Htok; [by apply Hsent|].
  apply String.eqb_neq in Htok. by apply Hsent.
Qed.

(** X19. Once the request of [GetGoogleAccessToken] was sent: a transport
    error is returned as it is; and a body that does not decode gives the
    decoding error wrapped as [failed to decode token response], whatever
    the status code. *)
Theorem GetGoogleAccessToken_failures (clientID clientSecret refreshToken : string)
  (h : list Request) (res : Res (string * option error) Empty_set) (req : Request) :
  GetGoogleAccessToken clientID clientSecret refreshToken h = (res, h ++ [req]) →
  (∀ err, RoundTrip h req = inl err → res = Return ("", Some err))
  ∧ (∀ resp err, RoundTrip h req = inr resp →
       json_Decode_token (RespBody resp) = inl err →
       res = Return ("", Some (fmt_Errorf_w "failed to decode token response: " err))).
Proof.
  intros Hrun. rewrite GetGoogleAccessToken_run in Hrun.
  destruct (http_NewRequest_err _ _); [injection Hrun as _ Hh; by hist|].
  cbn zeta in Hrun. injection Hrun as <- Hh. apply history_one in Hh. subst req.
  split.
  - by intros err ->.
  - by intros resp err -> ->.
Qed.

(** ** What the results of DeployPDF mean *)

(** X20. In the workflow of [DeployPDF] from the upload step on, a
    transport error of the upload ends the workflow with the error wrapped
    as [upload failed], nothing further being sent; and a transport error
    of the final move, the third request, is returned wrapped as
    [move to final folder failed]. *)
Theorem DeployPDF_transport_failures
  (accessToken fileName versionSafe tempFolderID folderID sopDir : string)
  (h : list Request) (res : Res (option error) Empty_set)
  (req : Request) (rest : list Request) (err : error) :
  deployFromUpload accessToken fileName versionSafe tempFolderID folderID sopDir h
    = (res, h ++ req :: rest) →
  (RoundTrip h req = inl err →
   res = Return (Some (fmt_Errorf_w "upload failed: " err)) ∧ rest = [])
  ∧ (∀ share move, rest = [share; move] →
       RoundTrip (h ++ [req; share]) move = inl err →
       res = Return (Some (fmt_Errorf_w "move to final folder failed: " err))).
Proof.
  intros Hrun. apply deployFromUpload_sent in Hrun as (f & _ & -> & Hrun). split.
  - intros Hup. rewrite Hup in Hrun. injection Hrun as -> Hh. by hist.
  - intros share move -> Hmove.
    destruct (RoundTrip h _) as [e|resp]; [injection Hrun as _ Hh; by hist|].
    destruct (json_Unmarshal_id _) as [e|newFileID]; [injection Hrun as _ Hh; by hist|].
    destruct (newFileID =? "")%string; [injection Hrun as _ Hh; by hist|].
    cbn zeta in Hrun.
    destruct (http_NewRequest_err "PATCH" (fileURL newFileID));
      [injection Hrun as _ Hh; by hist|].
    destruct (http_NewRequest_err "PATCH" (moveURL _ _ _));
      [injection Hrun as _ Hh; by hist|].
    injection Hrun as -> Hh. apply app_inv_head in Hh. injection Hh as <- <-.
    by rewrite Hmove.
Qed.

(** X21. [DeployPDF] returns nil in two ways only.  Either the search was
    answered by a list whose first entry has an id and the version label
    as description, and nothing else was sent; or the run ends with the
    upload of the opened PDF, answered with a non-empty id, the sharing
    request and the final move for that id, and the answer to the final
    move holds ["id"]. *)
Theorem DeployPDF_nil_means
  (accessToken fileName versionSafe tempFolderID folderID oldFolderID sopDir : string)
  (h h' : list Request) :
  DeployPDF accessToken fileName versionSafe tempFolderID folderID oldFolderID sopDir h
    = (Return None, h') →
  let sr := searchRequest accessToken (fileName +:+ ".pdf") folderID in
  (h' = h ++ [sr]
   ∧ ∃ resp Files,
       RoundTrip h sr = inr resp
       ∧ json_Unmarshal_files (RespBody resp) = inr Files
       ∧ (firstFile Files).1 ≠ ""
       ∧ (firstFile Files).2 = versionSafe)
  ∨ (∃ pre f newFileID uresp mresp,
       let up := deployUploadRequest accessToken (fileName +:+ ".pdf") versionSafe
                   tempFolderID f in
       let share := sharingRequest accessToken newFileID in
       let move := moveRequest accessToken newFileID folderID tempFolderID in
       h' = pre ++ [up; share; move]
       ∧ os_Open (filepath_Join sopDir (fileName +:+ ".pdf")) = inr f
       ∧ RoundTrip pre up = inr uresp
       ∧ json_Unmarshal_id (RespBody uresp) = inr newFileID
       ∧ newFileID ≠ ""
       ∧ RoundTrip (pre ++ [up; share]) move = inr mresp
       ∧ ∃ before after, RespBody mresp = before +:+ quoted_id +:+ after).
Proof.
  intros Hrun sr. rewrite DeployPDF_steps, queryExisting_run in Hrun. fold sr in Hrun.
  destruct (_ || _); [done|].
  destruct (os_Stat _) as [e|finfo]; [done|].
  destruct (versionSafe =? "")%string; [done|].
  destruct (http_NewRequest_err _ _); [done|].
  destruct (RoundTrip h sr) as [err|resp] eqn:Hresp; [done|].
  destruct (json_Unmarshal_files _) as [err|Files] eqn:Hdec; [done|].
  destruct (firstFile Files) as [id desc] eqn:Hfirst.
  destruct (negb _ && (_ =? versionSafe)%string) eqn:Hskip.
  - left. injection Hrun as <-. split; [done|]. exists resp, Files.
    apply andb_true_iff in Hskip as [Hid Hdesc].
    apply negb_true_iff, String.eqb_neq in Hid. apply String.eqb_eq in Hdesc.
    by rewrite Hfirst.
  - right.
    destruct (archiveOldVersion _ _ _ _ _ _ _) as [[[]|ret|] h2] eqn:Ha; [| |done].
    + apply deployFromUpload_ok in Hrun
        as (f & newFileID & uresp & mresp & Hopen & -> & Hup & Hid & Hne & Hmove & Hok).
      exists h2, f, newFileID, uresp, mresp. split_and!; try done.
      by apply bytes_Contains_iff.
    + apply archiveOldVersion_inv in Ha as (t & _ & Hret & _). by simplify_eq.
Qed.

End Further.

(** ** What the result of a run does not depend on *)

Section Worlds.
Context {L : GoLib} (W1 W2 : World).

Lemma renameBody_is_not_permBody (name : string) : renameBody name ≠ permBody.
Proof.
  intros Heq. apply (f_equal (String.substring 2 1)) in Heq. cbv in Heq. discriminate.
Qed.

(** Compare what the two worlds answer to the request at hand. *)
Ltac answers Hrt :=
  match goal with
  | |- context [@RoundTrip W1 ?h ?req] =>
      let Hsame := fresh "Hsame" in
      assert (same_body (@RoundTrip W1 h req) (@RoundTrip W2 h req)) as Hsame
        by (apply Hrt;
            [discriminate
            |intros [Hm Hb];
             first [ discriminate Hm | discriminate Hb
                   | apply (inj Some) in Hb;
                     by apply renameBody_is_not_permBody in Hb ]]);
      destruct (@RoundTrip W1 h req), (@RoundTrip W2 h req);
      simpl in Hsame; [subst|done|done|try rewrite Hsame; clear Hsame]
  end.

Lemma archiveOldVersion_agree
  (accessToken fileName folderID oldFolderID existingFileID existingFileDesc : string)
  (h : list Request) :
  (∀ h req, Method req = "DELETE" →
            RoundTrip (World := W1) h req = RoundTrip (World := W2) h req) →
  (∀ h req, Method req ≠ "DELETE" → ¬ isSharingRequest req →
            same_body (RoundTrip (World := W1) h req) (RoundTrip (World := W2) h req)) →
  archiveOldVersion (W := W1) accessToken fileName folderID oldFolderID existingFileID
    existingFileDesc h
  = archiveOldVersion (W := W2) accessToken fileName folderID oldFolderID existingFileID
      existingFileDesc h.
Proof.
  intros Hdel Hrt. unfold archiveOldVersion.
  destruct (negb (existingFileID =? "")%string && negb (oldFolderID =? "")%string).
  - unfold ptr_Header_Set, NewRequest_ptr, http_NewRequest.
    destruct (http_NewRequest_err "PATCH" (fileURL existingFileID)); [done|].
    unfold bind, Do, ret, return_, panic. answers Hrt; [done|].
    destruct (http_NewRequest_err "PATCH" (moveURL _ _ _)); [done|].
    answers Hrt; done.
  - destruct (negb (existingFileID =? "")%string); [|done].
    unfold ptr_Header_Set, NewRequest_ptr, http_NewRequest.
    destruct (http_NewRequest_err _ _); [done|].
    unfold bind, Do, ret, return_, panic. by rewrite Hdel.
Qed.

Lemma deployFromUpload_agree
  (accessToken fileName versionSafe tempFolderID folderID sopDir : string)
  (h : list Request) :
  (∀ path, same_contents (os_Open (World := W1) path) (os_Open (World := W2) path)) →
  randomBoundary (World := W1) = randomBoundary (World := W2) →
  (∀ h req, Method req ≠ "DELETE" → ¬ isSharingRequest req →
            same_body (RoundTrip (World := W1) h req) (RoundTrip (World := W2) h req)) →
  deployFromUpload (W := W1) accessToken fileName versionSafe tempFolderID folderID
    sopDir h
  = deployFromUpload (W := W2) accessToken fileName versionSafe tempFolderID folderID
      sopDir h.
Proof.
  intros Hopen Hboundary Hrt.
  rewrite !deployFromUpload_run, !uploadNewFile_run.
  specialize (Hopen (filepath_Join sopDir (fileName +:+ ".pdf"))).
  destruct (os_Open (World := W1) _) as [e1|f1], (os_Open (World := W2) _) as [e2|f2];
    simpl in Hopen; [by subst|done|done|].
  cbn zeta.
  assert (deployUploadRequest (W := W1) accessToken (fileName +:+ ".pdf") versionSafe
            tempFolderID f1
          = deployUploadRequest (W := W2) accessToken (fileName +:+ ".pdf") versionSafe
              tempFolderID f2) as ->.
  { unfold deployUploadRequest, deployWriter. by rewrite Hopen, Hboundary. }
  destruct (http_NewRequest_err "POST" uploadURL); [done|].
  answers Hrt; [done|].
  destruct (json_Unmarshal_id _) as [e|newFileID]; [done|].
  destruct (newFileID =? "")%string; [done|].
  rewrite !afterUpload_run. cbn zeta.
  destruct (http_NewRequest_err "PATCH" (fileURL newFileID)); [done|].
  destruct (http_NewRequest_err "PATCH" (moveURL _ _ _)); [done|].
  by answers Hrt.
Qed.

(** [DeployPDF] gives the same result and sends the same requests in two
    worlds that differ only in what it does not look at. *)
Lemma DeployPDF_agree
  (accessToken fileName versionSafe tempFolderID folderID oldFolderID sopDir : string)
  (h : list Request) :
  (∀ path, same_success (os_Stat (World := W1) path) (os_Stat (World := W2) path)) →
  (∀ path, same_contents (os_Open (World := W1) path) (os_Open (World := W2) path)) →
  randomBoundary (World := W1) = randomBoundary (World := W2) →
  (∀ h req, Method req = "DELETE" →
            RoundTrip (World := W1) h req = RoundTrip (World := W2) h req) →
  (∀ h req, Method req ≠ "DELETE" → ¬ isSharingRequest req →
            same_body (RoundTrip (World := W1) h req) (RoundTrip (World := W2) h req)) →
  DeployPDF (W := W1) accessToken fileName versionSafe tempFolderID folderID oldFolderID
    sopDir h
  = DeployPDF (W := W2) accessToken fileName versionSafe tempFolderID folderID
      oldFolderID sopDir h.
Proof.
  intros Hstat Hopen Hboundary Hdel Hrt.
  rewrite !DeployPDF_steps, !queryExisting_run.
  destruct (_ || _); [done|].
  specialize (Hstat (filepath_Join sopDir (fileName +:+ ".pdf"))).
  destruct (os_Stat (World := W1) _), (os_Stat (World := W2) _); try done.
  destruct (versionSafe =? "")%string; [done|].
  destruct (http_NewRequest_err _ _); [done|].
  answers Hrt; [done|].
  destruct (json_Unmarshal_files _) as [e|Files]; [done|].
  destruct (firstFile Files) as [id desc].
  destruct (negb _ && (_ =? versionSafe)%string); [done|].
  rewrite (archiveOldVersion_agree _ _ _ _ _ _ _ Hdel Hrt).
  destruct (archiveOldVersion _ _ _ _ _ _ _) as [[[]|ret|] h2]; [|done..].
  by apply deployFromUpload_agree.
Qed.

Lemma same_body_refl (o : error + Response) : same_body o o.
Proof. by destruct o. Qed.

Lemma same_contents_refl (o : error + File) : same_contents o o.
Proof. by destruct o. Qed.

Lemma same_success_refl (o : error + FileInfo) : same_success o o.
Proof. by destruct o. Qed.

(** X22. The answer to the sharing-restriction request is never looked
    at: in two worlds that differ only in how they answer a PATCH with the
    sharing body (with whatever response, or with a transport error),
    [DeployPDF] returns the same result after the same requests. *)
Theorem DeployPDF_ignores_sharing_outcome
  (accessToken fileName versionSafe tempFolderID folderID oldFolderID sopDir : string)
  (h : list Request) :
  (∀ path, os_Stat (World := W1) path = os_Stat (World := W2) path) →
  (∀ path, os_Open (World := W1) path = os_Open (World := W2) path) →
  randomBoundary (World := W1) = randomBoundary (World := W2) →
  (∀ h req, ¬ isSharingRequest req →
            RoundTrip (World := W1) h req = RoundTrip (World := W2) h req) →
  DeployPDF (W := W1) accessToken fileName versionSafe tempFolderID folderID oldFolderID
    sopDir h
  = DeployPDF (W := W2) accessToken fileName versionSafe tempFolderID folderID
      oldFolderID sopDir h.
Proof.
  intros Hstat Hopen Hboundary Hrt. apply DeployPDF_agree; [..|done| |].
  - intros path. rewrite Hstat. apply same_success_refl.
  - intros path. rewrite Hopen. apply same_contents_refl.
  - intros h' req Hm. apply Hrt. intros [Hpatch _]. congruence.
  - intros h' req _ Hsharing. rewrite Hrt by done. apply same_body_refl.
Qed.

(** X23. The only status code that [DeployPDF] reads is that of the
    delete: in two worlds whose responses differ only in the status codes
    of the answers to the other requests (the search, the rename, the move
    into the archive, the upload, the final move), [DeployPDF] returns the
    same result after the same requests. *)
Theorem DeployPDF_reads_delete_status_only
  (accessToken fileName versionSafe tempFolderID folderID oldFolderID sopDir : string)
  (h : list Request) :
  (∀ path, os_Stat (World := W1) path = os_Stat (World := W2) path) →
  (∀ path, os_Open (World := W1) path = os_Open (World := W2) path) →
  randomBoundary (World := W1) = randomBoundary (World := W2) →
  (∀ h req, Method req = "DELETE" →
            RoundTrip (World := W1) h req = RoundTrip (World := W2) h req) →
  (∀ h req, Method req ≠ "DELETE" →
            same_body (RoundTrip (World := W1) h req) (RoundTrip (World := W2) h req)) →
  DeployPDF (W := W1) accessToken fileName versionSafe tempFolderID folderID oldFolderID
    sopDir h
  = DeployPDF (W := W2) accessToken fileName versionSafe tempFolderID folderID
      oldFolderID sopDir h.
Proof.
  intros Hstat Hopen Hboundary Hdel Hrt. apply DeployPDF_agree; [..|done|done|].
  - intros path. rewrite Hstat. apply same_success_refl.
  - intros path. rewrite Hopen. apply same_contents_refl.
  - intros h' req Hm _. by apply Hrt.
Qed.

(** X24. [DeployPDF] asks [os.Stat] only whether the path exists, and
    drops the error of reading the opened file: in two worlds that differ
    only in what [os.Stat] reports about a path it finds (a directory or a
    file) and in whether reading an opened file fails after the same
    bytes, [DeployPDF] returns the same result after the same requests.
    A directory named like the PDF is uploaded as an empty file. *)
Theorem DeployPDF_ignores_read_errors
  (accessToken fileName versionSafe tempFolderID folderID oldFolderID sopDir : string)
  (h : list Request) :
  (∀ path, same_success (os_Stat (World := W1) path) (os_Stat (World := W2) path)) →
  (∀ path, same_contents (os_Open (World := W1) path) (os_Open (World := W2) path)) →
  randomBoundary (World := W1) = randomBoundary (World := W2) →
  (∀ h req, RoundTrip (World := W1) h req = RoundTrip (World := W2) h req) →
  DeployPDF (W := W1) accessToken fileName versionSafe tempFolderID folderID oldFolderID
    sopDir h
  = DeployPDF (W := W2) accessToken fileName versionSafe tempFolderID folderID
      oldFolderID sopDir h.
Proof.
  intros Hstat Hopen Hboundary Hrt. apply DeployPDF_agree; [done..|].
  intros h' req _ _. rewrite Hrt. apply same_body_refl.
Qed.

(** X25. [CheckRemoteVersionExists] and [GetGoogleAccessToken] do not read
    the status code of the response: in two worlds whose transports give
    the same errors and the same bodies, each returns the same result
    after the same requests.  A 401 or a 500 whose body decodes is taken
    like a 200. *)
Theorem status_code_not_read :
  (∀ h req, same_body (RoundTrip (World := W1) h req) (RoundTrip (World := W2) h req)) →
  (∀ (accessToken fileName folderID versionSafe : string) (h : list Request),
     CheckRemoteVersionExists (W := W1) accessToken fileName folderID versionSafe h
     = CheckRemoteVersionExists (W := W2) accessToken fileName folderID versionSafe h)
  ∧ (∀ (clientID clientSecret refreshToken : string) (h : list Request),
       GetGoogleAccessToken (W := W1) clientID clientSecret refreshToken h
       = GetGoogleAccessToken (W := W2) clientID clientSecret refreshToken h).
Proof.
  intros Hrt. split.
  - intros accessToken fileName folderID versionSafe h.
    rewrite !CheckRemoteVersionExists_run.
    destruct (accessToken =? "")%string; [done|].
    destruct (_ || _); [done|]. cbn zeta.
    destruct (http_NewRequest_err _ _); [done|].
    specialize (Hrt h (searchRequest accessToken (fileName +:+ ".pdf") folderID)).
    destruct (RoundTrip (World := W1) _ _), (RoundTrip (World := W2) _ _);
      simpl in Hrt; [by subst|done|done|by rewrite Hrt].
  - intros clientID clientSecret refreshToken h. rewrite !GetGoogleAccessToken_run.
    destruct (http_NewRequest_err _ _); [done|]. cbn zeta.
    specialize (Hrt h (tokenRequest clientID clientSecret refreshToken)).
    destruct (RoundTrip (World := W1) _ _), (RoundTrip (World := W2) _ _);
      simpl in Hrt; [by subst|done|done|by rewrite Hrt].
Qed.

End Worlds.

(** * The model on concrete inputs *)

Section Examples.
Import Tests.

(** ** The tests of the repository *)

(** [TestGetGoogleAccessToken_Success]. *)
Example GetGoogleAccessToken_success :
  (GetGoogleAccessToken (L := Ref.lib) (W := world tokenHandler [])
     "id" "secret" "refresh" []).1
  = Return ("tok-123", None).
Proof. vm_compute. reflexivity. Qed.

(** [TestGetGoogleAccessToken_NoAccessTokenInResponse]. *)
Example GetGoogleAccessToken_no_token :
  (GetGoogleAccessToken (L := Ref.lib) (W := world noTokenHandler [])
     "id" "secret" "refresh" []).1
  = Return ("", Some (errors_New "no access_token in response")).
Proof. vm_compute. reflexivity. Qed.

(** [TestGetGoogleAccessToken_BadJSON]. *)
Example GetGoogleAccessToken_bad_json :
  (GetGoogleAccessToken (L := Ref.lib) (W := world (constHandler 200 "not-json") [])
     "id" "secret" "refresh" []).1
  = Return ("", Some (fmt_Errorf_w "failed to decode token response: "
                        Ref.syntax_error)).
Proof. vm_compute. reflexivity. Qed.

(** [TestCheckRemoteVersionExists_MatchesAndNotMatches]. *)
Example CheckRemoteVersionExists_matches :
  (CheckRemoteVersionExists (L := Ref.lib) (W := world checkHandler td)
     "token" "exists" "folder" "v1" []).1 = Return (true, None)
  ∧ (CheckRemoteVersionExists (L := Ref.lib) (W := world checkHandler td)
       "token" "doesnotexist" "folder" "v1" []).1 = Return (false, None).
Proof. split; vm_compute; reflexivity. Qed.

(** The comparison of descriptions is exact: [V1] and [v1 ] are not [v1]. *)
Example CheckRemoteVersionExists_exact :
  (CheckRemoteVersionExists (L := Ref.lib) (W := world checkHandler td)
     "token" "exists" "folder" "V1" []).1 = Return (false, None)
  ∧ (CheckRemoteVersionExists (L := Ref.lib) (W := world checkHandler td)
       "token" "exists" "folder" "v1 " []).1 = Return (false, None).
Proof. split; vm_compute; reflexivity. Qed.

(** [TestDeployPDF_ExistingDeletedWhenNoOldFolder]. *)
Example DeployPDF_existing_deleted :
  let run := DeployPDF (L := Ref.lib) (W := world existingHandler td)
               "token" "existingdoc" "v2" "temp" "final" "" "/tmp/td" [] in
  run.1 = Return None
  ∧ Method <$> run.2 = ["GET"; "DELETE"; "POST"; "PATCH"; "PATCH"].
Proof. split; vm_compute; reflexivity. Qed.

(** [TestUploadFileToDrive_Success], [..._InvalidJSONResponse],
    [..._MissingParams] and [..._FileIsDir]. *)
Example UploadFileToDrive_tests :
  (upload (constHandler 200 (js "{'id':'uploaded-file-1'}")) "/tmp/td/upload-1.txt").1
  = Return ("uploaded-file-1", None)
  ∧ (upload (constHandler 200 "not-json") "/tmp/td/upload-1.txt").1
    = Return ("", Some (fmt_Errorf_w "decode upload response: " Ref.syntax_error))
  ∧ (upload (constHandler 200 "") "").1
    = Return ("", Some (errors_New "filePath is required"))
  ∧ upload (constHandler 200 "") "/tmp/td"
    = (Return ("", Some (errors_New "filePath is a directory")), []).
Proof. split_and!; vm_compute; reflexivity. Qed.

(** ** The claims on concrete inputs *)

(** C1 at the test server: one listed file with description [v1]. *)
Lemma CheckRemoteVersionExists_true_iff_witness :
  check (listingHandler "exid" "v1" 200 "") = (Return (true, None), [search])
  ∧ ∃ f rest,
      [{| ID := "exid"; Name := "mydoc.pdf"; Description := "v1" |}] = f :: rest
      ∧ Description f = "v1".
Proof.
  split; [vm_compute; reflexivity|].
  refine (proj1 (proj1 (CheckRemoteVersionExists_true_iff
    (L := Ref.lib) (W := world (listingHandler "exid" "v1" 200 "") td)
    "token" "mydoc" "final" "v1" [] (Return (true, None)) search
    (listingHandler "exid" "v1" 200 "" search)
    [{| ID := "exid"; Name := "mydoc.pdf"; Description := "v1" |}] _ _ _)) _);
    vm_compute; reflexivity.
Defined.

(** C2 as stated fails on the test server of
    [TestDeployPDF_NoExisting_UploadAndMove]: the search finds nothing, the
    run succeeds, and four requests are issued, not three. *)
Lemma DeployPDF_three_requests_counterexample :
  (deploy noExistingHandler).1 = Return None
  ∧ Ref.Unmarshal_files (RespBody (noExistingHandler search)) = inr []
  ∧ Method <$> (deploy noExistingHandler).2 = ["GET"; "POST"; "PATCH"; "PATCH"]
  ∧ Method <$> (deploy noExistingHandler).2 ≠ ["GET"; "POST"; "PATCH"].
Proof. split_and!; [vm_compute; reflexivity..|vm_compute; discriminate]. Qed.

(** C2, amended, on the same run. *)
Lemma DeployPDF_no_existing_requests_witness :
  deploy noExistingHandler
  = (Return None, search :: drop 1 (deploy noExistingHandler).2)
  ∧ ∃ newFileID,
      Method <$> (search :: drop 1 (deploy noExistingHandler).2)
      = ["GET"; "POST"; "PATCH"; "PATCH"]
      ∧ URL <$> (search :: drop 1 (deploy noExistingHandler).2)
        = [queryURL "final" (Ref.QueryEscape "mydoc.pdf"); uploadURL;
           fileURL newFileID; moveURL newFileID "final" "temp"].
Proof.
  split; [vm_compute; reflexivity|].
  apply (DeployPDF_no_existing_requests
    (L := Ref.lib) (W := world noExistingHandler td)
    "token" "mydoc" "v1" "temp" "final" "old" "/tmp/td" [] search
    (drop 1 (deploy noExistingHandler).2) (noExistingHandler search) []);
    vm_compute; reflexivity.
Defined.

(** C3 as stated fails twice: status 299 lies outside [200, 299) and
    [UploadFileToDrive] returns the id without error; and [DeployPDF]
    succeeds although its upload was answered with status 500, because the
    body holds an id. *)
Lemma upload_status_counterexample :
  (upload (constHandler 299 (js "{'id':'x'}")) "/tmp/td/upload-1.txt").1
  = Return ("x", None)
  ∧ RoundTrip (World := world (listingHandler "" "" 500 (js "{'id':'n'}")) td)
      [search] (nth_request 1 (deploy (listingHandler "" "" 500 (js "{'id':'n'}"))).2)
    = inr {| StatusCode := 500; RespBody := js "{'id':'n'}" |}
  ∧ (deploy (listingHandler "" "" 500 (js "{'id':'n'}"))).1 = Return None
  ∧ Method <$> (deploy (listingHandler "" "" 500 (js "{'id':'n'}"))).2
    = ["GET"; "POST"; "PATCH"; "PATCH"].
Proof. split_and!; vm_compute; reflexivity. Qed.

(** C3, amended, on [TestUploadFileToDrive_Non2xxResponse]: status 500 and
    body [boom]. *)
Lemma upload_response_errors_witness :
  (upload (constHandler 500 ("boom" +:+ newline)) "/tmp/td/upload-1.txt").1
  = Return ("", Some (errors_New ("upload failed: status 500: boom" +:+ newline))).
Proof.
  apply (proj1 (upload_response_errors (L := Ref.lib)
                  (W := world (constHandler 500 ("boom" +:+ newline)) td))
           "tok" "folder123" "/tmp/td/upload-1.txt" [] _
           (nth_request 0
              (upload (constHandler 500 ("boom" +:+ newline)) "/tmp/td/upload-1.txt").2)
           (constHandler 500 ("boom" +:+ newline) search));
    [vm_compute; reflexivity.. | right; simpl; lia].
Defined.

(** C4 on the run of [TestDeployPDF_NoExisting_UploadAndMove]: the second
    request of [DeployPDF] is the upload POST, and it is sent as
    [multipart/form-data]. *)
Lemma upload_content_types_witness :
  Method (nth_request 1 (deploy noExistingHandler).2) = "POST"
  ∧ Header (nth_request 1 (deploy noExistingHandler).2) !! "Content-Type"
    = Some "multipart/form-data; boundary=3f0c9a"
  ∧ Header (nth_request 1 (deploy noExistingHandler).2) !! "Content-Type"
    ≠ Some "multipart/related; boundary=3f0c9a".
Proof.
  split; [vm_compute; reflexivity|].
  destruct (proj2 (upload_content_types (L := Ref.lib)
                     (W := world noExistingHandler td))
              "token" "mydoc" "v1" "temp" "final" "old" "/tmp/td" []
              (deploy noExistingHandler).2 (deploy noExistingHandler).1)
    as (t & Ht & Hall); [vm_compute; reflexivity|].
  simpl in Ht. subst t.
  apply (Hall (nth_request 1 (deploy noExistingHandler).2)).
  - apply (list_elem_of_lookup_2 _ 1). vm_compute. reflexivity.
  - vm_compute. reflexivity.
Defined.

(** C5 as stated fails when the first listed entry has a matching
    description and an empty id: [CheckRemoteVersionExists] answers true,
    [DeployPDF] uploads. *)
Lemma DeployPDF_skip_counterexample :
  Ref.Unmarshal_files (RespBody (listingHandler "" "v1" 200 (js "{'id':'n'}") search))
  = inr [{| ID := ""; Name := "mydoc.pdf"; Description := "v1" |}]
  ∧ check (listingHandler "" "v1" 200 (js "{'id':'n'}"))
    = (Return (true, None), [search])
  ∧ deploy (listingHandler "" "v1" 200 (js "{'id':'n'}")) ≠ (Return None, [search])
  ∧ Method <$> (deploy (listingHandler "" "v1" 200 (js "{'id':'n'}"))).2
    = ["GET"; "POST"; "PATCH"; "PATCH"].
Proof.
  split_and!; [vm_compute; reflexivity..| |vm_compute; reflexivity].
  intros Heq. apply (f_equal (λ run, length run.2)) in Heq.
  vm_compute in Heq. discriminate.
Qed.

(** C5, amended, on a listed entry with id [exid] and description [v1]. *)
Lemma DeployPDF_skip_iff_check_and_id_witness :
  (deploy (listingHandler "exid" "v1" 200 "")).1 = Return None
  ∧ (deploy (listingHandler "exid" "v1" 200 "")).2 = [] ++ [search]
  ↔ (check (listingHandler "exid" "v1" 200 "")).1 = Return (true, None)
    ∧ (firstFile [{| ID := "exid"; Name := "mydoc.pdf"; Description := "v1" |}]).1 ≠ "".
Proof.
  apply (DeployPDF_skip_iff_check_and_id
    (L := Ref.lib) (W := world (listingHandler "exid" "v1" 200 "") td)
    "token" "mydoc" "v1" "temp" "final" "old" "/tmp/td" [] _ _ _ search []
    (listingHandler "exid" "v1" 200 "" search));
    vm_compute; reflexivity.
Defined.

(** C6 as stated fails on a body that is well-formed JSON and holds a
    non-empty [access_token], but gives [expires_in] as a string: decoding
    into the struct fails, and the result is the empty string with the
    decoding error, not the token. *)
Lemma GetGoogleAccessToken_wellformed_counterexample :
  Ref.parse_document (js "{'access_token':'tok-123','expires_in':'3600'}")
  = Some (Ref.Obj [("access_token", Ref.Str "tok-123");
                   ("expires_in", Ref.Str "3600")])
  ∧ Ref.string_field "access_token"
      [("access_token", Ref.Str "tok-123"); ("expires_in", Ref.Str "3600")] ""
    = Some "tok-123"
  ∧ (token (constHandler 200 (js "{'access_token':'tok-123','expires_in':'3600'}"))).1
    = Return ("", Some (fmt_Errorf_w "failed to decode token response: "
                          Ref.type_error))
  ∧ (token (constHandler 200 (js "{'access_token':'tok-123','expires_in':'3600'}"))).1
    ≠ Return ("tok-123", None).
Proof. split_and!; [vm_compute; reflexivity..|vm_compute; discriminate]. Qed.

(** C6, amended, on [TestGetGoogleAccessToken_Success]. *)
Lemma GetGoogleAccessToken_token_iff_nonempty_witness :
  (token tokenHandler).1 = Return ("tok-123", None) ↔ "tok-123" ≠ "".
Proof.
  apply (proj1 (GetGoogleAccessToken_token_iff_nonempty
                  (L := Ref.lib) (W := world tokenHandler [])
                  "id" "secret" "refresh" [])
           (token tokenHandler).1 (nth_request 0 (token tokenHandler).2)
           (tokenHandler search)
           {| AccessToken := "tok-123"; ExpiresIn := 3600; TokenType := "Bearer" |});
    vm_compute; reflexivity.
Defined.

(** C7 on a final move answered with status 200 and the body [{}]: the
    workflow fails. *)
Lemma DeployPDF_final_move_error_iff_no_id_witness :
  beforeMove moveWithoutIdHandler
  = (Next "new-file-id", take 3 (deploy moveWithoutIdHandler).2)
  ∧ (deploy moveWithoutIdHandler).1
    = Return (Some (errors_New "upload succeeded, but move failed: {}"))
  ∧ ((∃ err, (deploy moveWithoutIdHandler).1 = Return (Some err))
     ↔ ¬ ∃ pre post, "{}" = pre +:+ quoted_id +:+ post).
Proof.
  assert (beforeMove moveWithoutIdHandler
          = (Next "new-file-id", take 3 (deploy moveWithoutIdHandler).2)) as Hbefore
    by (vm_compute; reflexivity).
  split; [exact Hbefore|]. split; [vm_compute; reflexivity|].
  refine (proj1 (proj2 (DeployPDF_final_move_error_iff_no_id
    (L := Ref.lib) (W := world moveWithoutIdHandler td)
    "token" "mydoc" "v1" "temp" "final" "old" "/tmp/td" []
    (take 3 (deploy moveWithoutIdHandler).2) "new-file-id"
    (deploy moveWithoutIdHandler).1
    (nth_request 3 (deploy moveWithoutIdHandler).2) (ok "{}") Hbefore _ _)));
    vm_compute; reflexivity.
Defined.

(** C7 on a final move answered with status 500 and a body holding ["id"]:
    the workflow succeeds. *)
Example DeployPDF_final_move_status_ignored :
  RoundTrip (World := world archive500 td) (take 5 (deploy archive500).2)
    (nth_request 5 (deploy archive500).2)
  = inr {| StatusCode := 500; RespBody := js "{'id':'n'}" |}
  ∧ (deploy archive500).1 = Return None.
Proof. split; vm_compute; reflexivity. Qed.


(** C8 on an old version whose description is the string [null]. *)
Example DeployPDF_archive_rename_null :
  Body (nth_request 1
          (deploy (listingHandler "oldid" "null" 200 (js "{'id':'n'}"))).2)
  = Some (js "{'name': 'mydoc-unknown.pdf'}").
Proof. vm_compute. reflexivity. Qed.

(** C9 on [TestUploadFileToDrive_FileIsDir]. *)
Lemma UploadFileToDrive_rejects_before_network_witness :
  ∃ err, upload (constHandler 200 "") "/tmp/td" = (Return ("", Some err), []).
Proof.
  apply (UploadFileToDrive_rejects_before_network
           (L := Ref.lib) (W := world (constHandler 200 "") td)).
  do 3 right. exists {| IsDir := true |}. split; vm_compute; reflexivity.
Defined.

(** C10 as stated fails on an archive folder id that ends in a line feed:
    the search lists an old version, the rename is answered (with status
    500), there is no transport error, and yet the workflow does not reach
    the upload: the move into the archive cannot be built, and setting its
    header panics. *)
Lemma DeployPDF_archive_panic_counterexample :
  DeployPDF (L := Ref.lib) (W := world archive500 td)
    "token" "mydoc" "v1" "temp" "final" ("old" +:+ newline) "/tmp/td" []
  = (Panic, [search; renameRequest "token" "mydoc" "oldid" "oldver"])
  ∧ RoundTrip (World := world archive500 td) [] search
    = inr (ok (js "{'files':[{'id':'oldid','name':'mydoc.pdf','description':'oldver'}]}"))
  ∧ RoundTrip (World := world archive500 td) [search]
      (renameRequest "token" "mydoc" "oldid" "oldver")
    = inr {| StatusCode := 500; RespBody := js "{'id':'n'}" |}
  ∧ Ref.NewRequest_err "PATCH" (moveURL "oldid" ("old" +:+ newline) "final")
    = Some (errors_New "net/url: invalid control character in URL").
Proof. split_and!; vm_compute; reflexivity. Qed.

(** C10, amended, on a rename and a move into the archive both answered
    with status 500: the workflow goes on with the upload. *)
Lemma DeployPDF_archive_ignores_status_witness :
  ((deploy archive500).1, [] ++ search :: drop 1 (deploy archive500).2)
  = deployFromUpload (L := Ref.lib) (W := world archive500 td)
      "token" "mydoc" "v1" "temp" "final" "/tmp/td"
      ([] ++ [search; renameRequest "token" "mydoc" "oldid" "oldver";
              moveRequest "token" "oldid" "old" "final"]).
Proof.
  refine (proj2 (proj2 (DeployPDF_archive_ignores_status
    (L := Ref.lib) (W := world archive500 td)
    "token" "mydoc" "v1" "temp" "final" "old" "/tmp/td" []
    ([] ++ search :: drop 1 (deploy archive500).2) (deploy archive500).1
    search (drop 1 (deploy archive500).2) (archive500 search)
    [{| ID := "oldid"; Name := "mydoc.pdf"; Description := "oldver" |}]
    "oldid" "oldver" _ _ _ _ _ _ _ _ _ _))
    {| StatusCode := 500; RespBody := js "{'id':'n'}" |}
    {| StatusCode := 500; RespBody := js "{'id':'n'}" |} _ _);
    first [discriminate | vm_compute; reflexivity].
Defined.

(** The whole run of that workflow. *)
Example DeployPDF_archive_run :
  (deploy archive500).1 = Return None
  ∧ Method <$> (deploy archive500).2
    = ["GET"; "PATCH"; "PATCH"; "POST"; "PATCH"; "PATCH"].
Proof. split; vm_compute; reflexivity. Qed.

End Examples.

(** * The further properties on concrete inputs *)

Section MoreExamples.
Import Tests.

(** X1 on a PDF that is not there, with an empty version label: the
    missing file is what is reported. *)
Lemma DeployPDF_rejects_before_network_witness :
  DeployPDF (L := Ref.lib) (W := world noExistingHandler td)
    "token" "nofile" "" "temp" "final" "old" "/tmp/td" []
  = (Return (Some (errors_New "PDF '/tmp/td/nofile.pdf' not found")), []).
Proof.
  refine (proj1 (proj2 (DeployPDF_rejects_before_network
    (L := Ref.lib) (W := world noExistingHandler td)
    "token" "nofile" "" "temp" "final" "old" "/tmp/td" []) _ _ _ _)
    (errors_New "stat /tmp/td/nofile.pdf: no such file or directory") _);
    first [discriminate | vm_compute; reflexivity].
Defined.

(** X2 on a call without any argument: the token is asked for first. *)
Lemma CheckRemoteVersionExists_rejects_before_network_witness :
  CheckRemoteVersionExists (L := Ref.lib) (W := world checkHandler td) "" "" "" "" []
  = (Return (false, Some (errors_New "ACCESS_TOKEN is not set")), []).
Proof.
  apply (proj1 (CheckRemoteVersionExists_rejects_before_network
                  (L := Ref.lib) (W := world checkHandler td) "" "" "" "" [])).
  reflexivity.
Defined.

(** X4 on the server of [TestDeployPDF_NoExisting_UploadAndMove]. *)
Lemma DeployPDF_search_is_check_request_witness :
  nth_request 0 (deploy noExistingHandler).2 = nth_request 0 (check noExistingHandler).2
  ∧ Method (nth_request 0 (check noExistingHandler).2) = "GET"
  ∧ URL (nth_request 0 (check noExistingHandler).2)
    = queryURL "final" (Ref.QueryEscape "mydoc.pdf")
  ∧ Body (nth_request 0 (check noExistingHandler).2) = None
  ∧ Header (nth_request 0 (check noExistingHandler).2)
    = {["Authorization" := "Bearer token"]}.
Proof.
  apply (DeployPDF_search_is_check_request
    (L := Ref.lib) (W := world noExistingHandler td)
    "token" "mydoc" "v1" "v1" "temp" "final" "old" "/tmp/td" []
    (deploy noExistingHandler).1 (check noExistingHandler).1
    (nth_request 0 (deploy noExistingHandler).2)
    (nth_request 0 (check noExistingHandler).2)
    (drop 1 (deploy noExistingHandler).2));
    vm_compute; reflexivity.
Defined.

(** X5 on a search answered with a body that is not JSON. *)
Lemma DeployPDF_search_failure_witness :
  (deploy (constHandler 200 "not-json")).1 = Return (Some Ref.syntax_error)
  ∧ drop 1 (deploy (constHandler 200 "not-json")).2 = [].
Proof.
  apply (DeployPDF_search_failure
    (L := Ref.lib) (W := world (constHandler 200 "not-json") td)
    "token" "mydoc" "v1" "temp" "final" "old" "/tmp/td" []
    (deploy (constHandler 200 "not-json")).1 search
    (drop 1 (deploy (constHandler 200 "not-json")).2) Ref.syntax_error);
    [vm_compute; reflexivity|].
  right. exists (constHandler 200 "not-json" search). split; vm_compute; reflexivity.
Defined.

(** X6 on a final folder id that ends in a line feed. *)
Lemma search_request_unbuildable_witness :
  CheckRemoteVersionExists (L := Ref.lib) (W := world noExistingHandler td)
    "token" "mydoc" ("final" +:+ newline) "v1" []
  = (Return (false, Some (errors_New "net/url: invalid control character in URL")), [])
  ∧ DeployPDF (L := Ref.lib) (W := world noExistingHandler td)
      "token" "mydoc" "v1" "temp" ("final" +:+ newline) "old" "/tmp/td" []
    = (Panic, []).
Proof.
  apply (search_request_unbuildable (L := Ref.lib) (W := world noExistingHandler td)
           "token" "mydoc" "v1" "temp" ("final" +:+ newline) "old" "/tmp/td" []
           {| IsDir := false |});
    first [discriminate | vm_compute; reflexivity].
Defined.

(** X7 on a delete answered with status 403. *)
Lemma DeployPDF_delete_old_version_witness :
  nth_request 1 (redeploy (world (listingHandler "oldid" "oldver" 403 "forbidden") td)).2
  = deleteRequest "token" "oldid"
  ∧ (redeploy (world (listingHandler "oldid" "oldver" 403 "forbidden") td)).1
    = Return (Some (errors_New
        "failed to delete existing file: status 403: forbidden"))
  ∧ drop 2 (redeploy (world (listingHandler "oldid" "oldver" 403 "forbidden") td)).2
    = [].
Proof.
  destruct (DeployPDF_delete_old_version
    (L := Ref.lib) (W := world (listingHandler "oldid" "oldver" 403 "forbidden") td)
    "token" "existingdoc" "v2" "temp" "final" "/tmp/td" []
    (redeploy (world (listingHandler "oldid" "oldver" 403 "forbidden") td)).1
    (searchRequest (L := Ref.lib) "token" "existingdoc.pdf" "final")
    (nth_request 1
       (redeploy (world (listingHandler "oldid" "oldver" 403 "forbidden") td)).2)
    (drop 2 (redeploy (world (listingHandler "oldid" "oldver" 403 "forbidden") td)).2)
    (listingHandler "oldid" "oldver" 403 "forbidden" search)
    [{| ID := "oldid"; Name := "mydoc.pdf"; Description := "oldver" |}])
    as (Hreq & _ & Hstatus & _);
    [vm_compute; reflexivity..|discriminate|].
  split; [exact Hreq|].
  apply (Hstatus {| StatusCode := 403; RespBody := "forbidden" |});
    [vm_compute; reflexivity|discriminate..].
Defined.

(** X8 on the server of [TestDeployPDF_ExistingDeletedWhenNoOldFolder] and
    a PDF that cannot be opened: the old version is deleted, nothing is
    uploaded. *)
Lemma DeployPDF_deletes_before_opening_witness :
  Method (nth_request 1 (redeploy (unreadable existingHandler td)).2) = "DELETE"
  ∧ URL (nth_request 1 (redeploy (unreadable existingHandler td)).2) = fileURL "oldid"
  ∧ (redeploy (unreadable existingHandler td)).1
    = Return (Some (errors_New "open /tmp/td/existingdoc.pdf: permission denied"))
  ∧ drop 2 (redeploy (unreadable existingHandler td)).2 = [].
Proof.
  apply (DeployPDF_deletes_before_opening
    (L := Ref.lib) (W := unreadable existingHandler td)
    "token" "existingdoc" "v2" "temp" "final" "/tmp/td" []
    (redeploy (unreadable existingHandler td)).1
    (searchRequest (L := Ref.lib) "token" "existingdoc.pdf" "final")
    (nth_request 1 (redeploy (unreadable existingHandler td)).2)
    (drop 2 (redeploy (unreadable existingHandler td)).2)
    (existingHandler search) {| StatusCode := 204; RespBody := "" |}
    [{| ID := "oldid"; Name := "existingdoc.pdf"; Description := "oldver" |}]);
    first [ discriminate | by left | vm_compute; reflexivity ].
Defined.

(** X11 on [TestDeployPDF_ExistingDeletedWhenNoOldFolder]. *)
Lemma DeployPDF_replace_requests_witness :
  ∃ f newFileID,
    os_Open (World := world existingHandler td)
      (Ref.Join "/tmp/td" ("existingdoc" +:+ ".pdf")) = inr f
    ∧ newFileID ≠ ""
    ∧ searchRequest (L := Ref.lib) "token" "existingdoc.pdf" "final"
      :: drop 1 (redeploy (world existingHandler td)).2
      = searchRequest (L := Ref.lib) "token" ("existingdoc" +:+ ".pdf") "final"
        :: (if ("" =? "")%string
            then [deleteRequest "token" "oldid"]
            else [renameRequest "token" "existingdoc" "oldid" "oldver";
                  moveRequest "token" "oldid" "" "final"])
        ++ [deployUploadRequest (L := Ref.lib) (W := world existingHandler td)
              "token" ("existingdoc" +:+ ".pdf") "v2" "temp" f;
            sharingRequest "token" newFileID;
            moveRequest "token" newFileID "final" "temp"].
Proof.
  apply (DeployPDF_replace_requests (L := Ref.lib) (W := world existingHandler td)
           "token" "existingdoc" "v2" "temp" "final" "" "/tmp/td" []
           (searchRequest (L := Ref.lib) "token" "existingdoc.pdf" "final")
           (drop 1 (redeploy (world existingHandler td)).2)
           (existingHandler search)
           [{| ID := "oldid"; Name := "existingdoc.pdf"; Description := "oldver" |}]
           "oldid" "oldver");
    first [ discriminate | vm_compute; reflexivity ].
Defined.

(** X12 on a temporary folder id that ends in a line feed: the upload and
    the sharing request are sent, then the workflow panics. *)
Lemma DeployPDF_panics_after_upload_witness :
  (deployFromUpload (L := Ref.lib) (W := world noExistingHandler td)
     "token" "mydoc" "v1" ("temp" +:+ newline) "final" "/tmp/td" []).1 = Panic
  ∧ drop 1 (deployFromUpload (L := Ref.lib) (W := world noExistingHandler td)
              "token" "mydoc" "v1" ("temp" +:+ newline) "final" "/tmp/td" []).2
    = [sharingRequest "token" "new-file-id"].
Proof.
  refine (proj2 (DeployPDF_panics_after_upload
    (L := Ref.lib) (W := world noExistingHandler td)
    "token" "mydoc" "v1" ("temp" +:+ newline) "final" "/tmp/td" []
    (deployFromUpload (L := Ref.lib) (W := world noExistingHandler td)
       "token" "mydoc" "v1" ("temp" +:+ newline) "final" "/tmp/td" []).1
    (nth_request 0
       (deployFromUpload (L := Ref.lib) (W := world noExistingHandler td)
          "token" "mydoc" "v1" ("temp" +:+ newline) "final" "/tmp/td" []).2)
    (drop 1 (deployFromUpload (L := Ref.lib) (W := world noExistingHandler td)
               "token" "mydoc" "v1" ("temp" +:+ newline) "final" "/tmp/td" []).2)
    (ok (js "{'id':'new-file-id'}")) "new-file-id" _ _ _ _) _ _);
    first [ discriminate | vm_compute; reflexivity | vm_compute; discriminate ].
Defined.

(** X15 on [TestUploadFileToDrive_Success]. *)
Lemma UploadFileToDrive_request_witness :
  "tok" ≠ "" ∧ "folder123" ≠ "" ∧ "/tmp/td/upload-1.txt" ≠ ""
  ∧ ∃ finfo metaJSON f,
      os_Stat (World := world (constHandler 200 (js "{'id':'uploaded-file-1'}")) td)
        "/tmp/td/upload-1.txt" = inr finfo
      ∧ IsDir finfo = false
      ∧ Ref.Marshal (<["name" := MString (Ref.Base "/tmp/td/upload-1.txt")]>
                       (<["parents" := MStrings ["folder123"]]> ∅)) = inr metaJSON
      ∧ os_Open (World := world (constHandler 200 (js "{'id':'uploaded-file-1'}")) td)
          "/tmp/td/upload-1.txt" = inr f
      ∧ read_err f = None
      ∧ nth_request 0
          (upload (constHandler 200 (js "{'id':'uploaded-file-1'}"))
             "/tmp/td/upload-1.txt").2
        = uploadFileRequest (L := Ref.lib)
            (W := world (constHandler 200 (js "{'id':'uploaded-file-1'}")) td)
            "tok" "/tmp/td/upload-1.txt" metaJSON f.
Proof.
  apply (UploadFileToDrive_request
    (L := Ref.lib) (W := world (constHandler 200 (js "{'id':'uploaded-file-1'}")) td)
    "tok" "folder123" "/tmp/td/upload-1.txt" []
    (upload (constHandler 200 (js "{'id':'uploaded-file-1'}"))
       "/tmp/td/upload-1.txt").1).
  vm_compute. reflexivity.
Defined.

(** X16 on [TestUploadFileToDrive_Success]: the id of the response comes back. *)
Lemma UploadFileToDrive_answers_witness :
  (upload (constHandler 200 (js "{'id':'uploaded-file-1'}")) "/tmp/td/upload-1.txt").1
  = Return ("uploaded-file-1", None).
Proof.
  refine (proj2 (proj2 (proj2 (UploadFileToDrive_answers
    (L := Ref.lib) (W := world (constHandler 200 (js "{'id':'uploaded-file-1'}")) td)
    "tok" "folder123" "/tmp/td/upload-1.txt" []
    (upload (constHandler 200 (js "{'id':'uploaded-file-1'}"))
       "/tmp/td/upload-1.txt").1
    (nth_request 0
       (upload (constHandler 200 (js "{'id':'uploaded-file-1'}"))
          "/tmp/td/upload-1.txt").2) _)
    (ok (js "{'id':'uploaded-file-1'}")) _ _)) "uploaded-file-1" _ _);
    first [ discriminate | vm_compute; reflexivity | simpl; lia ].
Defined.

(** X17 on a path that does not exist. *)
Lemma UploadFileToDrive_local_failures_witness :
  upload (constHandler 200 "") "/tmp/td/missing.txt"
  = (Return ("", Some (fmt_Errorf_w "stat file: "
                         (errors_New
                            "stat /tmp/td/missing.txt: no such file or directory"))),
     []).
Proof.
  refine (proj1 (UploadFileToDrive_local_failures
    (L := Ref.lib) (W := world (constHandler 200 "") td)
    "tok" "folder123" "/tmp/td/missing.txt" []
    (errors_New "stat /tmp/td/missing.txt: no such file or directory") _ _ _) _);
    first [ discriminate | vm_compute; reflexivity ].
Defined.

(** X19 on [TestGetGoogleAccessToken_BadJSON]. *)
Lemma GetGoogleAccessToken_failures_witness :
  (token (constHandler 200 "not-json")).1
  = Return ("", Some (fmt_Errorf_w "failed to decode token response: "
                        Ref.syntax_error)).
Proof.
  refine (proj2 (GetGoogleAccessToken_failures
    (L := Ref.lib) (W := world (constHandler 200 "not-json") [])
    "id" "secret" "refresh" [] (token (constHandler 200 "not-json")).1
    (nth_request 0 (token (constHandler 200 "not-json")).2) _)
    (constHandler 200 "not-json" search) Ref.syntax_error _ _);
    vm_compute; reflexivity.
Defined.

(** The requests that [sharing] selects have the shape of the sharing request. *)
Lemma sharing_spec (r : Request) : sharing r = true → isSharingRequest r.
Proof.
  unfold sharing, isSharingRequest. intros Hs.
  apply andb_true_iff in Hs as [Hm Hb]. apply String.eqb_eq in Hm.
  destruct (Body r) as [b|]; [|done]. apply String.eqb_eq in Hb. by subst.
Qed.

(** X22 on the server of [TestDeployPDF_NoExisting_UploadAndMove], and on
    the same server behind a transport that fails on the sharing request. *)
Lemma DeployPDF_ignores_sharing_outcome_witness :
  deploy noExistingHandler
  = DeployPDF (L := Ref.lib) (W := flaky sharing noExistingHandler td)
      "token" "mydoc" "v1" "temp" "final" "old" "/tmp/td" [].
Proof.
  apply (DeployPDF_ignores_sharing_outcome (L := Ref.lib)
           (world noExistingHandler td) (flaky sharing noExistingHandler td)
           "token" "mydoc" "v1" "temp" "final" "old" "/tmp/td" []);
    [reflexivity..|].
  intros h req Hsharing. simpl.
  destruct (sharing req) eqn:Hs; [|reflexivity].
  by apply sharing_spec in Hs.
Defined.

(** In that run the sharing request met a transport error, and the
    workflow returned nil. *)
Example DeployPDF_sharing_transport_error :
  let run := DeployPDF (L := Ref.lib) (W := flaky sharing noExistingHandler td)
               "token" "mydoc" "v1" "temp" "final" "old" "/tmp/td" [] in
  RoundTrip (World := flaky sharing noExistingHandler td) (take 2 run.2)
    (nth_request 2 run.2)
  = inl (errors_New "dial tcp: connection refused")
  ∧ nth_request 2 run.2 = sharingRequest "token" "new-file-id"
  ∧ run.1 = Return None.
Proof. split_and!; vm_compute; reflexivity. Qed.

(** X23 on [TestDeployPDF_ExistingDeletedWhenNoOldFolder], and on the same
    server with every status but the delete's turned into 500. *)
Lemma DeployPDF_reads_delete_status_only_witness :
  redeploy (world existingHandler td)
  = redeploy (world (withStatus 500 existingHandler) td).
Proof.
  apply (DeployPDF_reads_delete_status_only (L := Ref.lib)
           (world existingHandler td) (world (withStatus 500 existingHandler) td)
           "token" "existingdoc" "v2" "temp" "final" "" "/tmp/td" []);
    [reflexivity..| |].
  - intros h req Hdelete. simpl. unfold withStatus. by rewrite Hdelete.
  - intros h req Hother. simpl. unfold withStatus.
    by destruct (Method req =? "DELETE")%string.
Defined.

(** Both runs return nil; with a delete answered by status 500 the run fails. *)
Example DeployPDF_status_500_everywhere :
  (redeploy (world (withStatus 500 existingHandler) td)).1 = Return None
  ∧ (redeploy (world (constHandler 500 (js "{'files':[{'id':'oldid'}]}")) td)).1
    = Return (Some (errors_New
        ("failed to delete existing file: status 500: "
         +:+ js "{'files':[{'id':'oldid'}]}"))).
Proof. split; vm_compute; reflexivity. Qed.

Lemma lookup_path_one (name path : string) (entry : bool * string) :
  lookup_path [(name, entry)] path = if (name =? path)%string then Some entry else None.
Proof. unfold lookup_path. cbn [List.find fst]. by destruct (name =? path)%string. Qed.

(** X24 on a directory named [mydoc.pdf] and on an empty file of that name. *)
Lemma DeployPDF_ignores_read_errors_witness :
  DeployPDF (L := Ref.lib) (W := world noExistingHandler tdDir)
    "token" "mydoc" "v1" "temp" "final" "old" "/tmp/td" []
  = DeployPDF (L := Ref.lib) (W := world noExistingHandler tdEmpty)
      "token" "mydoc" "v1" "temp" "final" "old" "/tmp/td" [].
Proof.
  apply (DeployPDF_ignores_read_errors (L := Ref.lib)
           (world noExistingHandler tdDir) (world noExistingHandler tdEmpty)
           "token" "mydoc" "v1" "temp" "final" "old" "/tmp/td" []);
    [| |reflexivity..].
  - intros path. unfold world, tdDir, tdEmpty. cbn [os_Stat].
    rewrite !lookup_path_one.
    by destruct ("/tmp/td/mydoc.pdf" =? path)%string.
  - intros path. unfold world, tdDir, tdEmpty. cbn [os_Open].
    rewrite !lookup_path_one.
    by destruct ("/tmp/td/mydoc.pdf" =? path)%string.
Defined.

(** The directory is uploaded: the run returns nil after four requests,
    while [UploadFileToDrive] refuses the same path. *)
Example DeployPDF_uploads_directory :
  let run := DeployPDF (L := Ref.lib) (W := world noExistingHandler tdDir)
               "token" "mydoc" "v1" "temp" "final" "old" "/tmp/td" [] in
  run.1 = Return None
  ∧ Method <$> run.2 = ["GET"; "POST"; "PATCH"; "PATCH"]
  ∧ UploadFileToDrive (L := Ref.lib) (W := world noExistingHandler tdDir)
      "tok" "folder123" "/tmp/td/mydoc.pdf" []
    = (Return ("", Some (errors_New "filePath is a directory")), []).
Proof. split_and!; vm_compute; reflexivity. Qed.

(** X25 on a listing answered with status 200 and with status 401. *)
Lemma status_code_not_read_witness :
  check (listingHandler "exid" "v1" 200 "")
  = check (withStatus 401 (listingHandler "exid" "v1" 200 "")).
Proof.
  refine (proj1 (status_code_not_read (L := Ref.lib)
                   (world (listingHandler "exid" "v1" 200 "") td)
                   (world (withStatus 401 (listingHandler "exid" "v1" 200 "")) td) _)
            "token" "mydoc" "final" "v1" []).
  intros h req. simpl. unfold withStatus.
  by destruct (Method req =? "DELETE")%string.
Defined.

(** X20 on a transport that fails on the upload. *)
Lemma DeployPDF_transport_failures_witness :
  (deployFromUpload (L := Ref.lib)
     (W := flaky (λ r, (Method r =? "POST")%string) noExistingHandler td)
     "token" "mydoc" "v1" "temp" "final" "/tmp/td" []).1
  = Return (Some (fmt_Errorf_w "upload failed: "
                    (errors_New "dial tcp: connection refused")))
  ∧ drop 1 (deployFromUpload (L := Ref.lib)
              (W := flaky (λ r, (Method r =? "POST")%string) noExistingHandler td)
              "token" "mydoc" "v1" "temp" "final" "/tmp/td" []).2 = [].
Proof.
  refine (proj1 (DeployPDF_transport_failures (L := Ref.lib)
    (W := flaky (λ r, (Method r =? "POST")%string) noExistingHandler td)
    "token" "mydoc" "v1" "temp" "final" "/tmp/td" []
    (deployFromUpload (L := Ref.lib)
       (W := flaky (λ r, (Method r =? "POST")%string) noExistingHandler td)
       "token" "mydoc" "v1" "temp" "final" "/tmp/td" []).1
    (nth_request 0
       (deployFromUpload (L := Ref.lib)
          (W := flaky (λ r, (Method r =? "POST")%string) noExistingHandler td)
          "token" "mydoc" "v1" "temp" "final" "/tmp/td" []).2)
    (drop 1 (deployFromUpload (L := Ref.lib)
               (W := flaky (λ r, (Method r =? "POST")%string) noExistingHandler td)
               "token" "mydoc" "v1" "temp" "final" "/tmp/td" []).2)
    (errors_New "dial tcp: connection refused") _) _);
    vm_compute; reflexivity.
Defined.

(** X21 on the run of [TestDeployPDF_NoExisting_UploadAndMove]. *)
Lemma DeployPDF_nil_means_witness :
  ((deploy noExistingHandler).2 = [] ++ [search]
   ∧ ∃ resp Files,
       RoundTrip (World := world noExistingHandler td) [] search = inr resp
       ∧ Ref.Unmarshal_files (RespBody resp) = inr Files
       ∧ (firstFile Files).1 ≠ ""
       ∧ (firstFile Files).2 = "v1")
  ∨ (∃ pre f newFileID uresp mresp,
       (deploy noExistingHandler).2
       = pre ++ [deployUploadRequest (L := Ref.lib) (W := world noExistingHandler td)
                   "token" ("mydoc" +:+ ".pdf") "v1" "temp" f;
                 sharingRequest "token" newFileID;
                 moveRequest "token" newFileID "final" "temp"]
       ∧ os_Open (World := world noExistingHandler td)
           (Ref.Join "/tmp/td" ("mydoc" +:+ ".pdf")) = inr f
       ∧ RoundTrip (World := world noExistingHandler td) pre
           (deployUploadRequest (L := Ref.lib) (W := world noExistingHandler td)
              "token" ("mydoc" +:+ ".pdf") "v1" "temp" f) = inr uresp
       ∧ Ref.Unmarshal_id (RespBody uresp) = inr newFileID
       ∧ newFileID ≠ ""
       ∧ RoundTrip (World := world noExistingHandler td)
           (pre ++ [deployUploadRequest (L := Ref.lib)
                      (W := world noExistingHandler td)
                      "token" ("mydoc" +:+ ".pdf") "v1" "temp" f;
                    sharingRequest "token" newFileID])
           (moveRequest "token" newFileID "final" "temp") = inr mresp
       ∧ ∃ before after, RespBody mresp = before +:+ quoted_id +:+ after).
Proof.
  apply (DeployPDF_nil_means (L := Ref.lib) (W := world noExistingHandler td)
           "token" "mydoc" "v1" "temp" "final" "old" "/tmp/td" []
           (deploy noExistingHandler).2).
  vm_compute. reflexivity.
Defined.

End MoreExamples.
